(** * Vehicle ontology population tool (population.py): a shallow embedding

    The script loads an ontology and a CSV table, creates individuals for the
    classification values and for the vehicles, saves the populated ontology,
    runs the HermiT reasoner and reports statistics.

    The embedding follows the script section by section.  Values that the
    script receives from pandas are modelled by [pyval]; the ontology held by
    owlready2 is a finite map from entity names to entities; everything the
    script does to the outside world (log lines, files, library calls) is
    recorded in a chronological trace.  The parts of the world the script
    cannot control (file contents, I/O failures, library failures, the
    random sample, Python's number formatting and parsing) are the fields of
    an [environment]. *)

From Stdlib Require Import ZArith QArith String Ascii List Lia Bool Sorted Permutation.
From stdpp Require Import gmap strings list pretty.

Local Open Scope string_scope.
Local Open Scope Z_scope.

(** ** Python values *)

(** A finite int64/float64 value is represented by its exact value (every
    finite float is a rational); the two infinities are kept apart and NaN is
    a value of its own, as pandas uses it for missing cells. *)
Inductive number : Type :=
| Fin (q : Q)
| Inf (negative : bool).

Inductive pyval : Type :=
| VNone
| VNaN
| VStr (s : string)
| VNum (n : number).

(** Exceptions are identified by their message. *)
Definition exn : Type := string.

(** Result of a fallible pure computation. *)
Inductive except (A : Type) : Type :=
| Val (a : A)
| Exc (e : exn).
Arguments Val {A} a.
Arguments Exc {A} e.

Definition Qeqb (x y : Q) : bool := Qnum x * QDen y =? Qnum y * QDen x.
Definition Qltb (x y : Q) : bool := Qnum x * QDen y <? Qnum y * QDen x.

Definition number_eqb (a b : number) : bool :=
  match a, b with
  | Fin x, Fin y => Qeqb x y
  | Inf s, Inf t => Bool.eqb s t
  | _, _ => false
  end.

(** [a < b] on numbers (never called on NaN). *)
Definition number_ltb (a b : number) : bool :=
  match a, b with
  | Fin x, Fin y => Qltb x y
  | Inf true, Fin _ => true
  | Inf true, Inf false => true
  | Fin _, Inf false => true
  | _, _ => false
  end.

(** [pd.isna(v)] on a scalar. *)
Definition isna (v : pyval) : bool :=
  match v with
  | VNone | VNaN => true
  | _ => false
  end.

(** Truth value of a scalar ([if v], [not v]): None, the empty string and
    zero are false; NaN is true. *)
Definition truthy (v : pyval) : bool :=
  match v with
  | VNone => false
  | VNaN => true
  | VStr s => negb (String.eqb s "")
  | VNum (Fin q) => negb (Qeqb q 0)
  | VNum (Inf _) => true
  end.

(** [a == b] as used for dictionary keys and [unique()]. *)
Definition py_eqb (a b : pyval) : bool :=
  match a, b with
  | VNone, VNone => true
  | VStr s, VStr t => String.eqb s t
  | VNum x, VNum y => number_eqb x y
  | _, _ => false
  end.

(** ** Strings

    A Python [str] is a sequence of code points; a [string] here is a
    sequence of characters, each standing for the code point of its number
    (the code points 0..255). *)

Definition code (c : ascii) : N := N_of_ascii c.

Definition is_ascii_upper (c : ascii) : bool := ((65 <=? code c) && (code c <=? 90))%N.
Definition is_ascii_lower (c : ascii) : bool := ((97 <=? code c) && (code c <=? 122))%N.
Definition is_ascii_digit (c : ascii) : bool := ((48 <=? code c) && (code c <=? 57))%N.

(** The character class [[a-zA-Z0-9]]. *)
Definition is_alnum_class (c : ascii) : bool :=
  is_ascii_lower c || is_ascii_upper c || is_ascii_digit c.

(** [c.isalpha()] for the code points 0..255: the ASCII letters and the
    letters of the Latin-1 supplement. *)
Definition isalpha (c : ascii) : bool :=
  is_ascii_upper c || is_ascii_lower c
  || (code c =? 170)%N || (code c =? 181)%N || (code c =? 186)%N
  || ((192 <=? code c) && (code c <=? 214))%N
  || ((216 <=? code c) && (code c <=? 246))%N
  || ((248 <=? code c) && (code c <=? 255))%N.

Fixpoint string_map (f : ascii -> ascii) (s : string) : string :=
  match s with
  | EmptyString => EmptyString
  | String c r => String (f c) (string_map f r)
  end.

Fixpoint string_forall (p : ascii -> bool) (s : string) : bool :=
  match s with
  | EmptyString => true
  | String c r => p c && string_forall p r
  end.

(** [re.sub(r"[^a-zA-Z0-9]", "_", s)] *)
Definition re_sub_non_alnum (s : string) : string :=
  string_map (fun c => if is_alnum_class c then c else "_"%char) s.

(** [s.replace(old, new)] for a one-character [old]. *)
Fixpoint replace_char (old : ascii) (new : string) (s : string) : string :=
  match s with
  | EmptyString => EmptyString
  | String c r =>
      if Ascii.eqb c old then new ++ replace_char old new r
      else String c (replace_char old new r)
  end.

(** [s.lower()] on the code points 0..255. *)
Definition lower_char (c : ascii) : ascii :=
  if is_ascii_upper c
     || ((192 <=? code c) && (code c <=? 214))%N
     || ((216 <=? code c) && (code c <=? 222))%N
  then ascii_of_N (code c + 32) else c.

Definition lower (s : string) : string := string_map lower_char s.

(** [sub in s] for strings. *)
Fixpoint is_substring (sub s : string) : bool :=
  String.prefix sub s
  || match s with
     | EmptyString => false
     | String _ r => is_substring sub r
     end.

(** ** Constants of the script *)

Definition ONTOLOGY_FILENAME : string := "vehicle_ontology.rdf".
Definition OUTPUT_FILENAME : string := "vehicle_ontology_populated.rdf".
Definition DATA_FILENAME : string := "data.csv".
Definition ARTIFACTS_DIR : string := "artifacts".

Definition MAX_VEHICLES : nat := 1000.
Definition BATCH_SIZE : nat := 100.

Definition PREMIUM_THRESHOLD : Z := -10000.
Definition STANDARD_THRESHOLD : Z := -1000.

Definition FUEL_TYPE_MAP : list (string * string) :=
  [ ("CNG", "CNG");
    ("Diesel", "Diesel");
    ("Electricity", "Electricity");
    ("Gasoline or E85", "E85");
    ("Premium", "Premium");
    ("Regular", "Regular");
    ("Midgrade", "Midgrade");
    ("Premium Gas or Electricity", "Premium");
    ("Premium and Electricity", "Premium");
    ("Regular Gas and Electricity", "Regular");
    ("Regular Gas or Electricity", "Regular") ].

Definition DRIVE_TYPE_MAP : list (string * string) :=
  [ ("Front-Wheel Drive", "FrontWheelDrive");
    ("Rear-Wheel Drive", "RearWheelDrive");
    ("All-Wheel Drive", "AllWheelDrive");
    ("4-Wheel Drive", "FourWheelDrive");
    ("4-Wheel or All-Wheel Drive", "FourWheelDrive");
    ("Part-time 4-Wheel Drive", "FourWheelDrive");
    ("2-Wheel Drive", "FrontWheelDrive") ].

Definition SIZE_CLASS_MAP : list (string * string) :=
  [ ("Compact Cars", "CompactSize");
    ("Subcompact Cars", "SubcompactSize");
    ("Midsize Cars", "MidsizeSize");
    ("Large Cars", "LargeSize");
    ("Minicompact Cars", "MinicompactSize");
    ("Small Pickup Trucks", "PickupSize");
    ("Sport Utility Vehicle - 4WD", "SUVSize");
    ("Sport Utility Vehicle - 2WD", "SUVSize");
    ("Small Sport Utility Vehicle 4WD", "SUVSize");
    ("Small Sport Utility Vehicle 2WD", "SUVSize");
    ("Standard Sport Utility Vehicle 4WD", "SUVSize");
    ("Standard Sport Utility Vehicle 2WD", "SUVSize");
    ("Vans, Passenger Type", "VanSize") ].

Definition BODY_STYLE_MAP : list (string * string) :=
  [ ("Compact Cars", "Sedan");
    ("Subcompact Cars", "Sedan");
    ("Midsize Cars", "Sedan");
    ("Large Cars", "Sedan");
    ("Minicompact Cars", "Coupe");
    ("Two Seaters", "Coupe");
    ("Small Station Wagons", "Wagon");
    ("Midsize Station Wagons", "Wagon");
    ("Sport Utility Vehicle - 4WD", "SUV");
    ("Sport Utility Vehicle - 2WD", "SUV");
    ("Small Sport Utility Vehicle 4WD", "SUV");
    ("Small Sport Utility Vehicle 2WD", "SUV");
    ("Standard Sport Utility Vehicle 4WD", "SUV");
    ("Standard Sport Utility Vehicle 2WD", "SUV");
    ("Small Pickup Trucks", "Truck");
    ("Small Pickup Trucks 2WD", "Truck");
    ("Small Pickup Trucks 4WD", "Truck");
    ("Standard Pickup Trucks", "Truck");
    ("Standard Pickup Trucks 2WD", "Truck");
    ("Standard Pickup Trucks 4WD", "Truck");
    ("Standard Pickup Trucks/2wd", "Truck");
    ("Vans", "Van");
    ("Vans Passenger", "Van");
    ("Vans, Cargo Type", "Van");
    ("Vans, Passenger Type", "Van");
    ("Minivan - 2WD", "Van");
    ("Minivan - 4WD", "Van") ].

Definition BOOST_SYSTEM_MAP : list (string * string) :=
  [ ("T", "Turbocharger"); ("S", "Supercharger") ].

Definition ELECTRIC_FUEL_TYPES : list string :=
  [ "Electricity";
    "Premium Gas or Electricity";
    "Premium and Electricity";
    "Regular Gas and Electricity";
    "Regular Gas or Electricity" ].

(** ** Pure helpers of the script *)

Section Helpers.

(** [str(x)] for a numeric scalar, a Python builtin. *)
Variable repr_number : number -> string.

(** [str(v)] *)
Definition py_str (v : pyval) : string :=
  match v with
  | VNone => "None"
  | VNaN => "nan"
  | VStr s => s
  | VNum n => repr_number n
  end.

(** [create_valid_id(text)]; indexing the empty string raises. *)
Definition create_valid_id (text : pyval) : except string :=
  if negb (truthy text) then Val "Unknown"
  else
    let valid_id := re_sub_non_alnum (py_str text) in
    match valid_id with
    | EmptyString => Exc "IndexError: string index out of range"
    | String c _ =>
        if negb (isalpha c) then Val ("V_" ++ valid_id) else Val valid_id
    end.

End Helpers.

(** [get_market_segment(savings)]; ordering a string against an integer
    raises. *)
Definition get_market_segment (savings : pyval) : except string :=
  if isna savings then Val "StandardMarket"
  else
    match savings with
    | VNum n =>
        if number_ltb n (Fin (inject_Z PREMIUM_THRESHOLD)) then Val "PremiumMarket"
        else if number_ltb n (Fin (inject_Z STANDARD_THRESHOLD)) then Val "StandardMarket"
        else Val "EconomyMarket"
    | _ => Exc "TypeError: '<' not supported between instances of 'str' and 'int'"
    end.

(** ** Python builtins on scalars *)

Definition str_of_nat (n : nat) : string := pretty n.
Definition str_of_Z (z : Z) : string := pretty z.

Fixpoint zeros (n : nat) : string :=
  match n with
  | O => ""
  | S k => String "0" (zeros k)
  end.

Definition zero_pad (width : nat) (digits : string) : string :=
  zeros (width - String.length digits) ++ digits.

(** [f"{z:05d}"]: sign-aware zero padding to width five. *)
Definition format_05d (z : Z) : string :=
  if z <? 0 then "-" ++ zero_pad 4 (pretty (Z.to_N (- z)))
  else zero_pad 5 (pretty (Z.to_N z)).

(** Methods of [str] called on a value that may not be a string. *)
Definition as_str (v : pyval) (method : string) : except string :=
  match v with
  | VStr s => Val s
  | _ => Exc ("AttributeError: object has no attribute '" ++ method ++ "'")
  end.

(** ** Tables (pandas) *)

(** One row as [iterrows()] yields it: the column labels and the cells. *)
Record Series : Type := {
  s_columns : list string;
  s_value : string -> pyval
}.

(** A frame: its column labels and its rows, each with its index label. *)
Record DataFrame : Type := {
  df_columns : list string;
  df_rows : list (Z * (string -> pyval))
}.

(** [c in row], [c in data.columns] *)
Definition has_label (c : string) (labels : list string) : bool :=
  existsb (String.eqb c) labels.

(** [c in row and not pd.isna(row[c])] *)
Definition present (row : Series) (c : string) : bool :=
  has_label c (s_columns row) && negb (isna (s_value row c)).

Definition iterrows (data : DataFrame) : list (Z * Series) :=
  map (fun r => (fst r, {| s_columns := df_columns data; s_value := snd r |}))
      (df_rows data).

(** [data[c]] *)
Definition column (data : DataFrame) (c : string) : list pyval :=
  map (fun r => snd r c) (df_rows data).

Definition dropna (l : list pyval) : list pyval :=
  List.filter (fun v => negb (isna v)) l.

(** [unique()]: the values in order of first appearance. *)
Fixpoint unique (l : list pyval) : list pyval :=
  match l with
  | [] => []
  | v :: r => v :: List.filter (fun w => negb (py_eqb v w)) (unique r)
  end.

(** [len(data)] *)
Definition df_len (data : DataFrame) : nat := length (df_rows data).

(** [data.sample(n)]: [n] rows drawn without replacement; [pick] is the
    random source, consulted once per draw. *)
Fixpoint remove_nth {A : Type} (i : nat) (l : list A) : list A :=
  match l, i with
  | [], _ => []
  | _ :: r, O => r
  | x :: r, S j => x :: remove_nth j r
  end.

Fixpoint sample_rows {A : Type} (pick : nat -> nat) (n : nat) (l : list A) : list A :=
  match n with
  | O => []
  | S k =>
      match nth_error l (pick n mod length l) with
      | Some x => x :: sample_rows pick k (remove_nth (pick n mod length l) l)
      | None => []
      end
  end.

Definition df_sample (pick : nat -> nat) (n : nat) (data : DataFrame) : DataFrame :=
  {| df_columns := df_columns data;
     df_rows := sample_rows pick n (df_rows data) |}.

(** ** Dictionaries keyed by scalars *)

Definition pydict (V : Type) : Type := list (pyval * V).

Fixpoint dict_get {V : Type} (d : pydict V) (k : pyval) : option V :=
  match d with
  | [] => None
  | (k', v) :: r => if py_eqb k' k then Some v else dict_get r k
  end.

(** [k in d] *)
Definition dict_mem {V : Type} (d : pydict V) (k : pyval) : bool :=
  match dict_get d k with
  | Some _ => true
  | None => false
  end.

(** [d[k] = v] *)
Fixpoint dict_set {V : Type} (d : pydict V) (k : pyval) (v : V) : pydict V :=
  match d with
  | [] => [(k, v)]
  | (k', v') :: r =>
      if py_eqb k' k then (k', v) :: r else (k', v') :: dict_set r k v
  end.

(** ** The ontology (owlready2) *)

(** A reference to an entity of the ontology, or Python's [None]. *)
Definition ref : Type := option string.

(** Values assigned to the attributes of an entity. *)
Inductive attr : Type :=
| AStr (s : string)
| AInt (z : Z)
| ANum (n : number)
| ABool (b : bool)
| AObj (r : ref).

Record entity : Type := {
  ent_is_class : bool;
  ent_types : list string;
  ent_attrs : gmap string attr
}.

(** The entities of the ontology by name. *)
Abbreviation ontology := (gmap string entity).

(** [getattr(onto, name)]: the entity of that name, or [None]. *)
Definition onto_getattr (o : ontology) (name : string) : ref :=
  match o !! name with
  | Some _ => Some name
  | None => None
  end.

Definition add_type (cls : string) (e : entity) : entity :=
  {| ent_is_class := ent_is_class e;
     ent_types := if has_label cls (ent_types e) then ent_types e
                  else ent_types e ++ [cls];
     ent_attrs := ent_attrs e |}.

Definition set_ent_attr (prop : string) (v : attr) (e : entity) : entity :=
  {| ent_is_class := ent_is_class e;
     ent_types := ent_types e;
     ent_attrs := <[prop := v]> (ent_attrs e) |}.

Definition fresh_individual (cls : string) : entity :=
  {| ent_is_class := false; ent_types := [cls]; ent_attrs := ∅ |}.

(** The attribute [prop] of the entity [name], if it was ever assigned. *)
Definition get_attr (o : ontology) (name prop : string) : option attr :=
  match o !! name with
  | Some e => ent_attrs e !! prop
  | None => None
  end.

(** Calls into owlready2 that can fail for reasons of the library's own. *)
Inductive libcall : Type :=
| CallNew (cls name : string)
| CallSetAttr (name prop : string) (v : attr)
| CallSave (file : string)
| CallReasoner
| CallIndividuals
| CallInstances (cls : string).

(** ** The outside world *)

Record environment : Type := {
  (** Python builtins: [str] of a number, [int] of a string,
      [float(Decimal(s))] of a string *)
  repr_number : number -> string;
  int_of_string : string -> option Z;
  decimal_of_string : string -> option number;
  (** [float(Decimal(str(x)))] of a number: rounding to a float *)
  float_of_number : number -> number;
  (** the file system *)
  ontology_file : exn + ontology;
  artifacts_dir_exists : bool;
  makedirs_fault : option exn;
  csv_default : exn + DataFrame;
  csv_semicolon : exn + DataFrame;
  open_fault : string -> option exn;
  (** the random source of [data.sample] *)
  sample_source : nat -> nat;
  (** owlready2 and the reasoner *)
  lib_fault : ontology -> libcall -> option exn;
  reasoner : ontology -> ontology;
  count_individuals : ontology -> nat;
  count_instances : ontology -> string -> nat
}.

(** What the script does to the outside world, in order. *)
Inductive event : Type :=
| EvLog (message : string)
| EvLoadOntology (file : string)
| EvMakedirs (directory : string)
| EvReadCsv (file : string) (sep : string)
| EvOpen (file : string)
| EvWrite (file : string) (text : string)
| EvNew (cls name : string)
| EvSetAttr (name prop : string) (v : attr)
| EvSave (file : string) (snapshot : ontology)
| EvReasoner
| EvQuery (q : libcall).

(** ** Effects: ontology, trace, exceptions and [sys.exit] *)

Record state : Type := {
  onto : ontology;
  trace : list event
}.

Inductive outcome (A : Type) : Type :=
| Ok (a : A)
| Raise (e : exn)
| SysExit (code : Z).
Arguments Ok {A} a.
Arguments Raise {A} e.
Arguments SysExit {A} code.

Definition M (A : Type) : Type := state -> outcome A * state.

Definition ret {A : Type} (a : A) : M A := fun st => (Ok a, st).

Definition bind {A B : Type} (m : M A) (k : A -> M B) : M B :=
  fun st =>
    match m st with
    | (Ok a, st') => k a st'
    | (Raise e, st') => (Raise e, st')
    | (SysExit c, st') => (SysExit c, st')
    end.

Declare Scope py_scope.
Delimit Scope py_scope with py.
Notation "x <- m ;; k" := (bind m (fun x => k))
  (at level 100, m at next level, right associativity) : py_scope.
Notation "m ;; k" := (bind m (fun _ => k))
  (at level 100, right associativity) : py_scope.
Local Open Scope py_scope.

Definition raise {A : Type} (e : exn) : M A := fun st => (Raise e, st).

(** [sys.exit(code)] raises SystemExit, which [except Exception] lets through. *)
Definition sys_exit {A : Type} (code : Z) : M A := fun st => (SysExit code, st).

Definition emit (ev : event) : M unit :=
  fun st => (Ok tt, {| onto := onto st; trace := trace st ++ [ev] |}).

Definition get_onto : M ontology := fun st => (Ok (onto st), st).

Definition put_onto (o : ontology) : M unit :=
  fun st => (Ok tt, {| onto := o; trace := trace st |}).

(** [try: body except Exception as e: handler(e)] *)
Definition try_except {A : Type} (body : M A) (handler : exn -> M A) : M A :=
  fun st =>
    match body st with
    | (Raise e, st') => handler e st'
    | r => r
    end.

Definition lift {A : Type} (x : except A) : M A :=
  match x with
  | Val a => ret a
  | Exc e => raise e
  end.

Definition when (b : bool) (m : M unit) : M unit :=
  if b then m else ret tt.

(** [for x in l: body(x)] *)
Fixpoint for_each {A : Type} (l : list A) (body : A -> M unit) : M unit :=
  match l with
  | [] => ret tt
  | x :: r => body x ;; for_each r body
  end.

(** A [for] loop that updates local variables [S]. *)
Fixpoint for_fold {A S : Type} (l : list A) (body : S -> A -> M S) (s : S) : M S :=
  match l with
  | [] => ret s
  | x :: r => s' <- body s x ;; for_fold r body s'
  end.

(** [log(message)]; the time stamp is left out. *)
Definition log (message : string) : M unit := emit (EvLog message).

(** ** Fallible pure computations *)

Definition ebind {A B : Type} (x : except A) (k : A -> except B) : except B :=
  match x with
  | Val a => k a
  | Exc e => Exc e
  end.

(** [a < b] between scalars; NaN compares false, a string against a number
    raises. *)
Definition py_ltb (a b : pyval) : except bool :=
  match a, b with
  | VStr s, VStr t => Val (String.ltb s t)
  | VNum x, VNum y => Val (number_ltb x y)
  | VNaN, VNum _ | VNum _, VNaN | VNaN, VNaN => Val false
  | _, _ => Exc "TypeError: '<' not supported between these instances"
  end.

Fixpoint insert_sorted (x : pyval) (l : list pyval) : except (list pyval) :=
  match l with
  | [] => Val [x]
  | y :: r =>
      ebind (py_ltb x y) (fun lt =>
        if lt then Val (x :: y :: r)
        else ebind (insert_sorted x r) (fun r' => Val (y :: r')))
  end.

(** [sorted(values)] *)
Fixpoint py_sorted (l : list pyval) : except (list pyval) :=
  match l with
  | [] => Val []
  | x :: r => ebind (py_sorted r) (insert_sorted x)
  end.

Definition newline : string := String (ascii_of_nat 10) EmptyString.

(** [os.path.join(a, b)] for a directory name [a] without trailing slash. *)
Definition path_join (a b : string) : string :=
  if String.prefix "/" b then b else a ++ "/" ++ b.

(** The classification dictionaries of the main loop. *)
Record mappings : Type := {
  fuel_type_map : pydict ref;
  drive_type_map : pydict ref;
  size_class_map : pydict ref;
  body_style_map : pydict ref;
  manufacturer_map : pydict ref;
  model_year_map : pydict ref
}.

Definition vehicle_categories : list string :=
  [ "PropulsionVehicle"; "BodyStyleVehicle"; "DriveTypeVehicle";
    "ConventionalFuelVehicle"; "AlternativeFuelVehicle"; "ElectrifiedVehicle";
    "DieselVehicle"; "GasolineVehicle"; "RegularGasolineVehicle";
    "PremiumGasolineVehicle"; "HybridElectricVehicle"; "PureElectricVehicle";
    "PassengerVehicle"; "UtilityVehicle"; "SedanVehicle"; "CoupeVehicle";
    "WagonVehicle"; "HatchbackVehicle"; "SUVVehicle"; "TruckVehicle";
    "VanVehicle";
    "FrontWheelDriveVehicle"; "RearWheelDriveVehicle"; "AllWheelDriveVehicle";
    "FourWheelDriveVehicle";
    "CompactDiesel"; "MidsizeDiesel"; "LargeDiesel";
    "CompactRegular"; "MidsizeRegular"; "LargeRegular";
    "CompactHybrid"; "MidsizeHybrid"; "LargeHybrid";
    "CompactElectric"; "MidsizeElectric"; "LargeElectric" ].

(** [{key: getattr(onto, value) for key, value in table.items()}] *)
Definition build_map (o : ontology) (table : list (string * string)) : pydict ref :=
  fold_left (fun d kv => dict_set d (VStr (fst kv)) (onto_getattr o (snd kv))) table [].

(** ** The script *)

Section Script.

Variable E : environment.

Definition str (v : pyval) : string := py_str (repr_number E) v.

(** [int(v)]: truncation of a number, parsing of a string. *)
Definition py_int (v : pyval) : except Z :=
  match v with
  | VStr s =>
      match int_of_string E s with
      | Some z => Val z
      | None => Exc ("ValueError: invalid literal for int() with base 10: '" ++ s ++ "'")
      end
  | VNum (Fin q) => Val (Z.quot (Qnum q) (QDen q))
  | VNum (Inf _) => Exc "OverflowError: cannot convert float infinity to integer"
  | VNaN => Exc "ValueError: cannot convert float NaN to integer"
  | VNone => Exc "TypeError: int() argument must be a string or a real number"
  end.

(** *** owlready2 *)

(** [onto.<cls>(name)]: an individual of that name is created, or the
    entity that already has the name is reused. *)
Definition new_individual (cls name : string) : M string :=
  o <- get_onto ;;
  match o !! cls with
  | None => raise "TypeError: 'NoneType' object is not callable"
  | Some c =>
      if negb (ent_is_class c) then raise "TypeError: object is not callable"
      else
        match lib_fault E o (CallNew cls name) with
        | Some e => raise e
        | None =>
            put_onto (<[name := match o !! name with
                                | Some ent => add_type cls ent
                                | None => fresh_individual cls
                                end]> o) ;;
            emit (EvNew cls name) ;;
            ret name
        end
  end.

(** [entity.prop = v] *)
Definition set_attr (name prop : string) (v : attr) : M unit :=
  o <- get_onto ;;
  match lib_fault E o (CallSetAttr name prop v) with
  | Some e => raise e
  | None =>
      put_onto (alter (set_ent_attr prop v) name o) ;;
      emit (EvSetAttr name prop v)
  end.

(** [onto.save(file=file, format="rdfxml")] *)
Definition onto_save (file : string) : M unit :=
  o <- get_onto ;;
  match lib_fault E o (CallSave file) with
  | Some e => raise e
  | None => emit (EvSave file o)
  end.

(** [sync_reasoner_hermit(infer_property_values=True)] *)
Definition sync_reasoner_hermit : M unit :=
  emit EvReasoner ;;
  o <- get_onto ;;
  match lib_fault E o CallReasoner with
  | Some e => raise e
  | None => put_onto (reasoner E o)
  end.

(** [len(list(onto.individuals()))] *)
Definition count_all_individuals : M nat :=
  o <- get_onto ;;
  emit (EvQuery CallIndividuals) ;;
  match lib_fault E o CallIndividuals with
  | Some e => raise e
  | None => ret (count_individuals E o)
  end.

(** [len(list(getattr(onto, cls).instances()))] *)
Definition count_class_instances (cls : string) : M nat :=
  o <- get_onto ;;
  match onto_getattr o cls with
  | None => raise "AttributeError: 'NoneType' object has no attribute 'instances'"
  | Some _ =>
      emit (EvQuery (CallInstances cls)) ;;
      match lib_fault E o (CallInstances cls) with
      | Some e => raise e
      | None => ret (count_instances E o cls)
      end
  end.

(** *** Helper functions of the script *)

Definition ensure_dir (directory : string) : M unit :=
  if negb (artifacts_dir_exists E) then
    match makedirs_fault E with
    | Some e => raise e
    | None =>
        emit (EvMakedirs directory) ;;
        log ("Created directory: " ++ directory)
    end
  else ret tt.

(** [open(filename, "w", encoding="utf-8")] *)
Definition open_write (filename : string) : M unit :=
  match open_fault E filename with
  | Some e => raise e
  | None => emit (EvOpen filename)
  end.

Definition save_unique_values (values : list pyval) (filename : string) : M unit :=
  open_write filename ;;
  sorted <- lift (py_sorted values) ;;
  for_each sorted (fun value =>
    when (negb (isna value)) (emit (EvWrite filename (str value ++ newline)))) ;;
  log ("Saved " ++ str_of_nat (length values) ++ " unique values to " ++ filename).

Definition safe_numeric_conversion (value : pyval) : M (option number) :=
  if isna value then ret None
  else
    match value with
    | VNum n => ret (Some (float_of_number E n))
    | VStr s =>
        match decimal_of_string E s with
        | Some n => ret (Some n)
        | None =>
            log ("WARNING: Could not convert value '" ++ s ++ "' to a numeric type") ;;
            ret None
        end
    | _ => ret None
    end.

(** *** Loading *)

Definition load_ontology : M unit :=
  try_except
    (emit (EvLoadOntology ONTOLOGY_FILENAME) ;;
     match ontology_file E with
     | inl e => raise e
     | inr o =>
         put_onto o ;;
         log ("Ontology '" ++ ONTOLOGY_FILENAME ++ "' loaded successfully")
     end)
    (fun e =>
       log ("ERROR loading ontology: " ++ e) ;;
       log ("Ontology must be present as '" ++ ONTOLOGY_FILENAME ++ "'") ;;
       sys_exit 1).

(** [pd.read_csv(DATA_FILENAME)] and [pd.read_csv(DATA_FILENAME, sep=";")] *)
Definition read_csv (sep : string) (result : exn + DataFrame) : M DataFrame :=
  emit (EvReadCsv DATA_FILENAME sep) ;;
  match result with
  | inl e => raise e
  | inr data => ret data
  end.

Definition shape_message (data : DataFrame) : string :=
  str_of_nat (df_len data) ++ " rows and "
  ++ str_of_nat (length (df_columns data)) ++ " columns".

Definition load_data : M DataFrame :=
  log ("Loading " ++ DATA_FILENAME ++ "...") ;;
  try_except
    (data <- read_csv "," (csv_default E) ;;
     log ("Data loaded successfully with " ++ shape_message data) ;;
     ret data)
    (fun e =>
       log ("Error loading " ++ DATA_FILENAME ++ " with default delimiter: " ++ e) ;;
       try_except
         (data <- read_csv ";" (csv_semicolon E) ;;
          log ("Data loaded successfully with delimiter ';' - " ++ shape_message data) ;;
          ret data)
         (fun e' =>
            log ("Error loading " ++ DATA_FILENAME ++ " with alternate delimiter: " ++ e') ;;
            sys_exit 1)).

(** *** Unique values and column statistics *)

Definition values_filename (column : string) : string :=
  replace_char "/" "_" (replace_char " " "_" (lower column)).

Definition values_path (column : string) : string :=
  path_join ARTIFACTS_DIR (values_filename column ++ "_values.txt").

Definition stats_path : string := path_join ARTIFACTS_DIR "column_statistics.csv".

(** [data[column].isna().sum()] *)
Definition null_count (data : DataFrame) (c : string) : nat :=
  length (List.filter isna (column data c)).

Definition export_artifacts (data : DataFrame) : M unit :=
  log "Extracting and saving unique values from each column..." ;;
  column_stats <-
    for_fold (df_columns data)
      (fun (column_stats : pydict (nat * nat)) c =>
         let values := unique (dropna (column data c)) in
         let column_stats' :=
           dict_set column_stats (VStr c) (length values, null_count data c) in
         save_unique_values values (values_path c) ;;
         ret column_stats')
      [] ;;
  open_write stats_path ;;
  emit (EvWrite stats_path ("Column,Unique Values,Null Count" ++ newline)) ;;
  for_each column_stats (fun item =>
    emit (EvWrite stats_path
            (str (fst item) ++ "," ++ str_of_nat (fst (snd item)) ++ ","
             ++ str_of_nat (snd (snd item)) ++ newline))) ;;
  log ("Saved column statistics to " ++ stats_path).

(** *** Classification mappings *)

(** The three loops that add the values of the data set that the static
    tables do not list; they differ in the class, the identifier and the
    wording of the log lines. *)
Definition add_new_values (cls noun : string) (id_of : string -> string)
    (values : list pyval) (table : pydict ref) : M (pydict ref) :=
  for_fold values
    (fun table v =>
       if truthy v && negb (isna v) && negb (dict_mem table v) then
         s <- lift (as_str v "replace") ;;
         let new_id := id_of s in
         try_except
           (new <- new_individual cls new_id ;;
            log ("Added new " ++ cls ++ ": " ++ s ++ " -> " ++ new_id) ;;
            ret (dict_set table v (Some new)))
           (fun e =>
              log ("Error adding " ++ noun ++ " " ++ new_id ++ ": " ++ e) ;;
              ret table)
       else ret table)
    table.

Definition fuel_id (s : string) : string :=
  replace_char "/" "_" (replace_char "-" "_" (replace_char " " "_" s)).

Definition class_id (s : string) : string :=
  replace_char "/" "_"
    (replace_char "," "" (replace_char "-" "_" (replace_char " " "_" s))).

Definition drive_id (s : string) : string :=
  replace_char "/" "_" (replace_char "-" "_" (replace_char " " "_" s)).

Definition column_values (data : DataFrame) (c : string) : list pyval :=
  unique (dropna (column data c)).

Definition add_default_body_styles (values : list pyval) (table : pydict ref)
    : M (pydict ref) :=
  for_fold values
    (fun table v =>
       if truthy v && negb (isna v) && negb (dict_mem table v) then
         o <- get_onto ;;
         log ("Added default body style mapping for " ++ str v ++ " -> Sedan") ;;
         ret (dict_set table v (onto_getattr o "Sedan"))
       else ret table)
    table.

(** The dictionaries of ontology objects; the fifth one, for the boost
    systems, is built like the others and not used afterwards. *)
Definition setup_mappings (data : DataFrame)
    : M (pydict ref * pydict ref * pydict ref * pydict ref) :=
  log "Setting up classification mappings..." ;;
  o <- get_onto ;;
  let fuel := build_map o FUEL_TYPE_MAP in
  let drive := build_map o DRIVE_TYPE_MAP in
  let size := build_map o SIZE_CLASS_MAP in
  let body := build_map o BODY_STYLE_MAP in
  let boost_system_map := build_map o BOOST_SYSTEM_MAP in
  fuel <- (if has_label "Fuel Type" (df_columns data)
           then add_new_values "FuelType" "fuel type" fuel_id
                  (column_values data "Fuel Type") fuel
           else ret fuel) ;;
  size <- (if has_label "Vehicle Size Class" (df_columns data)
           then add_new_values "VehicleSizeClass" "size class" class_id
                  (column_values data "Vehicle Size Class") size
           else ret size) ;;
  drive <- (if has_label "Drive" (df_columns data)
            then add_new_values "DriveType" "drive type" drive_id
                   (column_values data "Drive") drive
            else ret drive) ;;
  body <- (if has_label "Vehicle Size Class" (df_columns data)
           then add_default_body_styles
                  (column_values data "Vehicle Size Class") body
           else ret body) ;;
  ret (fuel, drive, size, body).

Definition create_manufacturers (data : DataFrame) : M (pydict ref) :=
  log "Creating manufacturer individuals..." ;;
  if has_label "Make" (df_columns data) then
    table <-
      for_fold (column_values data "Make")
        (fun (table : pydict ref) make =>
           if truthy make && negb (isna make) then
             make_id <- lift (create_valid_id (repr_number E) make) ;;
             table' <-
               try_except
                 (manufacturer <- new_individual "Manufacturer" make_id ;;
                  ret (dict_set table make (Some manufacturer)))
                 (fun e =>
                    log ("Error adding manufacturer " ++ make_id ++ ": " ++ e) ;;
                    ret table) ;;
             when (length table' mod 20 =? 0)%nat
               (log ("Created " ++ str_of_nat (length table') ++ " manufacturers...")) ;;
             ret table'
           else ret table)
        [] ;;
    log ("Created all " ++ str_of_nat (length table) ++ " manufacturers") ;;
    ret table
  else ret [].

Definition year_id (y : Z) : string := "Year_" ++ str_of_Z y.

Definition create_model_years (data : DataFrame) : M (pydict ref) :=
  log "Creating model year individuals..." ;;
  if has_label "Year" (df_columns data) then
    table <-
      for_fold (column_values data "Year")
        (fun (table : pydict ref) year =>
           if truthy year && negb (isna year) then
             y <- lift (py_int year) ;;
             try_except
               (year_individual <- new_individual "ModelYear" (year_id y) ;;
                ret (dict_set table year (Some year_individual)))
               (fun e =>
                  log ("Error adding model year " ++ year_id y ++ ": " ++ e) ;;
                  ret table)
           else ret table)
        [] ;;
    log ("Created " ++ str_of_nat (length table) ++ " model years") ;;
    ret table
  else ret [].

(** *** Vehicles *)

(** The identifier of the vehicle of a row, computed before the [try]. *)
Definition vehicle_id (i : Z) (row : Series) : except string :=
  let row_id := if present row "ID" then s_value row "ID"
                else VNum (Fin (inject_Z i)) in
  ebind (py_int row_id) (fun n =>
  let id_with_zeros := format_05d n in
  let make := if present row "Make" then str (s_value row "Make") else "Unknown" in
  let model := if present row "Model" then str (s_value row "Model") else "Unknown" in
  ebind (if present row "Year"
         then ebind (py_int (s_value row "Year")) (fun y => Val (str_of_Z y))
         else Val "") (fun year =>
  let prefix := replace_char " " "_" (make ++ "_" ++ model ++ "_" ++ year) in
  ebind (create_valid_id (repr_number E) (VStr prefix)) (fun prefix =>
  Val (prefix ++ "_" ++ id_with_zeros)))).

Definition set_string (vehicle prop : string) (row : Series) (c : string) : M unit :=
  when (present row c) (set_attr vehicle prop (AStr (str (s_value row c)))).

Definition set_numeric (vehicle prop : string) (row : Series) (c : string) : M unit :=
  when (present row c)
    (value <- safe_numeric_conversion (s_value row c) ;;
     match value with
     | Some n => set_attr vehicle prop (ANum n)
     | None => ret tt
     end).

Definition set_mapped (vehicle prop : string) (row : Series) (c : string)
    (table : pydict ref) : M unit :=
  when (present row c)
    (match dict_get table (s_value row c) with
     | Some target => set_attr vehicle prop (AObj target)
     | None => ret tt
     end).

Definition fuel_has_electricity (row : Series) : bool :=
  present row "Fuel Type"
  && (existsb (String.eqb (str (s_value row "Fuel Type"))) ELECTRIC_FUEL_TYPES
      || is_substring "Electricity" (str (s_value row "Fuel Type"))).

(** The sections of the body of the [try] of the main loop, in order. *)

Definition set_data_properties (vehicle : string) (row : Series) : M unit :=
  set_string vehicle "make" row "Make" ;;
  set_string vehicle "model" row "Model" ;;
  when (present row "Year")
    (y <- lift (py_int (s_value row "Year")) ;; set_attr vehicle "year" (AInt y)) ;;
  set_numeric vehicle "cylinders" row "Cylinders" ;;
  set_numeric vehicle "savings" row "You Save/Spend" ;;
  set_string vehicle "transmission" row "Transmission" ;;
  set_numeric vehicle "co2Emissions" row "Co2 Fuel Type1" ;;
  set_string vehicle "engineDescriptor" row "Engine descriptor" ;;
  set_numeric vehicle "epaFuelEconomyScore" row "EPA Fuel Economy Score" ;;
  set_numeric vehicle "ghgScore" row "GHG Score" ;;
  set_numeric vehicle "annualPetroleumConsumption" row
    "Annual Petroleum Consumption For Fuel Type1" ;;
  set_numeric vehicle "cityGasolineConsumption" row "City gasoline consumption" ;;
  set_numeric vehicle "cityElectricityConsumption" row "City electricity consumption" ;;
  set_string vehicle "mpgData" row "MPG Data".

(** The value of [has_electricity] when it is assigned to the vehicle. *)
Definition has_electricity (row : Series) : bool :=
  if present row "Electric motor" then true else fuel_has_electricity row.

Definition set_electricity (vehicle : string) (row : Series) : M unit :=
  when (present row "Electric motor")
    (set_attr vehicle "electricMotorSpec" (AStr (str (s_value row "Electric motor")))) ;;
  set_attr vehicle "hasElectricity" (ABool (has_electricity row)).

Definition set_body_style (maps : mappings) (vehicle : string) (row : Series) : M unit :=
  when (present row "Vehicle Size Class")
    (match dict_get (body_style_map maps) (s_value row "Vehicle Size Class") with
     | Some target => set_attr vehicle "hasBodyStyle" (AObj target)
     | None =>
         o <- get_onto ;;
         set_attr vehicle "hasBodyStyle" (AObj (onto_getattr o "Sedan"))
     end).

(** The name of the boost system of a row. *)
Definition boost_system (row : Series) : string :=
  if present row "T Charger" && py_eqb (s_value row "T Charger") (VStr "T")
  then "Turbocharger"
  else if present row "S Charger" && py_eqb (s_value row "S Charger") (VStr "S")
  then "Supercharger"
  else "NaturallyAspirated".

Definition set_boost_system (vehicle : string) (row : Series) : M unit :=
  o <- get_onto ;;
  set_attr vehicle "hasBoostSystem" (AObj (onto_getattr o (boost_system row))).

Definition set_market_segment (vehicle : string) (row : Series) : M unit :=
  if present row "You Save/Spend" then
    market_segment <- lift (get_market_segment (s_value row "You Save/Spend")) ;;
    o <- get_onto ;;
    set_attr vehicle "hasMarketSegment" (AObj (onto_getattr o market_segment))
  else
    o <- get_onto ;;
    set_attr vehicle "hasMarketSegment" (AObj (onto_getattr o "StandardMarket")).

(** The body of the [try] of the main loop. *)
Definition populate_vehicle (maps : mappings) (vehicle_id : string) (row : Series)
    : M unit :=
  vehicle <- new_individual "Vehicle" vehicle_id ;;
  set_data_properties vehicle row ;;
  set_electricity vehicle row ;;
  set_mapped vehicle "hasFuelType" row "Fuel Type" (fuel_type_map maps) ;;
  set_mapped vehicle "hasDriveType" row "Drive" (drive_type_map maps) ;;
  set_mapped vehicle "hasSizeClass" row "Vehicle Size Class" (size_class_map maps) ;;
  set_mapped vehicle "hasManufacturer" row "Make" (manufacturer_map maps) ;;
  set_mapped vehicle "hasModelYear" row "Year" (model_year_map maps) ;;
  set_body_style maps vehicle row ;;
  set_boost_system vehicle row ;;
  set_market_segment vehicle row.

Definition batch_message (processed_count sample_size : nat) : string :=
  "Processing vehicle batch " ++ str_of_nat (processed_count / BATCH_SIZE + 1)
  ++ "/" ++ str_of_nat ((sample_size + BATCH_SIZE - 1) / BATCH_SIZE) ++ "...".

(** One iteration of the main loop on the counters
    [(processed_count, successful_count)]. *)
Definition process_row (maps : mappings) (sample_size : nat)
    (counts : nat * nat) (item : Z * Series) : M (nat * nat) :=
  let processed_count := fst counts in
  let successful_count := snd counts in
  when (processed_count mod BATCH_SIZE =? 0)%nat
    (log (batch_message processed_count sample_size)) ;;
  vehicle_id <- lift (vehicle_id (fst item) (snd item)) ;;
  successful_count <-
    try_except
      (populate_vehicle maps vehicle_id (snd item) ;;
       ret (S successful_count))
      (fun e =>
         log ("ERROR processing vehicle " ++ vehicle_id ++ ": " ++ e) ;;
         ret successful_count) ;;
  ret (S processed_count, successful_count).

(** [sample_size] and [sample_data] *)
Definition sample_size (data : DataFrame) : nat := Nat.min MAX_VEHICLES (df_len data).

Definition select_sample (data : DataFrame) : M DataFrame :=
  if (sample_size data <? df_len data)%nat then
    log ("Processing " ++ str_of_nat (sample_size data) ++ " sample vehicles out of "
         ++ str_of_nat (df_len data) ++ " total...") ;;
    ret (df_sample (sample_source E) (sample_size data) data)
  else
    log ("Processing all " ++ str_of_nat (sample_size data) ++ " vehicles...") ;;
    ret data.

Definition populate_vehicles (data : DataFrame) (maps : mappings) : M (nat * nat) :=
  log "Populating Vehicle instances..." ;;
  sample_data <- select_sample data ;;
  counts <- for_fold (iterrows sample_data)
              (process_row maps (sample_size data)) (O, O) ;;
  log ("Vehicle population completed. Successfully processed "
       ++ str_of_nat (snd counts) ++ " out of " ++ str_of_nat (fst counts)
       ++ " vehicles.") ;;
  ret counts.

(** *** Saving, reasoning, reporting *)

Definition save_populated : M unit :=
  log ("Saving populated ontology to " ++ OUTPUT_FILENAME ++ "...") ;;
  try_except
    (onto_save OUTPUT_FILENAME ;;
     log ("Ontology saved to " ++ OUTPUT_FILENAME))
    (fun e => log ("Error saving populated ontology: " ++ e)).

Definition run_reasoner : M unit :=
  log "Running HermiT reasoner to classify vehicles..." ;;
  try_except
    (sync_reasoner_hermit ;;
     log "Reasoning completed successfully")
    (fun e => log ("Error during reasoning: " ++ e)).

Definition report_statistics : M unit :=
  log "Ontology population statistics (after reasoning):" ;;
  try_except
    (total_individuals <- count_all_individuals ;;
     vehicle_instances <- count_class_instances "Vehicle" ;;
     log ("Total number of individuals: " ++ str_of_nat total_individuals) ;;
     log ("Vehicle instances: " ++ str_of_nat vehicle_instances) ;;
     for_each vehicle_categories (fun category =>
       instances_count <- count_class_instances category ;;
       when (0 <? instances_count)%nat
         (log ("  " ++ category ++ ": " ++ str_of_nat instances_count ++ " instances"))))
    (fun e => log ("Error calculating statistics: " ++ e)).

(** *** The whole run *)

Definition populate_ontology : M unit :=
  log "Starting ontology population process" ;;
  log "Loading ontology..." ;;
  load_ontology ;;
  ensure_dir ARTIFACTS_DIR ;;
  data <- load_data ;;
  export_artifacts data ;;
  tables <- setup_mappings data ;;
  manufacturers <- create_manufacturers data ;;
  model_years <- create_model_years data ;;
  let maps := {| fuel_type_map := fst (fst (fst tables));
                 drive_type_map := snd (fst (fst tables));
                 size_class_map := snd (fst tables);
                 body_style_map := snd tables;
                 manufacturer_map := manufacturers;
                 model_year_map := model_years |} in
  populate_vehicles data maps ;;
  save_populated ;;
  run_reasoner ;;
  report_statistics ;;
  log "Ontology population process completed".

Definition main : M unit :=
  try_except populate_ontology
    (fun e => log ("CRITICAL ERROR: " ++ e) ;; sys_exit 1).

Definition initial_state : state := {| onto := ∅; trace := [] |}.

(** The exit code of the process and everything it did. *)
Definition exit_code (r : outcome unit) : Z :=
  match r with
  | Ok _ => 0
  | Raise _ => 1
  | SysExit c => c
  end.

Definition run : Z * list event :=
  (exit_code (fst (main initial_state)), trace (snd (main initial_state))).

End Script.

(** ** Vocabulary of the specifications *)

(** The characters of a valid identifier. *)
Definition is_id_char (c : ascii) : bool :=
  is_alnum_class c || Ascii.eqb c "_".

Definition is_ascii_letter (c : ascii) : bool :=
  is_ascii_upper c || is_ascii_lower c.

Definition starts_with_letter (s : string) : bool :=
  match s with
  | EmptyString => false
  | String c _ => is_ascii_letter c
  end.

(** How a computation ends. *)
Inductive status : Type :=
| SOk
| SRaise
| SExit (code : Z).

Definition status_of {A : Type} (r : outcome A) : status :=
  match r with
  | Ok _ => SOk
  | Raise _ => SRaise
  | SysExit c => SExit c
  end.

(** [m] never calls [sys.exit]. *)
Definition no_exit {A : Type} (m : M A) : Prop :=
  forall st c, fst (m st) <> SysExit c.

(** [m] ends the same way in every state, and its results satisfy [Phi]. *)
Definition decides {A : Type} (m : M A) (s : status) (Phi : A -> Prop) : Prop :=
  forall st, status_of (fst (m st)) = s /\ forall a, fst (m st) = Ok a -> Phi a.

(** [m] only appends to the trace, and what it appends satisfies [T]. *)
Definition emits {A : Type} (T : list event -> Prop) (m : M A) : Prop :=
  forall st, exists evs, trace (snd (m st)) = (trace st ++ evs)%list /\ T evs.





(** The state in which the [try] of an iteration starts: the batch line is
    logged first when it is due. *)
Definition after_batch_log (processed_count sample_size : nat) (st : state) : state :=
  snd (when (processed_count mod BATCH_SIZE =? 0)%nat
         (log (batch_message processed_count sample_size)) st).

Definition log_event (message : string) (st : state) : state :=
  {| onto := onto st; trace := (trace st ++ [EvLog message])%list |}.

(** The rows of the sample whose identifier can be computed. *)
Definition id_computable (E : environment) (item : Z * Series) : Prop :=
  exists vid, vehicle_id E (fst item) (snd item) = Val vid.

(** The value of [sample_data]. *)
Definition sample_of (E : environment) (data : DataFrame) : DataFrame :=
  if (sample_size data <? df_len data)%nat
  then df_sample (sample_source E) (sample_size data) data
  else data.

(** [o'] has the entities of [o], with the same attributes except possibly
    the attributes [ps] of the entity [n]. *)
Definition same_but (n : string) (ps : list string) (o o' : ontology) : Prop :=
  (forall x, onto_getattr o' x = onto_getattr o x)
  /\ (forall n' p', (n' = n -> ~ In p' ps) ->
        get_attr o' n' p' = get_attr o n' p').

(** [m] assigns at most the attributes [ps] of [n] and creates nothing. *)
Definition changes_only {A : Type} (n : string) (ps : list string) (m : M A) : Prop :=
  forall st, same_but n ps (onto st) (onto (snd (m st))).

(** The segment assigned to a row. *)
Definition row_market_segment (row : Series) : except string :=
  if present row "You Save/Spend"
  then get_market_segment (s_value row "You Save/Spend")
  else Val "StandardMarket".

(** The data properties assigned from the columns of a row. *)
Definition data_props : list string :=
  [ "make"; "model"; "year"; "cylinders"; "savings"; "transmission";
    "co2Emissions"; "engineDescriptor"; "epaFuelEconomyScore"; "ghgScore";
    "annualPetroleumConsumption"; "cityGasolineConsumption";
    "cityElectricityConsumption"; "mpgData" ].

(** The value a row has in a classification dictionary, if any. *)
Definition mapped_value (table : pydict ref) (row : Series) (c : string) : option ref :=
  if present row c then dict_get table (s_value row c) else None.

(** The entity [name] exists and is an instance of [cls]. *)
Definition has_type (o : ontology) (name cls : string) : Prop :=
  exists ent, o !! name = Some ent /\ In cls (ent_types ent).

(** No value equals a later one. *)
Definition distinct_values (l : list pyval) : Prop :=
  StronglySorted (fun a b => py_eqb a b = false) l.





(** ** A small world for the examples *)

Definition demo_class : entity :=
  {| ent_is_class := true; ent_types := []; ent_attrs := ∅ |}.

Definition demo_individual (cls : string) : entity :=
  {| ent_is_class := false; ent_types := [cls]; ent_attrs := ∅ |}.

Definition demo_ontology : ontology :=
  list_to_map
    [ ("Vehicle", demo_class); ("Manufacturer", demo_class);
      ("ModelYear", demo_class); ("FuelType", demo_class);
      ("DriveType", demo_class); ("VehicleSizeClass", demo_class);
      ("E85", demo_individual "FuelType");
      ("Electricity", demo_individual "FuelType");
      ("Regular", demo_individual "FuelType");
      ("Turbocharger", demo_individual "BoostSystem");
      ("Supercharger", demo_individual "BoostSystem");
      ("NaturallyAspirated", demo_individual "BoostSystem");
      ("PremiumMarket", demo_individual "MarketSegment");
      ("StandardMarket", demo_individual "MarketSegment");
      ("EconomyMarket", demo_individual "MarketSegment") ].

Definition int_cell (z : Z) : pyval := VNum (Fin (inject_Z z)).

(** A row given by its cells; the other cells are NaN. *)
Fixpoint cells (l : list (string * pyval)) (c : string) : pyval :=
  match l with
  | [] => VNaN
  | (c', v) :: r => if String.eqb c' c then v else cells r c
  end.

Definition demo_columns : list string :=
  [ "ID"; "Make"; "Model"; "Year"; "Fuel Type"; "T Charger"; "You Save/Spend" ].

Definition demo_row_audi : string -> pyval :=
  cells [ ("ID", int_cell 1); ("Make", VStr "Audi"); ("Model", VStr "A4");
          ("Year", int_cell 2020); ("Fuel Type", VStr "Gasoline or E85");
          ("T Charger", VStr "T"); ("You Save/Spend", int_cell (-2500)) ].

Definition demo_row_bmw : string -> pyval :=
  cells [ ("ID", int_cell 2); ("Make", VStr "BMW"); ("Model", VStr "i3");
          ("Year", int_cell 2021); ("Fuel Type", VStr "Electricity") ].

Definition demo_data : DataFrame :=
  {| df_columns := demo_columns;
     df_rows := [ (0, demo_row_audi); (1, demo_row_bmw) ] |}.


(** A table whose ID column holds a text. *)
Definition text_id_data : DataFrame :=
  {| df_columns := [ "ID"; "Make" ];
     df_rows := [ (0, cells [ ("ID", VStr "A17"); ("Make", VStr "Audi") ]) ] |}.

Fixpoint parse_digits (s : string) (acc : Z) : option Z :=
  match s with
  | EmptyString => Some acc
  | String c r =>
      if is_ascii_digit c then parse_digits r (10 * acc + (Z.of_N (code c) - 48))
      else None
  end.

(** [int(s)] on the strings made of ASCII digits with an optional minus
    sign; every string with another character is rejected here. *)
Definition demo_int_of_string (s : string) : option Z :=
  match s with
  | EmptyString => None
  | String "-" EmptyString => None
  | String "-" r => option_map Z.opp (parse_digits r 0)
  | _ => parse_digits s 0
  end.

(** [str(x)] on the integers; the other numbers do not occur in the
    examples. *)
Definition demo_repr (n : number) : string :=
  match n with
  | Fin q => str_of_Z (Z.quot (Qnum q) (QDen q))
  | Inf true => "-inf"
  | Inf false => "inf"
  end.

(** A world in which the files are read as given and the library never
    fails, except where the arguments say so. *)
Definition demo_world (dir_fault : option exn) (data : DataFrame) : environment :=
  {| repr_number := demo_repr;
     int_of_string := demo_int_of_string;
     decimal_of_string := fun s => option_map (fun z => Fin (inject_Z z)) (demo_int_of_string s);
     float_of_number := fun n => n;
     ontology_file := inr demo_ontology;
     artifacts_dir_exists := false;
     makedirs_fault := dir_fault;
     csv_default := inr data;
     csv_semicolon := inl "ParserError";
     open_fault := fun _ => None;
     sample_source := fun n => n;
     lib_fault := fun _ _ => None;
     reasoner := fun o => o;
     count_individuals := fun o => size o;
     count_instances := fun _ _ => 0%nat |}.

Definition demo_env : environment := demo_world None demo_data.

Definition demo_state : state := {| onto := demo_ontology; trace := [] |}.

Definition demo_maps : mappings :=
  {| fuel_type_map := build_map demo_ontology FUEL_TYPE_MAP;
     drive_type_map := build_map demo_ontology DRIVE_TYPE_MAP;
     size_class_map := build_map demo_ontology SIZE_CLASS_MAP;
     body_style_map := build_map demo_ontology BODY_STYLE_MAP;
     manufacturer_map := [ (VStr "Audi", Some "Audi") ];
     model_year_map := [ (int_cell 2020, Some "Year_2020") ] |}.

Definition demo_series (cells : string -> pyval) : Series :=
  {| s_columns := demo_columns; s_value := cells |}.

(** ** Steps of the run *)






(** The snapshots written by [onto.save]. *)
Fixpoint saved (evs : list event) : list (string * ontology) :=
  match evs with
  | [] => []
  | EvSave file snapshot :: r => (file, snapshot) :: saved r
  | _ :: r => saved r
  end.


Definition is_save (ev : event) : bool :=
  match ev with
  | EvSave _ _ => true
  | _ => false
  end.


(** ** Fatal conditions *)

Definition is_exc {A : Type} (x : except A) : bool :=
  match x with
  | Exc _ => true
  | Val _ => false
  end.

Definition is_str (v : pyval) : bool :=
  match v with
  | VStr _ => true
  | _ => false
  end.

Definition is_some {A : Type} (x : option A) : bool :=
  match x with
  | Some _ => true
  | None => false
  end.

Definition ontology_missing (E : environment) : bool :=
  match ontology_file E with
  | inl _ => true
  | inr _ => false
  end.

(** The table read from the CSV file, by the first attempt that succeeds. *)
Definition loaded_data (E : environment) : option DataFrame :=
  match csv_default E with
  | inr data => Some data
  | inl _ =>
      match csv_semicolon E with
      | inr data => Some data
      | inl _ => None
      end
  end.

(** The artifacts directory is missing and cannot be created. *)
Definition dir_fault (E : environment) : bool :=
  negb (artifacts_dir_exists E) && is_some (makedirs_fault E).

(** A file of the artifacts directory cannot be opened, or the values of a
    column cannot be sorted. *)
Definition export_fault (E : environment) (data : DataFrame) : bool :=
  existsb (fun c => is_some (open_fault E (values_path c))
                    || is_exc (py_sorted (column_values data c)))
    (df_columns data)
  || is_some (open_fault E stats_path).

(** A truthy value that is not a string, on which [replace] is called. *)
Definition replace_fault (values : list pyval) : bool :=
  existsb (fun v => truthy v && negb (isna v) && negb (is_str v)) values.

Definition mapping_fault (data : DataFrame) : bool :=
  (has_label "Fuel Type" (df_columns data)
   && replace_fault (column_values data "Fuel Type"))
  || (has_label "Vehicle Size Class" (df_columns data)
      && replace_fault (column_values data "Vehicle Size Class"))
  || (has_label "Drive" (df_columns data)
      && replace_fault (column_values data "Drive")).

Definition manufacturer_fault (E : environment) (data : DataFrame) : bool :=
  has_label "Make" (df_columns data)
  && existsb (fun v => truthy v && negb (isna v)
                       && is_exc (create_valid_id (repr_number E) v))
       (column_values data "Make").

Definition year_fault (E : environment) (data : DataFrame) : bool :=
  has_label "Year" (df_columns data)
  && existsb (fun v => truthy v && negb (isna v) && is_exc (py_int E v))
       (column_values data "Year").

(** The identifier of a row of the sample cannot be computed. *)
Definition row_fault (E : environment) (data : DataFrame) : bool :=
  existsb (fun item => is_exc (vehicle_id E (fst item) (snd item)))
    (iterrows (sample_of E data)).

(** An exception outside every [try] of [populate_ontology]. *)
Definition data_fault (E : environment) (data : DataFrame) : bool :=
  export_fault E data || mapping_fault data || manufacturer_fault E data
  || year_fault E data || row_fault E data.

Definition unguarded_fault (E : environment) : bool :=
  dir_fault E
  || match loaded_data E with
     | Some data => data_fault E data
     | None => false
     end.

(** How [populate_ontology] ends. *)
Definition predicted_status (E : environment) : status :=
  if ontology_missing E then SExit 1
  else if dir_fault E then SRaise
  else
    match loaded_data E with
    | None => SExit 1
    | Some data => if data_fault E data then SRaise else SOk
    end.

(** The same world with another library behaviour. *)
Definition with_library (E : environment)
    (fault : ontology -> libcall -> option exn) (r : ontology -> ontology)
    (individuals : ontology -> nat) (instances : ontology -> string -> nat)
    : environment :=
  {| repr_number := repr_number E;
     int_of_string := int_of_string E;
     decimal_of_string := decimal_of_string E;
     float_of_number := float_of_number E;
     ontology_file := ontology_file E;
     artifacts_dir_exists := artifacts_dir_exists E;
     makedirs_fault := makedirs_fault E;
     csv_default := csv_default E;
     csv_semicolon := csv_semicolon E;
     open_fault := open_fault E;
     sample_source := sample_source E;
     lib_fault := fault;
     reasoner := r;
     count_individuals := individuals;
     count_instances := instances |}.

Definition keys_are_strings {V : Type} (d : pydict V) : Prop :=
  Forall (fun kv => is_str (fst kv) = true) d.

(** ** Files *)

(** The file an event reads. *)
Definition read_target (ev : event) : option string :=
  match ev with
  | EvLoadOntology file => Some file
  | EvReadCsv file _ => Some file
  | _ => None
  end.

(** The file an event creates or writes to. *)
Definition write_target (ev : event) : option string :=
  match ev with
  | EvOpen file => Some file
  | EvWrite file _ => Some file
  | EvSave file _ => Some file
  | _ => None
  end.

(** The files created, in order. *)
Fixpoint files_written (evs : list event) : list string :=
  match evs with
  | [] => []
  | EvOpen file :: r => file :: files_written r
  | EvSave file _ :: r => file :: files_written r
  | _ :: r => files_written r
  end.

Definition creates_no_file (ev : event) : Prop :=
  match ev with
  | EvOpen _ | EvSave _ _ => False
  | _ => True
  end.

(** The outputs of a complete run over [data]. *)
Definition expected_files (data : DataFrame) : list string :=
  map values_path (df_columns data) ++ [stats_path; OUTPUT_FILENAME].

Definition expected_outputs (E : environment) : list string :=
  match loaded_data E with
  | Some data => expected_files data
  | None => []
  end.

Definition reads_fixed_name (ev : event) : Prop :=
  forall file, read_target ev = Some file ->
    file = ONTOLOGY_FILENAME \/ file = DATA_FILENAME.

Definition writes_within (files : list string) (ev : event) : Prop :=
  forall file, write_target ev = Some file -> In file files.

(** When [m] ends normally it has created exactly the files [files]. *)
Definition opens {A : Type} (files : list string) (m : M A) : Prop :=
  forall st a st', m st = (Ok a, st') ->
    files_written (trace st') = (files_written (trace st) ++ files)%list.

(** Worlds in which the run ends with exit code 1 although both files load:
    the artifacts directory cannot be created. *)
Definition readonly_dir_env : environment :=
  demo_world (Some "PermissionError: [Errno 13] Permission denied: 'artifacts'") demo_data.

(** ... or the ID of a row is not a number. *)
Definition text_id_env : environment := demo_world None text_id_data.

(** A table with a fuel type that FUEL_TYPE_MAP does not list. *)
Definition hydrogen_data : DataFrame :=
  {| df_columns := [ "Make"; "Fuel Type" ];
     df_rows := [ (0, cells [ ("Make", VStr "Toyota"); ("Fuel Type", VStr "Hydrogen") ]) ] |}.

(** A state whose ontology has no class Manufacturer. *)
Definition no_manufacturer_state : state :=
  {| onto := delete "Manufacturer" demo_ontology; trace := [] |}.

(** ** Vocabulary of the further properties *)

(** A valid identifier: letters, digits and underscores after a first
    ASCII letter. *)
Definition valid_identifier (s : string) : Prop :=
  starts_with_letter s = true /\ string_forall is_id_char s = true.

(** Two texts that agree on their characters of [[a-zA-Z0-9]] and have
    other characters at the same places. *)
Fixpoint same_skeleton (s t : string) : bool :=
  match s, t with
  | EmptyString, EmptyString => true
  | String a r, String b u =>
      (if is_alnum_class a then Ascii.eqb a b else negb (is_alnum_class b))
      && same_skeleton r u
  | _, _ => false
  end.

(** The value whose integer becomes the number of the vehicle: the cell
    "ID", or the index label of the row. *)
Definition row_id (i : Z) (row : Series) : pyval :=
  if present row "ID" then s_value row "ID" else VNum (Fin (inject_Z i)).

(** The text of the year in the identifier of a vehicle:
    [str(int(row["Year"]))], or the empty text. *)
Definition year_text (E : environment) (row : Series) : except string :=
  if present row "Year"
  then ebind (py_int E (s_value row "Year")) (fun y => Val (str_of_Z y))
  else Val "".

(** The part of a text after its last underscore. *)
Fixpoint after_last_underscore_from (s acc : string) : string :=
  match s with
  | EmptyString => acc
  | String c r =>
      if Ascii.eqb c "_" then after_last_underscore_from r EmptyString
      else after_last_underscore_from r (acc ++ String c EmptyString)
  end.

Definition after_last_underscore (s : string) : string :=
  after_last_underscore_from s EmptyString.

Definition not_underscore (c : ascii) : bool := negb (Ascii.eqb c "_").

(** The characters of a formatted number are digits, after a sign. *)
Definition is_digit_or_minus (c : ascii) : bool :=
  is_ascii_digit c || Ascii.eqb c "-".

(** ** Invariants of the ontology and of the trace *)

(** [m] takes a state that satisfies [P] to a state that satisfies [Q],
    however it ends. *)
Definition hoare {A : Type} (P Q : state -> Prop) (m : M A) : Prop :=
  forall st, P st -> Q (snd (m st)).

Definition keeps {A : Type} (J : state -> Prop) (m : M A) : Prop :=
  hoare J J m.

(** The library never raises. *)
Definition no_library_fault (E : environment) : Prop :=
  forall o call, lib_fault E o call = None.

(** [cls] is a class of the ontology. *)
Definition is_class (o : ontology) (cls : string) : Prop :=
  exists c, o !! cls = Some c /\ ent_is_class c = true.

(** The cell "You Save/Spend" of the row holds a text. *)
Definition savings_is_text (row : Series) : bool :=
  present row "You Save/Spend" && is_str (s_value row "You Save/Spend").


(** A row whose savings are a text. *)
Definition demo_row_kia : string -> pyval :=
  cells [ ("ID", int_cell 3); ("Make", VStr "Kia"); ("Model", VStr "Rio");
          ("Year", int_cell 2019); ("Cylinders", VStr "four");
          ("You Save/Spend", VStr "n/a") ].

(** The body style assigned to a row with a non-null size class: the one
    the dictionary has for it, otherwise the entity Sedan. *)
Definition row_body_style (o : ontology) (table : pydict ref) (row : Series) : ref :=
  match dict_get table (s_value row "Vehicle Size Class") with
  | Some target => target
  | None => onto_getattr o "Sedan"
  end.

(** ** Data properties *)

(** The data properties that hold the text of a cell, with their columns. *)
Definition string_props : list (string * string) :=
  [ ("make", "Make"); ("model", "Model"); ("transmission", "Transmission");
    ("engineDescriptor", "Engine descriptor"); ("mpgData", "MPG Data") ].

(** The data properties that hold the number of a cell, with their columns. *)
Definition numeric_props : list (string * string) :=
  [ ("cylinders", "Cylinders"); ("savings", "You Save/Spend");
    ("co2Emissions", "Co2 Fuel Type1");
    ("epaFuelEconomyScore", "EPA Fuel Economy Score"); ("ghgScore", "GHG Score");
    ("annualPetroleumConsumption", "Annual Petroleum Consumption For Fuel Type1");
    ("cityGasolineConsumption", "City gasoline consumption");
    ("cityElectricityConsumption", "City electricity consumption") ].





(** ** Values of the data set in the classification dictionaries *)

(** What the loop over the values of a classification column leaves for a
    value [v]: a key of the static table keeps its entry; another value has
    got an individual of [cls] named [id_of v] and is mapped to it, or the
    failure of its creation was logged. *)
Definition value_added (cls noun : string) (id_of : string -> string)
    (before after : pydict ref) (st : state) (v : pyval) : Prop :=
  match dict_get before v with
  | Some target => dict_get after v = Some target
  | None =>
      exists s, v = VStr s
        /\ ((dict_get after v = Some (Some (id_of s))
             /\ has_type (onto st) (id_of s) cls)
            \/ exists e,
                 In (EvLog ("Error adding " ++ noun ++ " " ++ id_of s ++ ": " ++ e))
                    (trace st))
  end.

(** A table with a size class that the static tables do not list. *)
Definition size_class_data : DataFrame :=
  {| df_columns := [ "Make"; "Vehicle Size Class" ];
     df_rows := [ (0, cells [ ("Make", VStr "Audi");
                              ("Vehicle Size Class", VStr "Compact Cars") ]);
                  (1, cells [ ("Make", VStr "Ford");
                              ("Vehicle Size Class", VStr "Special Purpose Vehicle") ]) ] |}.

(** The value of a computation that ends normally. *)
Definition result_or {A : Type} (default : A) (r : outcome A) : A :=
  match r with
  | Ok a => a
  | _ => default
  end.

(** ** Created individuals and saved snapshots *)

Definition is_new (ev : event) : bool :=
  match ev with
  | EvNew _ _ => true
  | _ => false
  end.

(** An event that neither creates an individual nor saves the ontology. *)
Definition quiet (ev : event) : Prop := is_new ev = false /\ is_save ev = false.

(** Before the ontology is loaded nothing is created or saved. *)
Definition nothing_created (st : state) : Prop := Forall quiet (trace st).

(** Every individual created so far is in the ontology with its class. *)
Definition created_sound (st : state) : Prop :=
  forall cls name, In (EvNew cls name) (trace st) -> has_type (onto st) name cls.

(** While the individuals are created nothing is saved. *)
Definition creating (st : state) : Prop :=
  created_sound st /\ Forall (fun ev => is_save ev = false) (trace st).

(** Every snapshot written holds every individual created. *)
Definition snapshots_complete (st : state) : Prop :=
  forall file snapshot, In (EvSave file snapshot) (trace st) ->
    forall cls name, In (EvNew cls name) (trace st) -> has_type snapshot name cls.

(** The first snapshot written, if any. *)
Definition saved_snapshot (evs : list event) : ontology :=
  match saved evs with
  | (_, snapshot) :: _ => snapshot
  | [] => ∅
  end.

(** The individuals created, in order, each with its class. *)
Fixpoint created_list (evs : list event) : list (string * string) :=
  match evs with
  | [] => []
  | EvNew cls name :: r => (cls, name) :: created_list r
  | _ :: r => created_list r
  end.

(** ** Files of unique values *)

Definition is_num (v : pyval) : bool :=
  match v with
  | VNum _ => true
  | _ => false
  end.

Definition no_nulls (l : list pyval) : bool :=
  forallb (fun v => negb (isna v)) l.

(** The values are all texts or all numbers. *)
Definition one_kind (l : list pyval) : bool :=
  forallb is_str l || forallb is_num l.

(** [b] is not less than [a]. *)
Definition ascending (a b : pyval) : Prop := py_ltb b a = Val false.

(** The line written for a value. *)
Definition value_line (E : environment) (filename : string) (v : pyval) : event :=
  EvWrite filename (str E v ++ newline).

(** ** What a run asserts *)

(** The classes of the individuals a run creates. *)
Definition population_classes : list string :=
  [ "FuelType"; "VehicleSizeClass"; "DriveType"; "Manufacturer"; "ModelYear";
    "Vehicle" ].

(** The object properties a run assigns. *)
Definition object_props : list string :=
  [ "hasFuelType"; "hasDriveType"; "hasSizeClass"; "hasManufacturer";
    "hasModelYear"; "hasBodyStyle"; "hasBoostSystem"; "hasMarketSegment" ].

(** The individuals and property values a run may assert: each property
    with the kind of value it takes. *)
Definition asserted (ev : event) : Prop :=
  match ev with
  | EvNew cls _ => In cls population_classes
  | EvSetAttr _ p (AObj _) => In p object_props
  | EvSetAttr _ p (ABool _) => p = "hasElectricity"
  | EvSetAttr _ p (AInt _) => p = "year"
  | EvSetAttr _ p (ANum _) => In p (map fst numeric_props)
  | EvSetAttr _ p (AStr _) => In p ("electricMotorSpec" :: map fst string_props)
  | _ => True
  end.

(** ** The report *)

(** Started with the ontology [o], [m] leaves it as it is, does not exit,
    and emits only events that satisfy [P]. *)
Definition reads_only {A : Type} (o : ontology) (P : event -> Prop) (m : M A) : Prop :=
  forall st, onto st = o ->
    onto (snd (m st)) = o
    /\ (forall c, fst (m st) <> SysExit c)
    /\ exists evs, trace (snd (m st)) = (trace st ++ evs)%list /\ Forall P evs.

(** ... and ends with an exception. *)
Definition reads_and_raises {A : Type} (o : ontology) (P : event -> Prop) (m : M A)
    : Prop :=
  reads_only o P m /\ forall st, onto st = o -> exists e, fst (m st) = Raise e.

(** The instances of no other class than Vehicle and [classes] are counted. *)
Definition counts_within (classes : list string) (ev : event) : Prop :=
  forall x, ev = EvQuery (CallInstances x) -> x = "Vehicle" \/ In x classes.

Definition is_statistics_error (ev : event) : bool :=
  match ev with
  | EvLog message => String.prefix "Error calculating statistics: " message
  | _ => false
  end.

(** An ontology without the class HatchbackVehicle. *)
Definition no_hatchback_state : state :=
  {| onto := list_to_map
       (map (fun c => (c, demo_class))
          ("Vehicle" :: List.filter (fun c => negb (String.eqb c "HatchbackVehicle"))
                          vehicle_categories));
     trace := [] |}.

(** ** The statistics file *)

(** The line of a column in the statistics file. *)
Definition stat_line (data : DataFrame) (c : string) : event :=
  EvWrite (stats_path)
    (c ++ "," ++ str_of_nat (length (column_values data c)) ++ ","
     ++ str_of_nat (null_count data c) ++ newline).

(** The entry of a column in [column_stats]. *)
Definition stats_entry (data : DataFrame) (c : string) : pyval * (nat * nat) :=
  (VStr c, (length (column_values data c), null_count data c)).

(** ** Runs that fail *)

(** An event of the steps before the ontology is saved. *)
Definition before_save (ev : event) : Prop :=
  match ev with
  | EvSave _ _ | EvReasoner | EvQuery _ => False
  | _ => True
  end.

(** Unless [m] ends normally, it emits only events that satisfy [P]. *)
Definition fails_within {A : Type} (P : event -> Prop) (m : M A) : Prop :=
  forall st,
    match fst (m st) with
    | Ok _ => True
    | _ => exists evs, trace (snd (m st)) = (trace st ++ evs)%list /\ Forall P evs
    end.

(** * Properties *)

(** ** Identifiers *)

Lemma string_forall_map (p : ascii -> bool) (f : ascii -> ascii) (s : string) :
  (forall c, p (f c) = true) -> string_forall p (string_map f s) = true.
Proof.
  intros Hp. induction s as [|c r IH]; simpl; [reflexivity|].
  rewrite Hp, IH. reflexivity.
Qed.

Lemma string_map_length (f : ascii -> ascii) (s : string) :
  String.length (string_map f s) = String.length s.
Proof. induction s as [|c r IH]; simpl; congruence. Qed.

Lemma string_map_get (f : ascii -> ascii) (s : string) (i : nat) :
  String.get i (string_map f s) = option_map f (String.get i s).
Proof.
  revert i. induction s as [|c r IH]; intros i; simpl; [reflexivity|].
  destruct i; simpl; [reflexivity|apply IH].
Qed.

Lemma sub_char_is_id_char (c : ascii) :
  is_id_char (if is_alnum_class c then c else "_"%char) = true.
Proof.
  unfold is_id_char. destruct (is_alnum_class c) eqn:Hc.
  - rewrite Hc. reflexivity.
  - apply orb_true_r.
Qed.

(** On the characters of an identifier [isalpha] is the test for an ASCII
    letter. *)
Lemma isalpha_id_char (c : ascii) :
  is_id_char c = true -> isalpha c = is_ascii_letter c.
Proof.
  destruct c as [[] [] [] [] [] [] [] []]; vm_compute; congruence.
Qed.

Lemma string_forall_app (p : ascii -> bool) (s t : string) :
  string_forall p (s ++ t) = string_forall p s && string_forall p t.
Proof.
  induction s as [|c r IH]; simpl; [reflexivity|].
  rewrite IH. apply andb_assoc.
Qed.

Lemma py_str_truthy_nonempty (repr : number -> string) (text : pyval) :
  (forall n, repr n <> "") -> truthy text = true -> py_str repr text <> "".
Proof.
  intros Hrepr Ht. destruct text as [| |s|n]; simpl in *; try discriminate.
  - intros ->. discriminate.
  - apply Hrepr.
Qed.

Lemma string_map_nonempty (f : ascii -> ascii) (s : string) :
  s <> "" -> string_map f s <> "".
Proof. destruct s; simpl; congruence. Qed.

(** C8: [create_valid_id] always returns a non-empty identifier that starts
    with an ASCII letter and consists of letters, digits and underscores.
    A falsy input gives ["Unknown"]; otherwise [str(text)] is copied with
    every character outside [[a-zA-Z0-9]] replaced by an underscore, and the
    prefix ["V_"] is added when the copy does not start with a letter.  The
    hypothesis says that Python's [str] of a number is never empty. *)
Theorem create_valid_id_valid (repr : number -> string)
    (Hrepr : forall n, repr n <> "") (text : pyval) :
  exists s,
    create_valid_id repr text = Val s
    /\ s <> ""
    /\ starts_with_letter s = true
    /\ string_forall is_id_char s = true
    /\ (truthy text = false -> s = "Unknown")
    /\ (truthy text = true ->
        let sub := re_sub_non_alnum (py_str repr text) in
        String.length sub = String.length (py_str repr text)
        /\ (forall i,
              String.get i sub
              = option_map (fun c => if is_alnum_class c then c else "_"%char)
                  (String.get i (py_str repr text)))
        /\ s = if starts_with_letter sub then sub else "V_" ++ sub).
Proof.
  unfold create_valid_id.
  destruct (truthy text) eqn:Ht; simpl.
  - pose proof (py_str_truthy_nonempty repr text Hrepr Ht) as Hne.
    assert (Hall : string_forall is_id_char (re_sub_non_alnum (py_str repr text)) = true).
    { apply string_forall_map. apply sub_char_is_id_char. }
    assert (Hsub : re_sub_non_alnum (py_str repr text) <> "").
    { apply string_map_nonempty. exact Hne. }
    destruct (re_sub_non_alnum (py_str repr text)) as [|c r] eqn:Hs; [congruence|].
    simpl in Hall. apply andb_true_iff in Hall as [Hc Hr].
    rewrite (isalpha_id_char c Hc).
    assert (Hspec : String.length (String c r) = String.length (py_str repr text)
              /\ (forall i, String.get i (String c r)
                    = option_map (fun c => if is_alnum_class c then c else "_"%char)
                        (String.get i (py_str repr text)))).
    { rewrite <- Hs. split; [apply string_map_length|].
      intros i. apply string_map_get. }
    destruct Hspec as [Hlen Hget].
    destruct (is_ascii_letter c) eqn:Hl; simpl negb; cbv iota.
    + exists (String c r).
      split; [reflexivity|]. split; [discriminate|].
      split; [exact Hl|]. split; [simpl; rewrite Hc, Hr; reflexivity|].
      split; [discriminate|]. intros _. cbv zeta.
      split; [exact Hlen|]. split; [exact Hget|].
      simpl. rewrite Hl. reflexivity.
    + exists ("V_" ++ String c r).
      split; [reflexivity|]. split; [discriminate|].
      split; [reflexivity|]. split; [simpl; rewrite Hc, Hr; reflexivity|].
      split; [discriminate|]. intros _. cbv zeta.
      split; [exact Hlen|]. split; [exact Hget|].
      simpl. rewrite Hl. reflexivity.
  - exists "Unknown". repeat split; try discriminate.
Qed.

Lemma create_valid_id_valid_witness :
  exists s,
    create_valid_id (fun _ => "0") (VStr "9-3 Aero") = Val s
    /\ s <> ""
    /\ starts_with_letter s = true
    /\ string_forall is_id_char s = true
    /\ (truthy (VStr "9-3 Aero") = false -> s = "Unknown")
    /\ (truthy (VStr "9-3 Aero") = true ->
        let sub := re_sub_non_alnum (py_str (fun _ => "0") (VStr "9-3 Aero")) in
        String.length sub = String.length (py_str (fun _ => "0") (VStr "9-3 Aero"))
        /\ (forall i,
              String.get i sub
              = option_map (fun c => if is_alnum_class c then c else "_"%char)
                  (String.get i (py_str (fun _ => "0") (VStr "9-3 Aero"))))
        /\ s = if starts_with_letter sub then sub else "V_" ++ sub).
Proof.
  apply (create_valid_id_valid (fun _ => "0")).
  intros n. discriminate.
Defined.

Example create_valid_id_saab :
  create_valid_id (fun _ => "0") (VStr "9-3 Aero") = Val "V_9_3_Aero".
Proof. reflexivity. Qed.

(** ** Market segments *)





(** A string where a number is expected makes the comparison raise. *)
Example get_market_segment_str :
  exists e, get_market_segment (VStr "1,250") = Exc e.
Proof. eexists. reflexivity. Qed.

(** ** Reasoning about effects *)

Lemma bind_ok {A B : Type} (m : M A) (k : A -> M B) st b st2 :
  bind m k st = (Ok b, st2) ->
  exists a st1, m st = (Ok a, st1) /\ k a st1 = (Ok b, st2).
Proof.
  unfold bind. destruct (m st) as [[a|e|c] st1]; intros H; try discriminate.
  exists a, st1. split; [reflexivity|exact H].
Qed.

Lemma bind_run {A B : Type} (m : M A) (k : A -> M B) st a st1 :
  m st = (Ok a, st1) -> bind m k st = k a st1.
Proof. unfold bind. intros ->. reflexivity. Qed.

Lemma bind_raise {A B : Type} (m : M A) (k : A -> M B) st e st1 :
  m st = (Raise e, st1) -> bind m k st = (Raise e, st1).
Proof. unfold bind. intros ->. reflexivity. Qed.

Lemma try_ok {A : Type} (body : M A) (handler : exn -> M A) st a st1 :
  body st = (Ok a, st1) -> try_except body handler st = (Ok a, st1).
Proof. unfold try_except. intros ->. reflexivity. Qed.

Lemma try_raise {A : Type} (body : M A) (handler : exn -> M A) st e st1 :
  body st = (Raise e, st1) -> try_except body handler st = handler e st1.
Proof. unfold try_except. intros ->. reflexivity. Qed.

(** *** [no_exit] *)

Lemma no_exit_ret {A : Type} (a : A) : no_exit (ret a).
Proof. intros st c. discriminate. Qed.

Lemma no_exit_raise {A : Type} (e : exn) : no_exit (@raise A e).
Proof. intros st c. discriminate. Qed.

Lemma no_exit_emit (ev : event) : no_exit (emit ev).
Proof. intros st c. discriminate. Qed.

Lemma no_exit_log (msg : string) : no_exit (log msg).
Proof. apply no_exit_emit. Qed.

Lemma no_exit_get_onto : no_exit get_onto.
Proof. intros st c. discriminate. Qed.

Lemma no_exit_put_onto (o : ontology) : no_exit (put_onto o).
Proof. intros st c. discriminate. Qed.

Lemma no_exit_lift {A : Type} (x : except A) : no_exit (lift x).
Proof. destruct x; [apply no_exit_ret|apply no_exit_raise]. Qed.

Lemma no_exit_bind {A B : Type} (m : M A) (k : A -> M B) :
  no_exit m -> (forall a, no_exit (k a)) -> no_exit (bind m k).
Proof.
  intros Hm Hk st c. unfold bind.
  destruct (m st) as [[a|e|c'] st1] eqn:Hr.
  - apply Hk.
  - discriminate.
  - exfalso. apply (Hm st c'). rewrite Hr. reflexivity.
Qed.

Lemma no_exit_try {A : Type} (body : M A) (handler : exn -> M A) :
  no_exit body -> (forall e, no_exit (handler e)) -> no_exit (try_except body handler).
Proof.
  intros Hb Hh st c. unfold try_except.
  destruct (body st) as [[a|e|c'] st1] eqn:Hr.
  - discriminate.
  - apply Hh.
  - exfalso. apply (Hb st c'). rewrite Hr. reflexivity.
Qed.

Lemma no_exit_when (b : bool) (m : M unit) : no_exit m -> no_exit (when b m).
Proof. destruct b; [auto|intros _; apply no_exit_ret]. Qed.

Lemma no_exit_for_each {A : Type} (l : list A) (body : A -> M unit) :
  (forall x, no_exit (body x)) -> no_exit (for_each l body).
Proof.
  intros Hb. induction l as [|x r IH]; simpl.
  - apply no_exit_ret.
  - apply no_exit_bind; [apply Hb|intros _; exact IH].
Qed.

Lemma no_exit_for_fold {A S : Type} (l : list A) (body : S -> A -> M S) (s : S) :
  (forall s x, no_exit (body s x)) -> no_exit (for_fold l body s).
Proof.
  intros Hb. revert s. induction l as [|x r IH]; intros s; simpl.
  - apply no_exit_ret.
  - apply no_exit_bind; [apply Hb|intros s'; apply IH].
Qed.

(** Steps through a computation built from the primitives above. *)
Ltac no_exit_step :=
  first
    [ apply no_exit_ret | apply no_exit_raise | apply no_exit_log
    | apply no_exit_emit | apply no_exit_get_onto | apply no_exit_put_onto
    | apply no_exit_lift
    | apply no_exit_bind; [|intros ?]
    | apply no_exit_try; [|intros ?]
    | apply no_exit_when
    | apply no_exit_for_each; intros ?
    | apply no_exit_for_fold; intros ? ?
    | match goal with
      | |- no_exit (match ?x with _ => _ end) => destruct x
      end ].

Section NoExit.

Variable E : environment.

Lemma no_exit_new_individual cls name : no_exit (new_individual E cls name).
Proof. unfold new_individual. repeat no_exit_step. Qed.

Lemma no_exit_set_attr name prop v : no_exit (set_attr E name prop v).
Proof. unfold set_attr. repeat no_exit_step. Qed.

Lemma no_exit_safe_numeric_conversion v : no_exit (safe_numeric_conversion E v).
Proof. unfold safe_numeric_conversion. repeat no_exit_step. Qed.

Lemma no_exit_set_string vehicle prop row c : no_exit (set_string E vehicle prop row c).
Proof. unfold set_string. apply no_exit_when, no_exit_set_attr. Qed.

Lemma no_exit_set_numeric vehicle prop row c : no_exit (set_numeric E vehicle prop row c).
Proof.
  unfold set_numeric. apply no_exit_when.
  apply no_exit_bind; [apply no_exit_safe_numeric_conversion|].
  intros [n|]; [apply no_exit_set_attr|apply no_exit_ret].
Qed.

Lemma no_exit_set_mapped vehicle prop row c table :
  no_exit (set_mapped E vehicle prop row c table).
Proof.
  unfold set_mapped. apply no_exit_when.
  destruct (dict_get _ _); [apply no_exit_set_attr|apply no_exit_ret].
Qed.

Hint Resolve no_exit_new_individual no_exit_set_attr no_exit_set_string
  no_exit_set_numeric no_exit_set_mapped : core.

Lemma no_exit_populate_vehicle maps vid row : no_exit (populate_vehicle E maps vid row).
Proof.
  unfold populate_vehicle, set_data_properties, set_electricity, set_body_style,
    set_boost_system, set_market_segment.
  repeat first [ progress auto | no_exit_step ].
Qed.

End NoExit.

Local Open Scope list_scope.

(** *** [emits] *)


Lemma emits_ret {A : Type} (T : list event -> Prop) (a : A) :
  T [] -> emits T (ret a).
Proof. intros HT st. exists []. simpl. rewrite app_nil_r. auto. Qed.

Lemma emits_raise {A : Type} (T : list event -> Prop) (e : exn) :
  T [] -> emits T (@raise A e).
Proof. intros HT st. exists []. simpl. rewrite app_nil_r. auto. Qed.

Lemma emits_sys_exit {A : Type} (T : list event -> Prop) (c : Z) :
  T [] -> emits T (@sys_exit A c).
Proof. intros HT st. exists []. simpl. rewrite app_nil_r. auto. Qed.

Lemma emits_get_onto (T : list event -> Prop) : T [] -> emits T get_onto.
Proof. intros HT st. exists []. simpl. rewrite app_nil_r. auto. Qed.

Lemma emits_put_onto (T : list event -> Prop) (o : ontology) :
  T [] -> emits T (put_onto o).
Proof. intros HT st. exists []. simpl. rewrite app_nil_r. auto. Qed.

Lemma emits_emit (T : list event -> Prop) (ev : event) :
  T [ev] -> emits T (emit ev).
Proof. intros HT st. exists [ev]. simpl. auto. Qed.

Lemma emits_lift {A : Type} (T : list event -> Prop) (x : except A) :
  T [] -> emits T (lift x).
Proof. destruct x; [apply emits_ret|apply emits_raise]. Qed.

(** Sequencing: the trace of [m] alone (when it raises or exits) or followed
    by the trace of the continuation. *)
Lemma emits_bind {A B : Type} (T1 T2 T : list event -> Prop)
    (m : M A) (k : A -> M B) :
  emits T1 m ->
  (forall a, emits T2 (k a)) ->
  (forall e1, T1 e1 -> T e1) ->
  (forall e1 e2, T1 e1 -> T2 e2 -> T (e1 ++ e2)) ->
  emits T (bind m k).
Proof.
  intros Hm Hk Hone Happ st. unfold bind.
  destruct (Hm st) as (e1 & Htr1 & He1).
  destruct (m st) as [[a|e|c] st1]; simpl in Htr1.
  - destruct (Hk a st1) as (e2 & Htr2 & He2).
    exists (e1 ++ e2). rewrite Htr2, Htr1, app_assoc. auto.
  - exists e1. auto.
  - exists e1. auto.
Qed.

Lemma emits_try {A : Type} (T1 T2 T : list event -> Prop)
    (body : M A) (handler : exn -> M A) :
  emits T1 body ->
  (forall e, emits T2 (handler e)) ->
  (forall e1, T1 e1 -> T e1) ->
  (forall e1 e2, T1 e1 -> T2 e2 -> T (e1 ++ e2)) ->
  emits T (try_except body handler).
Proof.
  intros Hm Hk Hone Happ st. unfold try_except.
  destruct (Hm st) as (e1 & Htr1 & He1).
  destruct (body st) as [[a|e|c] st1]; simpl in Htr1.
  - exists e1. auto.
  - destruct (Hk e st1) as (e2 & Htr2 & He2).
    exists (e1 ++ e2). rewrite Htr2, Htr1, app_assoc. auto.
  - exists e1. auto.
Qed.

(** *** Events that all satisfy a predicate *)

Section EmitsAll.

Variable P : event -> Prop.

Lemma all_ret {A : Type} (a : A) : emits (Forall P) (ret a).
Proof. apply emits_ret. constructor. Qed.

Lemma all_raise {A : Type} (e : exn) : emits (Forall P) (@raise A e).
Proof. apply emits_raise. constructor. Qed.

Lemma all_sys_exit {A : Type} (c : Z) : emits (Forall P) (@sys_exit A c).
Proof. apply emits_sys_exit. constructor. Qed.

Lemma all_get_onto : emits (Forall P) get_onto.
Proof. apply emits_get_onto. constructor. Qed.

Lemma all_put_onto (o : ontology) : emits (Forall P) (put_onto o).
Proof. apply emits_put_onto. constructor. Qed.

Lemma all_lift {A : Type} (x : except A) : emits (Forall P) (lift x).
Proof. apply emits_lift. constructor. Qed.

Lemma all_emit (ev : event) : P ev -> emits (Forall P) (emit ev).
Proof. intros H. apply emits_emit. repeat constructor. exact H. Qed.

Lemma all_log (msg : string) : P (EvLog msg) -> emits (Forall P) (log msg).
Proof. apply all_emit. Qed.

Lemma all_bind {A B : Type} (m : M A) (k : A -> M B) :
  emits (Forall P) m -> (forall a, emits (Forall P) (k a)) ->
  emits (Forall P) (bind m k).
Proof.
  intros Hm Hk. apply (emits_bind (Forall P) (Forall P)); auto.
  intros e1 e2 H1 H2. apply Forall_app. auto.
Qed.

Lemma all_try {A : Type} (body : M A) (handler : exn -> M A) :
  emits (Forall P) body -> (forall e, emits (Forall P) (handler e)) ->
  emits (Forall P) (try_except body handler).
Proof.
  intros Hm Hk. apply (emits_try (Forall P) (Forall P)); auto.
  intros e1 e2 H1 H2. apply Forall_app. auto.
Qed.

Lemma all_when (b : bool) (m : M unit) :
  emits (Forall P) m -> emits (Forall P) (when b m).
Proof. destruct b; [auto|intros _; apply all_ret]. Qed.

Lemma all_for_each {A : Type} (l : list A) (body : A -> M unit) :
  (forall x, emits (Forall P) (body x)) -> emits (Forall P) (for_each l body).
Proof.
  intros Hb. induction l as [|x r IH]; simpl.
  - apply all_ret.
  - apply all_bind; [apply Hb|intros _; exact IH].
Qed.

Lemma all_for_fold {A S : Type} (l : list A) (body : S -> A -> M S) (s : S) :
  (forall s x, emits (Forall P) (body s x)) -> emits (Forall P) (for_fold l body s).
Proof.
  intros Hb. revert s. induction l as [|x r IH]; intros s; simpl.
  - apply all_ret.
  - apply all_bind; [apply Hb|intros s'; apply IH].
Qed.

End EmitsAll.

(** Steps through a computation; the obligations on single events are left
    to [tac]. *)
Ltac all_step tac :=
  first
    [ apply all_ret | apply all_raise | apply all_sys_exit
    | apply all_get_onto | apply all_put_onto | apply all_lift
    | apply all_log; tac
    | apply all_emit; tac
    | apply all_bind; [|intros ?]
    | apply all_try; [|intros ?]
    | apply all_when
    | apply all_for_each; intros ?
    | apply all_for_fold; intros ? ?
    | match goal with
      | |- emits _ (match ?x with _ => _ end) => destruct x
      end ].

Section VehicleEvents.

Variable E : environment.


End VehicleEvents.

(** ** The main loop *)

Section MainLoop.

Variable E : environment.
Variable maps : mappings.
Variable n : nat.

Lemma when_log_run (b : bool) (msg : string) (st : state) :
  when b (log msg) st = (Ok tt, snd (when b (log msg) st)).
Proof. destruct b; reflexivity. Qed.


(** One iteration: an exception of the [try] body is caught and logged,
    and the iteration ends normally with the counters updated. *)
Lemma process_row_catches p s i row st vid :
  vehicle_id E i row = Val vid ->
  match populate_vehicle E maps vid row (after_batch_log p n st) with
  | (Ok _, st1) =>
      process_row E maps n (p, s) (i, row) st = (Ok (S p, S s), st1)
  | (Raise e, st1) =>
      process_row E maps n (p, s) (i, row) st
      = (Ok (S p, s),
         log_event ("ERROR processing vehicle " ++ vid ++ ": " ++ e)%string st1)
  | (SysExit _, _) => False
  end.
Proof.
  intros Hvid.
  pose proof (no_exit_populate_vehicle E maps vid row (after_batch_log p n st)) as Hne.
  unfold process_row. cbn [fst snd]. rewrite Hvid.
  rewrite (bind_run _ _ st tt (after_batch_log p n st) (when_log_run _ _ _)).
  cbn [lift]. rewrite (bind_run _ _ _ vid (after_batch_log p n st) eq_refl).
  destruct (populate_vehicle E maps vid row (after_batch_log p n st))
    as [[[]|e|c] st1] eqn:Hpop.
  - erewrite bind_run; [reflexivity|].
    apply try_ok. erewrite bind_run; [reflexivity|exact Hpop].
  - erewrite bind_run; [reflexivity|].
    erewrite try_raise; [reflexivity|].
    apply bind_raise. exact Hpop.
  - apply (Hne c). reflexivity.
Qed.

Lemma process_row_raises p s i row st e :
  vehicle_id E i row = Exc e ->
  process_row E maps n (p, s) (i, row) st = (Raise e, after_batch_log p n st).
Proof.
  intros Hvid. unfold process_row. cbn [fst snd]. rewrite Hvid.
  rewrite (bind_run _ _ st tt (after_batch_log p n st) (when_log_run _ _ _)).
  reflexivity.
Qed.




Lemma prefix_append (s t : string) : String.prefix s (s ++ t)%string = true.
Proof.
  induction s as [|c r IH]; [destruct t; reflexivity|].
  simpl. destruct (ascii_dec c c); [exact IH|congruence].
Qed.





End MainLoop.


(** ** The sample *)






Lemma select_sample_run (E : environment) (data : DataFrame) (st : state) :
  exists st', select_sample E data st = (Ok (sample_of E data), st').
Proof.
  unfold select_sample, sample_of.
  destruct (sample_size data <? df_len data)%nat; eexists; reflexivity.
Qed.




(** ** Attributes of the vehicle individual *)

Lemma same_but_refl n ps o : same_but n ps o o.
Proof. split; auto. Qed.

Lemma same_but_trans n ps o1 o2 o3 :
  same_but n ps o1 o2 -> same_but n ps o2 o3 -> same_but n ps o1 o3.
Proof.
  intros [Hd1 Ha1] [Hd2 Ha2]. split.
  - intros x. rewrite Hd2. apply Hd1.
  - intros n' p' H. rewrite Ha2 by exact H. apply Ha1. exact H.
Qed.

Lemma same_but_alter n p v ps (o : ontology) :
  In p ps -> same_but n ps o (alter (set_ent_attr p v) n o).
Proof.
  intros Hin. split.
  - intros x. unfold onto_getattr. rewrite lookup_alter.
    destruct (decide (n = x)) as [->|]; [|reflexivity].
    destruct (o !! x); reflexivity.
  - intros n' p' H. unfold get_attr. rewrite lookup_alter.
    destruct (decide (n = n')) as [<-|]; [|reflexivity].
    destruct (o !! n) as [e|]; [|reflexivity].
    simpl. apply lookup_insert_ne. intros ->. apply (H eq_refl). exact Hin.
Qed.

Lemma get_attr_alter n p v (o : ontology) :
  onto_getattr o n = Some n ->
  get_attr (alter (set_ent_attr p v) n o) n p = Some v.
Proof.
  unfold onto_getattr, get_attr. rewrite lookup_alter_eq.
  destruct (o !! n) as [e|]; [|discriminate].
  intros _. simpl. apply lookup_insert_eq.
Qed.

Section ChangesOnly.

Variable n : string.
Variable ps : list string.

Lemma changes_ret {A : Type} (a : A) : changes_only n ps (ret a).
Proof. intros st. apply same_but_refl. Qed.

Lemma changes_raise {A : Type} (e : exn) : changes_only n ps (@raise A e).
Proof. intros st. apply same_but_refl. Qed.

Lemma changes_emit (ev : event) : changes_only n ps (emit ev).
Proof. intros st. apply same_but_refl. Qed.

Lemma changes_log (msg : string) : changes_only n ps (log msg).
Proof. apply changes_emit. Qed.

Lemma changes_get_onto : changes_only n ps get_onto.
Proof. intros st. apply same_but_refl. Qed.

Lemma changes_lift {A : Type} (x : except A) : changes_only n ps (lift x).
Proof. destruct x; [apply changes_ret|apply changes_raise]. Qed.

Lemma changes_bind {A B : Type} (m : M A) (k : A -> M B) :
  changes_only n ps m -> (forall a, changes_only n ps (k a)) ->
  changes_only n ps (bind m k).
Proof.
  intros Hm Hk st. unfold bind. specialize (Hm st).
  destruct (m st) as [[a|e|c] st1]; simpl in *; try exact Hm.
  eapply same_but_trans; [exact Hm|apply Hk].
Qed.

Lemma changes_when (b : bool) (m : M unit) :
  changes_only n ps m -> changes_only n ps (when b m).
Proof. destruct b; [auto|intros _; apply changes_ret]. Qed.

Lemma changes_set_attr E p v : In p ps -> changes_only n ps (set_attr E n p v).
Proof.
  intros Hin st. unfold set_attr, bind, get_onto.
  destruct (lib_fault E (onto st) (CallSetAttr n p v)); simpl.
  - apply same_but_refl.
  - apply same_but_alter. exact Hin.
Qed.

End ChangesOnly.

Ltac changes_step :=
  first
    [ apply changes_ret | apply changes_raise | apply changes_log
    | apply changes_emit | apply changes_get_onto | apply changes_lift
    | apply changes_set_attr; simpl; tauto
    | apply changes_bind; [|intros ?]
    | apply changes_when
    | match goal with
      | |- changes_only _ _ (match ?x with _ => _ end) => destruct x
      end ].

Ltac changes_tac :=
  unfold set_data_properties, set_electricity, set_body_style, set_boost_system,
    set_market_segment, set_string, set_numeric, set_mapped, safe_numeric_conversion;
  repeat changes_step.

Lemma changes_run {A : Type} n ps (m : M A) st r st' :
  changes_only n ps m -> m st = (r, st') -> same_but n ps (onto st) (onto st').
Proof. intros Hm Hrun. specialize (Hm st). rewrite Hrun in Hm. exact Hm. Qed.

Section Vehicle.

Variable E : environment.

Lemma set_attr_ok n p v st u st' :
  set_attr E n p v st = (Ok u, st') ->
  onto_getattr (onto st) n = Some n ->
  get_attr (onto st') n p = Some v.
Proof.
  unfold set_attr, bind, get_onto.
  destruct (lib_fault E (onto st) (CallSetAttr n p v)); [discriminate|].
  simpl. intros [= _ <-] Hn. simpl. apply get_attr_alter. exact Hn.
Qed.

(** Creating an individual leaves every attribute as it was. *)
Lemma new_individual_ok cls name st v st' :
  new_individual E cls name st = (Ok v, st') ->
  v = name
  /\ onto_getattr (onto st') name = Some name
  /\ (forall x, onto_getattr (onto st) x = Some x -> onto_getattr (onto st') x = Some x)
  /\ (forall n' p', get_attr (onto st') n' p' = get_attr (onto st) n' p').
Proof.
  unfold new_individual, bind, get_onto.
  destruct (onto st !! cls) as [c|]; [|discriminate].
  destruct (negb (ent_is_class c)); [discriminate|].
  destruct (lib_fault E (onto st) (CallNew cls name)); [discriminate|].
  simpl. intros [= <- <-]. simpl. split; [reflexivity|].
  split; [|split].
  - unfold onto_getattr. rewrite lookup_insert_eq. reflexivity.
  - intros x. unfold onto_getattr. rewrite lookup_insert.
    destruct (decide (name = x)) as [->|]; [reflexivity|auto].
  - intros n' p'. unfold get_attr. rewrite lookup_insert.
    destruct (decide (name = n')) as [<-|]; [|reflexivity].
    destruct (onto st !! name); reflexivity.
Qed.


Lemma not_In_label (p : string) (ps : list string) :
  has_label p ps = false -> ~ In p ps.
Proof.
  unfold has_label. intros H Hin.
  assert (existsb (String.eqb p) ps = true); [|congruence].
  apply existsb_exists. exists p. split; [exact Hin|apply String.eqb_refl].
Qed.

Lemma frame_step {A : Type} n ps (m : M A) st r st' p :
  changes_only n ps m -> m st = (r, st') -> has_label p ps = false ->
  get_attr (onto st') n p = get_attr (onto st) n p.
Proof.
  intros Hm Hrun Hp. destruct (changes_run n ps m st r st' Hm Hrun) as [_ Ha].
  apply Ha. intros _. apply not_In_label. exact Hp.
Qed.

Lemma dom_step {A : Type} n ps (m : M A) st r st' x :
  changes_only n ps m -> m st = (r, st') ->
  onto_getattr (onto st') x = onto_getattr (onto st) x.
Proof.
  intros Hm Hrun. destruct (changes_run n ps m st r st' Hm Hrun) as [Hd _].
  apply Hd.
Qed.

Lemma changes_data_properties vid row :
  changes_only vid data_props (set_data_properties E vid row).
Proof. changes_tac. Qed.

Lemma changes_electricity vid row :
  changes_only vid ["electricMotorSpec"; "hasElectricity"] (set_electricity E vid row).
Proof. changes_tac. Qed.

Lemma changes_mapped vid prop row c table :
  changes_only vid [prop] (set_mapped E vid prop row c table).
Proof. changes_tac. Qed.

Lemma changes_body_style maps vid row :
  changes_only vid ["hasBodyStyle"] (set_body_style E maps vid row).
Proof. changes_tac. Qed.

Lemma changes_boost_system vid row :
  changes_only vid ["hasBoostSystem"] (set_boost_system E vid row).
Proof. changes_tac. Qed.

Lemma changes_market_segment vid row :
  changes_only vid ["hasMarketSegment"] (set_market_segment E vid row).
Proof. changes_tac. Qed.

(** The states between the sections of the [try] body of a row that is
    processed without exception. *)
Lemma populate_vehicle_steps maps vid row st st' :
  populate_vehicle E maps vid row st = (Ok tt, st') ->
  exists s1 s2 s3 s4 s5 s6 s7 s8 s9 s10,
    new_individual E "Vehicle" vid st = (Ok vid, s1)
    /\ set_data_properties E vid row s1 = (Ok tt, s2)
    /\ set_electricity E vid row s2 = (Ok tt, s3)
    /\ set_mapped E vid "hasFuelType" row "Fuel Type" (fuel_type_map maps) s3 = (Ok tt, s4)
    /\ set_mapped E vid "hasDriveType" row "Drive" (drive_type_map maps) s4 = (Ok tt, s5)
    /\ set_mapped E vid "hasSizeClass" row "Vehicle Size Class" (size_class_map maps) s5
       = (Ok tt, s6)
    /\ set_mapped E vid "hasManufacturer" row "Make" (manufacturer_map maps) s6 = (Ok tt, s7)
    /\ set_mapped E vid "hasModelYear" row "Year" (model_year_map maps) s7 = (Ok tt, s8)
    /\ set_body_style E maps vid row s8 = (Ok tt, s9)
    /\ set_boost_system E vid row s9 = (Ok tt, s10)
    /\ set_market_segment E vid row s10 = (Ok tt, st').
Proof.
  unfold populate_vehicle. intros H.
  apply bind_ok in H as (v & s1 & H0 & H).
  destruct (new_individual_ok _ _ _ _ _ H0) as (-> & _).
  apply bind_ok in H as ([] & s2 & H1 & H).
  apply bind_ok in H as ([] & s3 & H2 & H).
  apply bind_ok in H as ([] & s4 & H3 & H).
  apply bind_ok in H as ([] & s5 & H4 & H).
  apply bind_ok in H as ([] & s6 & H5 & H).
  apply bind_ok in H as ([] & s7 & H6 & H).
  apply bind_ok in H as ([] & s8 & H7 & H).
  apply bind_ok in H as ([] & s9 & H8 & H).
  apply bind_ok in H as ([] & s10 & H9 & H).
  exists s1, s2, s3, s4, s5, s6, s7, s8, s9, s10. auto 12.
Qed.

Lemma set_mapped_ok vid prop row c table st st' :
  set_mapped E vid prop row c table st = (Ok tt, st') ->
  onto_getattr (onto st) vid = Some vid ->
  match mapped_value table row c with
  | Some target => get_attr (onto st') vid prop = Some (AObj target)
  | None => st' = st
  end.
Proof.
  unfold set_mapped, mapped_value, when.
  destruct (present row c); [|intros [= <-]; reflexivity].
  destruct (dict_get table (s_value row c)) as [target|].
  - intros H Hv. eapply set_attr_ok; eauto.
  - intros [= <-]. reflexivity.
Qed.

Lemma set_electricity_ok vid row st st' :
  set_electricity E vid row st = (Ok tt, st') ->
  onto_getattr (onto st) vid = Some vid ->
  get_attr (onto st') vid "hasElectricity" = Some (ABool (has_electricity E row)).
Proof.
  unfold set_electricity. intros H Hv.
  apply bind_ok in H as ([] & s1 & H1 & H).
  eapply set_attr_ok; [exact H|].
  erewrite (dom_step vid ["electricMotorSpec"]); [exact Hv| |exact H1].
  changes_tac.
Qed.

Lemma set_boost_system_ok vid row st st' :
  set_boost_system E vid row st = (Ok tt, st') ->
  onto_getattr (onto st) vid = Some vid ->
  get_attr (onto st') vid "hasBoostSystem"
  = Some (AObj (onto_getattr (onto st) (boost_system row))).
Proof.
  unfold set_boost_system. intros H Hv.
  apply bind_ok in H as (o & s1 & [= <- <-] & H).
  eapply set_attr_ok; eauto.
Qed.

Lemma set_market_segment_ok vid row st st' :
  set_market_segment E vid row st = (Ok tt, st') ->
  onto_getattr (onto st) vid = Some vid ->
  exists segment,
    row_market_segment row = Val segment
    /\ get_attr (onto st') vid "hasMarketSegment"
       = Some (AObj (onto_getattr (onto st) segment)).
Proof.
  unfold set_market_segment, row_market_segment. intros H Hv.
  destruct (present row "You Save/Spend").
  - apply bind_ok in H as (segment & s1 & H1 & H).
    destruct (get_market_segment (s_value row "You Save/Spend")) as [seg|e];
      [|discriminate].
    injection H1 as <- <-.
    apply bind_ok in H as (o & s1 & [= <- <-] & H).
    exists seg. split; [reflexivity|]. eapply set_attr_ok; eauto.
  - apply bind_ok in H as (o & s1 & [= <- <-] & H).
    exists "StandardMarket"%string. split; [reflexivity|]. eapply set_attr_ok; eauto.
Qed.

End Vehicle.

Section VehicleTheorems.

Variable E : environment.

(** The vehicle exists from its creation to the end of the [try] body and
    the sections after a given one leave the attributes of the earlier
    ones alone. *)
Lemma populate_vehicle_frames maps vid row st st' :
  populate_vehicle E maps vid row st = (Ok tt, st') ->
  exists s3 s4 s7 s8 s9 s10,
    onto_getattr (onto s3) vid = Some vid
    /\ get_attr (onto s3) vid "hasElectricity" = Some (ABool (has_electricity E row))
    /\ (forall p, has_label p (data_props ++ ["electricMotorSpec"; "hasElectricity"]) = false ->
          get_attr (onto s3) vid p = get_attr (onto st) vid p)
    /\ set_mapped E vid "hasFuelType" row "Fuel Type" (fuel_type_map maps) s3 = (Ok tt, s4)
    /\ (forall p, has_label p ["hasDriveType"; "hasSizeClass"] = false ->
          get_attr (onto s7) vid p = get_attr (onto s4) vid p)
    /\ (forall x, onto_getattr (onto s7) x = onto_getattr (onto s3) x)
    /\ set_mapped E vid "hasManufacturer" row "Make" (manufacturer_map maps) s7 = (Ok tt, s8)
    /\ set_mapped E vid "hasModelYear" row "Year" (model_year_map maps) s8 = (Ok tt, s9)
    /\ (forall x, onto_getattr (onto s9) x = onto_getattr (onto s7) x)
    /\ (forall p, has_label p ["hasBodyStyle"] = false ->
          get_attr (onto s10) vid p = get_attr (onto s9) vid p)
    /\ (forall x, onto_getattr (onto s10) x = onto_getattr (onto s9) x)
    /\ (forall p, has_label p ["hasBoostSystem"; "hasMarketSegment"] = false ->
          get_attr (onto st') vid p = get_attr (onto s10) vid p)
    /\ (forall x, onto_getattr (onto st') x = onto_getattr (onto s10) x)
    /\ (exists s11, set_boost_system E vid row s10 = (Ok tt, s11)
                    /\ set_market_segment E vid row s11 = (Ok tt, st')).
Proof.
  intros H.
  destruct (populate_vehicle_steps E maps vid row st st' H)
    as (s1 & s2 & s3 & s4 & s5 & s6 & s7 & s8 & s9 & s10 &
        H0 & H1 & H2 & H3 & H4 & H5 & H6 & H7 & H8 & H9 & H10).
  destruct (new_individual_ok E _ _ _ _ _ H0) as (_ & Hv1 & _ & Ha1).
  pose proof (changes_data_properties E vid row) as C1.
  pose proof (changes_electricity E vid row) as C2.
  pose proof (changes_mapped E vid "hasDriveType" row "Drive" (drive_type_map maps)) as C4.
  pose proof (changes_mapped E vid "hasSizeClass" row "Vehicle Size Class"
                (size_class_map maps)) as C5.
  pose proof (changes_mapped E vid "hasManufacturer" row "Make" (manufacturer_map maps)) as C6.
  pose proof (changes_mapped E vid "hasModelYear" row "Year" (model_year_map maps)) as C7.
  pose proof (changes_body_style E maps vid row) as C8.
  pose proof (changes_boost_system E vid row) as C9.
  pose proof (changes_market_segment E vid row) as C10.
  exists s3, s4, s6, s7, s8, s9.
  split.
  { rewrite (dom_step _ _ _ _ _ _ _ C2 H2), (dom_step _ _ _ _ _ _ _ C1 H1). exact Hv1. }
  split.
  { apply (set_electricity_ok E vid row s2 s3 H2).
    rewrite (dom_step _ _ _ _ _ _ _ C1 H1). exact Hv1. }
  split.
  { intros p Hp. unfold has_label in Hp. rewrite existsb_app in Hp.
    apply orb_false_iff in Hp as [Hp1 Hp2].
    rewrite (frame_step _ _ _ _ _ _ _ C2 H2 Hp2), (frame_step _ _ _ _ _ _ _ C1 H1 Hp1).
    apply Ha1. }
  split; [exact H3|].
  split.
  { intros p Hp. cbn in Hp. apply orb_false_iff in Hp as [Hp1 Hp2].
    rewrite (frame_step _ _ _ _ _ _ p C5 H5), (frame_step _ _ _ _ _ _ p C4 H4);
      [reflexivity|cbn; rewrite Hp1; reflexivity|cbn; exact Hp2]. }
  split.
  { intros x.
    rewrite (dom_step _ _ _ _ _ _ _ C5 H5), (dom_step _ _ _ _ _ _ _ C4 H4).
    eapply dom_step; [|exact H3]. apply changes_mapped. }
  split; [exact H6|]. split; [exact H7|].
  split.
  { intros x.
    rewrite (dom_step _ _ _ _ _ _ _ C7 H7), (dom_step _ _ _ _ _ _ _ C6 H6).
    reflexivity. }
  split; [intros p Hp; apply (frame_step _ _ _ _ _ _ _ C8 H8 Hp)|].
  split; [intros x; apply (dom_step _ _ _ _ _ _ _ C8 H8)|].
  split.
  { intros p Hp. cbn in Hp. apply orb_false_iff in Hp as [Hp1 Hp2].
    rewrite (frame_step _ _ _ _ _ _ p C10 H10), (frame_step _ _ _ _ _ _ p C9 H9);
      [reflexivity|cbn; rewrite Hp1; reflexivity|cbn; exact Hp2]. }
  split.
  { intros x.
    rewrite (dom_step _ _ _ _ _ _ _ C10 H10), (dom_step _ _ _ _ _ _ _ C9 H9).
    reflexivity. }
  exists s10. auto.
Qed.


Lemma mapped_frame vid prop row c table st st' p :
  set_mapped E vid prop row c table st = (Ok tt, st') ->
  String.eqb p prop = false ->
  get_attr (onto st') vid p = get_attr (onto st) vid p.
Proof.
  intros H Hp. eapply frame_step; [apply changes_mapped|exact H|].
  cbn. rewrite Hp. reflexivity.
Qed.


End VehicleTheorems.

(** C10: after a row is processed without exception its vehicle individual
    has [hasElectricity] (a boolean), [hasBoostSystem] and
    [hasMarketSegment] assigned, whatever columns the row has: the boost
    system is Turbocharger when "T Charger" is "T", otherwise Supercharger
    when "S Charger" is "S", otherwise NaturallyAspirated; the market segment
    is the segment of "You Save/Spend", and StandardMarket when that cell is
    absent or null. *)
Theorem vehicle_flags_set (E : environment) (maps : mappings) (vid : string)
    (row : Series) (st st' : state)
    (Hrun : populate_vehicle E maps vid row st = (Ok tt, st')) :
  get_attr (onto st') vid "hasElectricity" = Some (ABool (has_electricity E row))
  /\ get_attr (onto st') vid "hasBoostSystem"
     = Some (AObj (onto_getattr (onto st') (boost_system row)))
  /\ (exists segment,
        row_market_segment row = Val segment
        /\ get_attr (onto st') vid "hasMarketSegment"
           = Some (AObj (onto_getattr (onto st') segment)))
  /\ (present row "T Charger" = false -> present row "S Charger" = false ->
      boost_system row = "NaturallyAspirated"%string)
  /\ (present row "T Charger" = true -> s_value row "T Charger" = VStr "T" ->
      boost_system row = "Turbocharger"%string)
  /\ (present row "T Charger" = false ->
      present row "S Charger" = true -> s_value row "S Charger" = VStr "S" ->
      boost_system row = "Supercharger"%string)
  /\ (present row "You Save/Spend" = false ->
      row_market_segment row = Val "StandardMarket"%string).
Proof.
  destruct (populate_vehicle_frames E maps vid row st st' Hrun)
    as (s3 & s4 & s7 & s8 & s9 & s10 &
        Hv3 & Hel & _ & H3 & F47 & D47 & H7 & H8 & D79 & F9 & D9 & F10 & D10 &
        s11 & Hb & Hm).
  assert (Hv10 : onto_getattr (onto s10) vid = Some vid).
  { rewrite D9, D79, D47. exact Hv3. }
  pose proof (changes_market_segment E vid row) as Cm.
  pose proof (changes_boost_system E vid row) as Cb.
  split; [|split; [|split]].
  - rewrite F10, F9 by reflexivity.
    rewrite (mapped_frame E _ _ _ _ _ _ _ _ H8), (mapped_frame E _ _ _ _ _ _ _ _ H7)
      by reflexivity.
    rewrite F47 by reflexivity.
    rewrite (mapped_frame E _ _ _ _ _ _ _ _ H3) by reflexivity.
    exact Hel.
  - rewrite (frame_step _ _ _ _ _ _ _ Cm Hm) by reflexivity.
    rewrite D10. apply (set_boost_system_ok E vid row s10 s11 Hb Hv10).
  - destruct (set_market_segment_ok E vid row s11 st' Hm) as (segment & Hseg & Hattr).
    { rewrite (dom_step _ _ _ _ _ _ _ Cb Hb). exact Hv10. }
    exists segment. split; [exact Hseg|].
    rewrite (dom_step _ _ _ _ _ _ _ Cm Hm). exact Hattr.
  - unfold boost_system, row_market_segment. repeat split.
    + intros -> ->. reflexivity.
    + intros -> ->. reflexivity.
    + intros -> -> ->. reflexivity.
    + intros ->. reflexivity.
Qed.

(** Reading a classification dictionary that was filled from a table. *)
Lemma dict_get_set_other {V : Type} (d : pydict V) (k k' : pyval) (v x : V) :
  dict_get d k' = None -> dict_get d k = Some v ->
  dict_get (dict_set d k' x) k = Some v.
Proof.
  induction d as [|[k0 v0] r IH]; simpl; [discriminate|].
  intros Hk' Hk.
  destruct (py_eqb k0 k') eqn:E0; [discriminate|].
  simpl. destruct (py_eqb k0 k); [exact Hk|]. apply IH; assumption.
Qed.

(** ** Loops that fill a dictionary *)

Lemma for_fold_ind {A S : Type} (J : list A -> S -> state -> Prop)
    (body : S -> A -> M S) (l : list A) :
  (forall done x todo s st s' st',
     l = done ++ x :: todo -> J done s st -> body s x st = (Ok s', st') ->
     J (done ++ [x]) s' st') ->
  forall s st s' st',
    J [] s st -> for_fold l body s st = (Ok s', st') -> J l s' st'.
Proof.
  intros Hstep.
  assert (Hgen : forall todo done s st s' st',
             l = done ++ todo -> J done s st ->
             for_fold todo body s st = (Ok s', st') -> J l s' st').
  { induction todo as [|x r IH]; intros done s st s' st' Hl HJ Hrun.
    - simpl in Hrun. injection Hrun as <- <-. rewrite Hl, app_nil_r. exact HJ.
    - simpl in Hrun. apply bind_ok in Hrun as (s1 & st1 & Hb & Hrun).
      apply (IH (done ++ [x]) s1 st1 s' st').
      + rewrite <- app_assoc. exact Hl.
      + eapply Hstep; eauto.
      + exact Hrun. }
  intros s st s' st' HJ Hrun. apply (Hgen l [] s st s' st'); auto.
Qed.

Lemma dict_get_app {V : Type} (d1 d2 : pydict V) (k : pyval) :
  dict_get (d1 ++ d2) k
  = match dict_get d1 k with
    | Some v => Some v
    | None => dict_get d2 k
    end.
Proof.
  induction d1 as [|[k0 v0] r IH]; simpl; [reflexivity|].
  destruct (py_eqb k0 k); [reflexivity|exact IH].
Qed.

Lemma dict_set_fresh {V : Type} (d : pydict V) (k : pyval) (v : V) :
  dict_get d k = None -> dict_set d k v = d ++ [(k, v)].
Proof.
  induction d as [|[k0 v0] r IH]; simpl; [reflexivity|].
  destruct (py_eqb k0 k); [discriminate|].
  intros H. rewrite IH by exact H. reflexivity.
Qed.

Lemma py_eqb_sym (a b : pyval) : py_eqb a b = py_eqb b a.
Proof.
  destruct a as [| |s|[x|u]], b as [| |t|[y|w]]; simpl; try reflexivity.
  - apply String.eqb_sym.
  - unfold Qeqb. apply Z.eqb_sym.
  - destruct u, w; reflexivity.
Qed.

Lemma py_eqb_refl (a : pyval) : isna a = false -> py_eqb a a = true.
Proof.
  destruct a as [| |s|[x|u]]; simpl; try discriminate; intros _.
  - apply String.eqb_refl.
  - unfold Qeqb. apply Z.eqb_refl.
  - destruct u; reflexivity.
Qed.

Lemma In_dropna (v : pyval) (l : list pyval) : In v (dropna l) -> isna v = false.
Proof.
  unfold dropna. intros H. apply List.filter_In in H as [_ H].
  destruct (isna v); [discriminate|reflexivity].
Qed.

Lemma In_unique (v : pyval) (l : list pyval) : In v (unique l) -> In v l.
Proof.
  revert v. induction l as [|x r IH]; intros v; simpl; [auto|].
  intros [->|H]; [left; reflexivity|].
  right. apply IH. apply List.filter_In in H as [H _]. exact H.
Qed.

Lemma distinct_filter (p : pyval -> bool) (l : list pyval) :
  distinct_values l -> distinct_values (List.filter p l).
Proof.
  unfold distinct_values. induction 1 as [|x r Hr IH Hx]; simpl; [constructor|].
  destruct (p x); [|exact IH].
  constructor; [exact IH|].
  rewrite List.Forall_forall in *. intros y Hy.
  apply Hx. apply List.filter_In in Hy as [Hy _]. exact Hy.
Qed.

Lemma unique_distinct (l : list pyval) : distinct_values (unique l).
Proof.
  induction l as [|x r IH]; simpl; [constructor|].
  constructor.
  - apply distinct_filter. exact IH.
  - rewrite List.Forall_forall. intros y Hy.
    apply List.filter_In in Hy as [_ Hy].
    destruct (py_eqb x y); [discriminate|reflexivity].
Qed.

Lemma distinct_split (done todo : list pyval) (x : pyval) :
  distinct_values (done ++ x :: todo) ->
  forall d, In d done -> py_eqb d x = false.
Proof.
  unfold distinct_values. induction done as [|y r IH]; simpl; [contradiction|].
  intros H d [<-|Hd].
  - apply StronglySorted_inv in H as [_ H].
    rewrite List.Forall_forall in H. apply H. apply in_or_app. right. left. reflexivity.
  - apply StronglySorted_inv in H as [H _]. apply IH; assumption.
Qed.

Lemma column_values_notna (data : DataFrame) (c : string) (v : pyval) :
  In v (column_values data c) -> isna v = false.
Proof. unfold column_values. intros H. apply In_unique in H. eapply In_dropna; eauto. Qed.

Section CreateLoop.

(** A loop that creates one individual of [cls] per truthy value and
    records it in a dictionary, or logs the failure. *)
Variable cls : string.
Variable id_of : pyval -> except string.
Variable failure : string -> exn -> string.
Variable body : pydict ref -> pyval -> M (pydict ref).

Hypothesis body_spec : forall table v st table' st',
  body table v st = (Ok table', st') ->
  (exists evs, trace st' = trace st ++ evs)
  /\ (forall name c, has_type (onto st) name c -> has_type (onto st') name c)
  /\ (if truthy v && negb (isna v) then
        exists id, id_of v = Val id
          /\ ((table' = dict_set table v (Some id) /\ has_type (onto st') id cls)
              \/ (table' = table /\ exists e, In (EvLog (failure id e)) (trace st')))
      else table' = table).


End CreateLoop.

(** ** Manufacturers and model years *)

Section Creation.

Variable E : environment.

Lemma has_type_insert (o : ontology) (cls name : string) (n c : string) :
  has_type o n c ->
  has_type (<[name := match o !! name with
                      | Some ent => add_type cls ent
                      | None => fresh_individual cls
                      end]> o) n c.
Proof.
  intros (ent & Hent & Hc). unfold has_type. rewrite lookup_insert.
  destruct (decide (name = n)) as [->|]; [|eauto].
  rewrite Hent. eexists. split; [reflexivity|].
  unfold add_type. simpl. destruct (has_label cls (ent_types ent)); [exact Hc|].
  apply in_or_app. left. exact Hc.
Qed.

Lemma has_label_In (c : string) (l : list string) : has_label c l = true -> In c l.
Proof.
  unfold has_label. intros H. apply existsb_exists in H as (x & Hx & Heq).
  apply String.eqb_eq in Heq. subst. exact Hx.
Qed.

Lemma has_type_new (o : ontology) (cls name : string) :
  has_type (<[name := match o !! name with
                      | Some ent => add_type cls ent
                      | None => fresh_individual cls
                      end]> o) name cls.
Proof.
  unfold has_type. rewrite lookup_insert_eq. eexists. split; [reflexivity|].
  destruct (o !! name) as [ent|]; simpl; [|left; reflexivity].
  destruct (has_label cls (ent_types ent)) eqn:Hl.
  - apply has_label_In. exact Hl.
  - apply in_or_app. right. left. reflexivity.
Qed.

Lemma new_individual_run cls name st r st' :
  new_individual E cls name st = (r, st') ->
  (r = Ok name
   /\ trace st' = trace st ++ [EvNew cls name]
   /\ has_type (onto st') name cls
   /\ (forall n c, has_type (onto st) n c -> has_type (onto st') n c))
  \/ ((exists e, r = Raise e) /\ st' = st).
Proof.
  unfold new_individual, bind, get_onto.
  destruct (onto st !! cls) as [c|]; [|intros [= <- <-]; right; eauto].
  destruct (negb (ent_is_class c)); [intros [= <- <-]; right; eauto|].
  destruct (lib_fault E (onto st) (CallNew cls name));
    [intros [= <- <-]; right; eauto|].
  simpl. intros [= <- <-]. left. simpl.
  split; [reflexivity|]. split; [reflexivity|].
  split; [apply has_type_new|]. intros n c0. apply has_type_insert.
Qed.








End Creation.

(** ** Worked examples *)

Example demo_vehicle_id :
  vehicle_id demo_env 0 (demo_series demo_row_audi) = Val "Audi_A4_2020_00001"%string.
Proof. vm_compute. reflexivity. Qed.

Example demo_run_exit_code : fst (run demo_env) = 0.
Proof. vm_compute. reflexivity. Qed.

Example demo_populate_audi :
  fst (populate_vehicle demo_env demo_maps "Audi_A4_2020_00001"
         (demo_series demo_row_audi) demo_state) = Ok tt.
Proof. vm_compute. reflexivity. Qed.

(** A fuel type of the data set that the static table does not list gets an
    individual of its own and an entry in the dictionary. *)
Example hydrogen_is_added :
  exists tables st,
    setup_mappings demo_env hydrogen_data demo_state = (Ok tables, st)
    /\ dict_get (fst (fst (fst tables))) (VStr "Hydrogen") = Some (Some "Hydrogen"%string)
    /\ In (EvNew "FuelType" "Hydrogen") (trace st).
Proof.
  eexists. eexists. split; [vm_compute; reflexivity|].
  split; [reflexivity|]. simpl. tauto.
Qed.

(** When the class Manufacturer is missing, the creation raises, the error
    is logged and the make stays unmapped. *)
Example manufacturer_creation_fails :
  fst (create_manufacturers demo_env demo_data no_manufacturer_state) = Ok []
  /\ In (EvLog "Error adding manufacturer Audi: TypeError: 'NoneType' object is not callable")
        (trace (snd (create_manufacturers demo_env demo_data no_manufacturer_state))).
Proof. split; [vm_compute; reflexivity|]. vm_compute. tauto. Qed.

(** ** Classification dictionaries *)

Section Mappings.

Variable E : environment.






End Mappings.



Lemma vehicle_flags_set_witness :
  get_attr
    (onto (snd (populate_vehicle demo_env demo_maps "Audi_A4_2020_00001"
                  (demo_series demo_row_audi) demo_state)))
    "Audi_A4_2020_00001" "hasElectricity"
  = Some (ABool (has_electricity demo_env (demo_series demo_row_audi))).
Proof.
  apply (vehicle_flags_set demo_env demo_maps "Audi_A4_2020_00001"%string
           (demo_series demo_row_audi) demo_state
           (snd (populate_vehicle demo_env demo_maps "Audi_A4_2020_00001"
                   (demo_series demo_row_audi) demo_state))).
  vm_compute. reflexivity.
Defined.






(** ** The order of the steps *)











Section Phases.

Variable E : environment.

















End Phases.

Ltac unfold_script :=
  unfold main, populate_ontology, load_ontology, ensure_dir, load_data, read_csv,
    export_artifacts, save_unique_values, open_write, setup_mappings, add_new_values,
    add_default_body_styles, create_manufacturers, create_model_years,
    populate_vehicles, select_sample, process_row, populate_vehicle,
    set_data_properties, set_electricity, set_body_style, set_boost_system,
    set_market_segment, set_string, set_numeric, set_mapped, safe_numeric_conversion,
    new_individual, set_attr, save_populated, onto_save, run_reasoner,
    sync_reasoner_hermit, report_statistics, count_all_individuals,
    count_class_instances.






Section Saves.

Variable E : environment.

Ltac quiet := repeat all_step ltac:(reflexivity).



End Saves.



(** ** How a run ends *)

Lemma decides_weaken {A : Type} (m : M A) (s : status) (Phi Psi : A -> Prop) :
  (forall a, Phi a -> Psi a) -> decides m s Phi -> decides m s Psi.
Proof. intros H Hm st. destruct (Hm st) as [Hs Hr]. split; auto. Qed.

Lemma decides_ret {A : Type} (a : A) (Phi : A -> Prop) :
  Phi a -> decides (ret a) SOk Phi.
Proof. intros H st. split; [reflexivity|]. intros a' [= <-]. exact H. Qed.

Lemma decides_raise {A : Type} (e : exn) (Phi : A -> Prop) :
  decides (@raise A e) SRaise Phi.
Proof. intros st. split; [reflexivity|]. intros a' [=]. Qed.

Lemma decides_sys_exit {A : Type} (c : Z) (Phi : A -> Prop) :
  decides (@sys_exit A c) (SExit c) Phi.
Proof. intros st. split; [reflexivity|]. intros a' [=]. Qed.

Lemma decides_emit (ev : event) : decides (emit ev) SOk (fun _ => True).
Proof. intros st. split; [reflexivity|auto]. Qed.

Lemma decides_log (msg : string) : decides (log msg) SOk (fun _ => True).
Proof. apply decides_emit. Qed.

Lemma decides_get_onto : decides get_onto SOk (fun _ => True).
Proof. intros st. split; [reflexivity|auto]. Qed.

Lemma decides_put_onto (o : ontology) : decides (put_onto o) SOk (fun _ => True).
Proof. intros st. split; [reflexivity|auto]. Qed.

Lemma decides_bind_ok {A B : Type} (m : M A) (k : A -> M B) (Phi : A -> Prop)
    (s : status) (Psi : B -> Prop) :
  decides m SOk Phi -> (forall a, Phi a -> decides (k a) s Psi) ->
  decides (bind m k) s Psi.
Proof.
  intros Hm Hk st. unfold bind. destruct (Hm st) as [Hs Hr].
  destruct (m st) as [[a|e|c] st1]; simpl in *; try discriminate.
  apply Hk. apply Hr. reflexivity.
Qed.

Lemma decides_bind_stop {A B : Type} (m : M A) (k : A -> M B) (Phi : A -> Prop)
    (s : status) (Psi : B -> Prop) :
  decides m s Phi -> s <> SOk -> decides (bind m k) s Psi.
Proof.
  intros Hm Hne st. unfold bind. destruct (Hm st) as [Hs Hr].
  destruct (m st) as [[a|e|c] st1]; simpl in *.
  - congruence.
  - split; [exact Hs|]. intros a [=].
  - split; [exact Hs|]. intros a [=].
Qed.

(** A [try] whose body cannot exit and whose handler ends normally. *)
Lemma decides_try {A : Type} (body : M A) (handler : exn -> M A) (Phi : A -> Prop) :
  no_exit body ->
  (forall st a, fst (body st) = Ok a -> Phi a) ->
  (forall e, decides (handler e) SOk Phi) ->
  decides (try_except body handler) SOk Phi.
Proof.
  intros Hne Hres Hh st. unfold try_except.
  specialize (Hne st). specialize (Hres st).
  destruct (body st) as [[a|e|c] st1]; simpl in *.
  - split; [reflexivity|]. intros a' [= <-]. apply Hres. reflexivity.
  - apply Hh.
  - exfalso. apply (Hne c). reflexivity.
Qed.

Lemma decides_when (b : bool) (m : M unit) :
  decides m SOk (fun _ => True) -> decides (when b m) SOk (fun _ => True).
Proof. destruct b; [auto|intros _; apply decides_ret; exact I]. Qed.

Lemma decides_for_each {A : Type} (l : list A) (body : A -> M unit) :
  (forall x, decides (body x) SOk (fun _ => True)) ->
  decides (for_each l body) SOk (fun _ => True).
Proof.
  intros Hb. induction l as [|x r IH]; simpl.
  - apply decides_ret. exact I.
  - eapply decides_bind_ok; [apply Hb|]. intros _ _. exact IH.
Qed.

(** A loop stops with an exception exactly when its body does for one of
    the elements; [Inv] is an invariant of the local variables. *)
Lemma decides_for_fold {A S : Type} (Inv : S -> Prop) (p : A -> bool)
    (body : S -> A -> M S) (l : list A) (s : S) :
  Inv s ->
  (forall s x, Inv s -> In x l ->
     decides (body s x) (if p x then SRaise else SOk) Inv) ->
  decides (for_fold l body s) (if existsb p l then SRaise else SOk) Inv.
Proof.
  revert s. induction l as [|x r IH]; intros s Hs Hb; simpl.
  - apply decides_ret. exact Hs.
  - pose proof (Hb s x Hs (or_introl eq_refl)) as Hx.
    destruct (p x); simpl.
    + eapply decides_bind_stop; [exact Hx|discriminate].
    + eapply decides_bind_ok; [exact Hx|].
      intros s' Hs'. apply IH; [exact Hs'|].
      intros s0 y Hs0 Hy. apply Hb; [exact Hs0|right; exact Hy].
Qed.

Lemma no_exit_results {A : Type} (m : M A) : forall st a, fst (m st) = Ok a -> True.
Proof. auto. Qed.

(** Steps through a computation that always ends normally. *)
Ltac safe_step :=
  first
    [ apply decides_ret; exact I
    | apply decides_log | apply decides_emit
    | apply decides_get_onto | apply decides_put_onto
    | apply (decides_bind_ok _ _ (fun _ => True)); [|intros ? _]
    | apply decides_try; [repeat no_exit_step|auto|intros ?]
    | apply decides_when
    | apply decides_for_each; intros ?
    | match goal with
      | |- decides (match ?x with _ => _ end) _ _ => destruct x
      end ].

Lemma decides_lift {A : Type} (x : except A) (Phi : A -> Prop) :
  (forall a, x = Val a -> Phi a) ->
  decides (lift x) (if is_exc x then SRaise else SOk) Phi.
Proof.
  intros H. destruct x as [a|e]; simpl.
  - apply decides_ret. apply H. reflexivity.
  - apply decides_raise.
Qed.

Lemma decides_for_fold_safe {A S : Type} (Inv : S -> Prop)
    (body : S -> A -> M S) (l : list A) (s : S) :
  Inv s ->
  (forall s x, Inv s -> decides (body s x) SOk Inv) ->
  decides (for_fold l body s) SOk Inv.
Proof.
  intros Hs Hb.
  pose proof (decides_for_fold Inv (fun _ => false) body l s Hs) as H.
  assert (Hex : existsb (fun _ : A => false) l = false).
  { clear. induction l; simpl; auto. }
  rewrite Hex in H. apply H. intros s0 x Hs0 _. apply Hb. exact Hs0.
Qed.

Lemma fst_ok {A : Type} (m : M A) st a :
  fst (m st) = Ok a -> exists st', m st = (Ok a, st').
Proof. destruct (m st) as [r st']. simpl. intros ->. eauto. Qed.

Lemma keys_are_strings_set {V : Type} (d : pydict V) (s : string) (x : V) :
  keys_are_strings d -> keys_are_strings (dict_set d (VStr s) x).
Proof.
  unfold keys_are_strings. induction 1 as [|[k v] r Hk Hr IH]; simpl.
  - repeat constructor.
  - destruct (py_eqb k (VStr s)); constructor; auto.
Qed.

Lemma keys_are_strings_mem {V : Type} (d : pydict V) (v : pyval) :
  keys_are_strings d -> is_str v = false -> dict_mem d v = false.
Proof.
  unfold keys_are_strings, dict_mem. intros Hd Hv.
  induction Hd as [|[k x] r Hk Hr IH]; simpl; [reflexivity|].
  simpl in Hk. destruct k; try discriminate.
  destruct v; try discriminate; simpl; exact IH.
Qed.

Lemma keys_are_strings_build (o : ontology) (table : list (string * string)) :
  keys_are_strings (build_map o table).
Proof.
  unfold build_map.
  assert (H : forall acc : pydict ref, keys_are_strings acc ->
            keys_are_strings
              (fold_left (fun d kv => dict_set d (VStr (fst kv)) (onto_getattr o (snd kv)))
                 table acc)).
  { induction table as [|kv r IH]; intros acc Hacc; simpl; [exact Hacc|].
    apply IH. apply keys_are_strings_set. exact Hacc. }
  apply H. constructor.
Qed.

Section Outcomes.

Variable E : environment.

Lemma load_ontology_decides :
  decides (load_ontology E) (if ontology_missing E then SExit 1 else SOk)
    (fun _ => True).
Proof.
  intros st. unfold load_ontology, ontology_missing, try_except, bind, emit, log,
    emit, put_onto, raise, sys_exit.
  destruct (ontology_file E); simpl;
    (split; [reflexivity|intros a Ha; try discriminate; exact I]).
Qed.

Lemma ensure_dir_decides :
  decides (ensure_dir E ARTIFACTS_DIR) (if dir_fault E then SRaise else SOk)
    (fun _ => True).
Proof.
  intros st. unfold ensure_dir, dir_fault.
  destruct (artifacts_dir_exists E); simpl;
    [split; [reflexivity|intros; exact I]|].
  destruct (makedirs_fault E); simpl;
    (split; [reflexivity|intros a Ha; try discriminate; exact I]).
Qed.

Lemma load_data_decides :
  decides (load_data E)
    (match loaded_data E with Some _ => SOk | None => SExit 1 end)
    (fun data => loaded_data E = Some data).
Proof.
  intros st. unfold load_data, loaded_data, read_csv, try_except, bind, emit, log,
    emit, raise, sys_exit, ret.
  destruct (csv_default E) as [e|data]; simpl.
  - destruct (csv_semicolon E) as [e'|data]; simpl.
    + split; [reflexivity|]. intros a [=].
    + split; [reflexivity|]. intros a [= <-]. reflexivity.
  - split; [reflexivity|]. intros a [= <-]. reflexivity.
Qed.

Lemma open_write_decides f :
  decides (open_write E f) (if is_some (open_fault E f) then SRaise else SOk)
    (fun _ => True).
Proof.
  unfold open_write. destruct (open_fault E f); simpl.
  - apply decides_raise.
  - apply decides_emit.
Qed.

Lemma save_unique_values_decides values f :
  decides (save_unique_values E values f)
    (if is_some (open_fault E f) || is_exc (py_sorted values) then SRaise else SOk)
    (fun _ => True).
Proof.
  unfold save_unique_values.
  pose proof (open_write_decides f) as Ho.
  destruct (is_some (open_fault E f)); simpl.
  - eapply decides_bind_stop; [exact Ho|discriminate].
  - eapply decides_bind_ok; [exact Ho|]. intros _ _.
    pose proof (decides_lift (py_sorted values) (fun _ => True) (fun _ _ => I)) as Hs.
    destruct (is_exc (py_sorted values)).
    + eapply decides_bind_stop; [exact Hs|discriminate].
    + eapply decides_bind_ok; [exact Hs|]. intros sorted _.
      repeat safe_step.
Qed.

Lemma export_artifacts_decides data :
  decides (export_artifacts E data)
    (if export_fault E data then SRaise else SOk) (fun _ => True).
Proof.
  unfold export_artifacts, export_fault.
  eapply decides_bind_ok; [apply decides_log|]. intros _ _.
  set (p := fun c => is_some (open_fault E (values_path c))
                     || is_exc (py_sorted (column_values data c))).
  match goal with
  | |- decides (bind (for_fold ?l ?body ?s) _) _ _ =>
      pose proof (decides_for_fold (fun _ => True) p body l s I) as Hloop
  end.
  assert (Hloop' := Hloop ltac:(
    intros s c _ _; unfold p;
    pose proof (save_unique_values_decides (column_values data c) (values_path c)) as Hs;
    unfold column_values in *;
    destruct (is_some (open_fault E (values_path c))
              || is_exc (py_sorted (unique (dropna (column data c)))));
    [eapply decides_bind_stop; [exact Hs|discriminate]
    |eapply decides_bind_ok; [exact Hs|]; intros _ _; apply decides_ret; exact I])).
  clear Hloop.
  destruct (existsb p (df_columns data)); simpl.
  - eapply decides_bind_stop; [exact Hloop'|discriminate].
  - eapply decides_bind_ok; [exact Hloop'|]. intros column_stats _.
    pose proof (open_write_decides stats_path) as Ho.
    destruct (is_some (open_fault E stats_path)).
    + eapply decides_bind_stop; [exact Ho|discriminate].
    + eapply decides_bind_ok; [exact Ho|]. intros _ _. repeat safe_step.
Qed.

End Outcomes.

Section Outcomes2.

Variable E : environment.

Lemma add_new_values_decides cls noun id_of values table :
  keys_are_strings table ->
  decides (add_new_values E cls noun id_of values table)
    (if replace_fault values then SRaise else SOk) keys_are_strings.
Proof.
  intros Htable. unfold add_new_values, replace_fault.
  apply decides_for_fold; [exact Htable|].
  intros t v Ht _.
  destruct (is_str v) eqn:Hstr.
  - destruct v as [| |s|n]; try discriminate.
    cbn [negb]. rewrite andb_false_r.
    match goal with
    | |- decides (if ?c then _ else _) _ _ => destruct c
    end; [|apply decides_ret; exact Ht].
    cbn [as_str lift].
    eapply decides_bind_ok; [apply (decides_ret s (fun _ => True)); exact I|].
    intros s' _. apply decides_try.
    + repeat first [ apply no_exit_new_individual | no_exit_step ].
    + intros st a Ha. apply fst_ok in Ha as (st' & Ha).
      apply bind_ok in Ha as (new & s1 & _ & Ha).
      apply bind_ok in Ha as ([] & s2 & _ & [= <- <-]).
      apply keys_are_strings_set. exact Ht.
    + intros e. eapply decides_bind_ok; [apply decides_log|].
      intros _ _. apply decides_ret. exact Ht.
  - unfold ref in *.
    rewrite (keys_are_strings_mem t v Ht Hstr). cbn [negb]. rewrite !andb_true_r.
    match goal with
    | |- decides (if ?c then _ else _) _ _ => destruct c
    end; [|apply decides_ret; exact Ht].
    assert (Hexc : exists e, as_str v "replace" = Exc e).
    { destruct v; try discriminate; eexists; reflexivity. }
    destruct Hexc as (e & ->). cbn [lift].
    apply (decides_bind_stop _ _ (fun _ => True)); [apply decides_raise|discriminate].
Qed.

Lemma add_default_body_styles_decides values table :
  decides (add_default_body_styles E values table) SOk (fun _ => True).
Proof.
  unfold add_default_body_styles.
  apply decides_for_fold_safe; [exact I|]. intros t v _.
  destruct (truthy v && negb (isna v) && negb (dict_mem t v)); repeat safe_step.
Qed.

(** One of the three optional loops of [setup_mappings]. *)
Lemma optional_loop_decides (b : bool) cls noun id_of values table :
  keys_are_strings table ->
  decides (if b then add_new_values E cls noun id_of values table else ret table)
    (if b && replace_fault values then SRaise else SOk) (fun _ => True).
Proof.
  intros Ht. destruct b; simpl.
  - eapply decides_weaken; [|apply add_new_values_decides; exact Ht]. auto.
  - apply decides_ret. exact I.
Qed.

Lemma setup_mappings_decides data :
  decides (setup_mappings E data)
    (if mapping_fault data then SRaise else SOk) (fun _ => True).
Proof.
  unfold setup_mappings, mapping_fault.
  eapply decides_bind_ok; [apply decides_log|]. intros _ _.
  eapply decides_bind_ok; [apply decides_get_onto|]. intros o _.
  pose proof (optional_loop_decides (has_label "Fuel Type" (df_columns data))
                "FuelType" "fuel type" fuel_id (column_values data "Fuel Type")
                (build_map o FUEL_TYPE_MAP) (keys_are_strings_build _ _)) as H1.
  pose proof (optional_loop_decides (has_label "Vehicle Size Class" (df_columns data))
                "VehicleSizeClass" "size class" class_id
                (column_values data "Vehicle Size Class")
                (build_map o SIZE_CLASS_MAP) (keys_are_strings_build _ _)) as H2.
  pose proof (optional_loop_decides (has_label "Drive" (df_columns data))
                "DriveType" "drive type" drive_id (column_values data "Drive")
                (build_map o DRIVE_TYPE_MAP) (keys_are_strings_build _ _)) as H3.
  destruct (has_label "Fuel Type" (df_columns data)
            && replace_fault (column_values data "Fuel Type")); simpl orb.
  { eapply decides_bind_stop; [exact H1|discriminate]. }
  eapply decides_bind_ok; [exact H1|]. intros fuel _.
  destruct (has_label "Vehicle Size Class" (df_columns data)
            && replace_fault (column_values data "Vehicle Size Class")); simpl orb.
  { eapply decides_bind_stop; [exact H2|discriminate]. }
  eapply decides_bind_ok; [exact H2|]. intros size _.
  destruct (has_label "Drive" (df_columns data)
            && replace_fault (column_values data "Drive")); simpl orb.
  { eapply decides_bind_stop; [exact H3|discriminate]. }
  eapply decides_bind_ok; [exact H3|]. intros drive _.
  eapply (decides_bind_ok _ _ (fun _ => True)).
  - destruct (has_label "Vehicle Size Class" (df_columns data)).
    + apply add_default_body_styles_decides.
    + apply decides_ret. exact I.
  - intros body _. apply decides_ret. exact I.
Qed.

Lemma create_manufacturers_decides data :
  decides (create_manufacturers E data)
    (if manufacturer_fault E data then SRaise else SOk) (fun _ => True).
Proof.
  unfold create_manufacturers, manufacturer_fault.
  eapply decides_bind_ok; [apply decides_log|]. intros _ _.
  destruct (has_label "Make" (df_columns data)); simpl andb;
    [|apply decides_ret; exact I].
  match goal with
  | |- decides (bind (for_fold ?l ?body ?s) _) _ _ =>
      pose proof (decides_for_fold (fun _ => True)
                    (fun v => truthy v && negb (isna v)
                              && is_exc (create_valid_id (repr_number E) v))
                    body l s I) as Hloop
  end.
  match type of Hloop with ?P -> _ => assert (Hbody : P) end.
  { intros t v _ _. cbv beta.
    destruct (truthy v && negb (isna v)); simpl andb;
      [|apply decides_ret; exact I].
    pose proof (decides_lift (create_valid_id (repr_number E) v) (fun _ => True)
                  (fun _ _ => I)) as Hid.
    destruct (is_exc (create_valid_id (repr_number E) v)).
    - eapply decides_bind_stop; [exact Hid|discriminate].
    - eapply decides_bind_ok; [exact Hid|]. intros make_id _.
      repeat first [ apply no_exit_new_individual | safe_step ]. }
  pose proof (Hloop Hbody) as Hloop'. clear Hloop Hbody. cbv beta in Hloop'.
  destruct (existsb _ (column_values data "Make")).
  - eapply decides_bind_stop; [exact Hloop'|discriminate].
  - eapply decides_bind_ok; [exact Hloop'|]. intros table _. repeat safe_step.
Qed.

Lemma create_model_years_decides data :
  decides (create_model_years E data)
    (if year_fault E data then SRaise else SOk) (fun _ => True).
Proof.
  unfold create_model_years, year_fault.
  eapply decides_bind_ok; [apply decides_log|]. intros _ _.
  destruct (has_label "Year" (df_columns data)); simpl andb;
    [|apply decides_ret; exact I].
  match goal with
  | |- decides (bind (for_fold ?l ?body ?s) _) _ _ =>
      pose proof (decides_for_fold (fun _ => True)
                    (fun v => truthy v && negb (isna v) && is_exc (py_int E v))
                    body l s I) as Hloop
  end.
  match type of Hloop with ?P -> _ => assert (Hbody : P) end.
  { intros t v _ _. cbv beta.
    destruct (truthy v && negb (isna v)); simpl andb;
      [|apply decides_ret; exact I].
    pose proof (decides_lift (py_int E v) (fun _ => True) (fun _ _ => I)) as Hid.
    destruct (is_exc (py_int E v)).
    - eapply decides_bind_stop; [exact Hid|discriminate].
    - eapply decides_bind_ok; [exact Hid|]. intros y _.
      repeat first [ apply no_exit_new_individual | safe_step ]. }
  pose proof (Hloop Hbody) as Hloop'. clear Hloop Hbody. cbv beta in Hloop'.
  destruct (existsb _ (column_values data "Year")).
  - eapply decides_bind_stop; [exact Hloop'|discriminate].
  - eapply decides_bind_ok; [exact Hloop'|]. intros table _. repeat safe_step.
Qed.

Lemma process_row_decides maps n counts item :
  decides (process_row E maps n counts item)
    (if is_exc (vehicle_id E (fst item) (snd item)) then SRaise else SOk)
    (fun _ => True).
Proof.
  destruct counts as [p s], item as [i row]. cbn [fst snd]. intros st.
  destruct (vehicle_id E i row) as [vid|e] eqn:Hvid; simpl is_exc; cbv iota.
  - pose proof (process_row_catches E maps n p s i row st vid Hvid) as H.
    destruct (populate_vehicle E maps vid row (after_batch_log p n st))
      as [[[]|e|c] st1]; [| |contradiction]; rewrite H; simpl; auto.
  - rewrite (process_row_raises E maps n p s i row st e Hvid). simpl.
    split; [reflexivity|]. intros a [=].
Qed.

Lemma select_sample_decides data :
  decides (select_sample E data) SOk (fun sd => sd = sample_of E data).
Proof.
  intros st. destruct (select_sample_run E data st) as (st' & ->). simpl.
  split; [reflexivity|]. intros a [= <-]. reflexivity.
Qed.

Lemma populate_vehicles_decides data maps :
  decides (populate_vehicles E data maps)
    (if row_fault E data then SRaise else SOk) (fun _ => True).
Proof.
  unfold populate_vehicles, row_fault.
  eapply decides_bind_ok; [apply decides_log|]. intros _ _.
  eapply decides_bind_ok; [apply select_sample_decides|]. intros sd ->.
  pose proof (decides_for_fold (fun _ : nat * nat => True)
                (fun item => is_exc (vehicle_id E (fst item) (snd item)))
                (process_row E maps (sample_size data))
                (iterrows (sample_of E data)) (0%nat, 0%nat) I
                (fun s x _ _ => process_row_decides maps (sample_size data) s x))
    as Hloop.
  destruct (existsb _ (iterrows (sample_of E data))).
  - eapply decides_bind_stop; [exact Hloop|discriminate].
  - eapply decides_bind_ok; [exact Hloop|]. intros counts _. repeat safe_step.
Qed.

Lemma save_populated_decides : decides (save_populated E) SOk (fun _ => True).
Proof. unfold save_populated, onto_save. repeat safe_step. Qed.

Lemma run_reasoner_decides : decides (run_reasoner E) SOk (fun _ => True).
Proof. unfold run_reasoner, sync_reasoner_hermit. repeat safe_step. Qed.

Lemma report_statistics_decides : decides (report_statistics E) SOk (fun _ => True).
Proof.
  unfold report_statistics, count_all_individuals, count_class_instances.
  repeat safe_step.
Qed.

Lemma populate_ontology_decides :
  decides (populate_ontology E) (predicted_status E) (fun _ => True).
Proof.
  unfold populate_ontology, predicted_status.
  eapply decides_bind_ok; [apply decides_log|]. intros _ _.
  eapply decides_bind_ok; [apply decides_log|]. intros _ _.
  pose proof (load_ontology_decides E) as H0.
  destruct (ontology_missing E).
  { eapply decides_bind_stop; [exact H0|discriminate]. }
  eapply decides_bind_ok; [exact H0|]. intros _ _.
  pose proof (ensure_dir_decides E) as H1.
  destruct (dir_fault E).
  { eapply decides_bind_stop; [exact H1|discriminate]. }
  eapply decides_bind_ok; [exact H1|]. intros _ _.
  pose proof (load_data_decides E) as H2.
  destruct (loaded_data E) as [data0|].
  2: { eapply decides_bind_stop; [exact H2|discriminate]. }
  eapply decides_bind_ok; [exact H2|]. intros data [= ->].
  unfold data_fault.
  pose proof (export_artifacts_decides E data) as H3.
  destruct (export_fault E data); simpl orb.
  { eapply decides_bind_stop; [exact H3|discriminate]. }
  eapply decides_bind_ok; [exact H3|]. intros _ _.
  pose proof (setup_mappings_decides data) as H4.
  destruct (mapping_fault data); simpl orb.
  { eapply decides_bind_stop; [exact H4|discriminate]. }
  eapply decides_bind_ok; [exact H4|]. intros tables _.
  pose proof (create_manufacturers_decides data) as H5.
  destruct (manufacturer_fault E data); simpl orb.
  { eapply decides_bind_stop; [exact H5|discriminate]. }
  eapply decides_bind_ok; [exact H5|]. intros manufacturers _.
  pose proof (create_model_years_decides data) as H6.
  destruct (year_fault E data); simpl orb.
  { eapply decides_bind_stop; [exact H6|discriminate]. }
  eapply decides_bind_ok; [exact H6|]. intros model_years _.
  cbv zeta.
  match goal with
  | |- decides (bind (populate_vehicles E data ?maps) _) _ _ =>
      pose proof (populate_vehicles_decides data maps) as H7
  end.
  destruct (row_fault E data).
  { eapply decides_bind_stop; [exact H7|discriminate]. }
  eapply decides_bind_ok; [exact H7|]. intros _ _.
  eapply decides_bind_ok; [apply save_populated_decides|]. intros _ _.
  eapply decides_bind_ok; [apply run_reasoner_decides|]. intros _ _.
  eapply decides_bind_ok; [apply report_statistics_decides|]. intros _ _.
  apply decides_log.
Qed.

(** The exit code of a run. *)
Lemma run_exit_code :
  fst (run E) = match predicted_status E with SOk => 0 | _ => 1 end.
Proof.
  unfold run, main, try_except. cbn [fst].
  destruct (populate_ontology_decides initial_state) as [Hs _].
  destruct (populate_ontology E initial_state) as [[a|e|c] st1]; simpl in *.
  - rewrite <- Hs. reflexivity.
  - rewrite <- Hs. reflexivity.
  - rewrite <- Hs. unfold predicted_status in Hs.
    destruct (ontology_missing E); [congruence|].
    destruct (dir_fault E); [discriminate|].
    destruct (loaded_data E); [|congruence].
    destruct (data_fault E d); discriminate.
Qed.

End Outcomes2.

(** ** Files read and written *)

Lemma all_bind_ok (P : event -> Prop) {A B : Type} (Phi : A -> Prop)
    (m : M A) (k : A -> M B) :
  emits (Forall P) m ->
  (forall st a, fst (m st) = Ok a -> Phi a) ->
  (forall a, Phi a -> emits (Forall P) (k a)) ->
  emits (Forall P) (bind m k).
Proof.
  intros Hm Hres Hk st. unfold bind.
  destruct (Hm st) as (e1 & Htr1 & He1). specialize (Hres st).
  destruct (m st) as [[a|e|c] st1]; simpl in *; [|eauto|eauto].
  destruct (Hk a (Hres a eq_refl) st1) as (e2 & Htr2 & He2).
  exists (e1 ++ e2). rewrite Htr2, Htr1, app_assoc. split; [reflexivity|].
  apply Forall_app. auto.
Qed.

Lemma all_for_fold_in (P : event -> Prop) {A S : Type} (l : list A)
    (body : S -> A -> M S) (s : S) :
  (forall s x, In x l -> emits (Forall P) (body s x)) ->
  emits (Forall P) (for_fold l body s).
Proof.
  revert s. induction l as [|x r IH]; intros s Hb; simpl.
  - apply all_ret.
  - apply all_bind; [apply Hb; left; reflexivity|].
    intros s'. apply IH. intros s0 y Hy. apply Hb. right. exact Hy.
Qed.

Lemma files_written_app (e1 e2 : list event) :
  files_written (e1 ++ e2) = files_written e1 ++ files_written e2.
Proof.
  induction e1 as [|ev r IH]; simpl; [reflexivity|].
  destruct ev; simpl; congruence.
Qed.

Lemma files_written_none (evs : list event) :
  Forall creates_no_file evs -> files_written evs = [].
Proof.
  induction 1 as [|ev r Hev _ IH]; simpl; [reflexivity|].
  destruct ev; simpl in Hev; try contradiction; exact IH.
Qed.

Lemma opens_quiet {A : Type} (m : M A) :
  emits (Forall creates_no_file) m -> opens [] m.
Proof.
  intros Hm st a st' Hrun. destruct (Hm st) as (evs & Htr & Hevs).
  rewrite Hrun in Htr. simpl in Htr.
  rewrite Htr, files_written_app, (files_written_none evs Hevs). reflexivity.
Qed.

Lemma opens_bind {A B : Type} (Phi : A -> Prop) (l1 l2 : list string)
    (m : M A) (k : A -> M B) :
  opens l1 m ->
  (forall st a, fst (m st) = Ok a -> Phi a) ->
  (forall a, Phi a -> opens l2 (k a)) ->
  opens (l1 ++ l2) (bind m k).
Proof.
  intros Hm Hres Hk st b st' Hrun.
  apply bind_ok in Hrun as (a & st1 & H1 & H2).
  assert (Ha : Phi a) by (apply (Hres st); rewrite H1; reflexivity).
  rewrite (Hk a Ha st1 b st' H2), (Hm st a st1 H1), app_assoc. reflexivity.
Qed.

Lemma opens_bind_quiet {A B : Type} (l : list string) (m : M A) (k : A -> M B) :
  emits (Forall creates_no_file) m ->
  (forall a, opens l (k a)) ->
  opens l (bind m k).
Proof.
  intros Hm Hk.
  apply (opens_bind (fun _ => True) [] l); auto using opens_quiet.
Qed.

Lemma opens_for_fold {A S : Type} (f : A -> string) (l : list A)
    (body : S -> A -> M S) (s : S) :
  (forall s x, opens [f x] (body s x)) ->
  opens (map f l) (for_fold l body s).
Proof.
  intros Hb. revert s. induction l as [|x r IH]; intros s; simpl.
  - apply opens_quiet. apply all_ret.
  - apply (opens_bind (fun _ => True) [f x] (map f r)); auto.
Qed.

Ltac quiet_event := cbn; exact I.
Ltac quiet_tac := repeat all_step quiet_event.

Ltac read_event :=
  unfold reads_fixed_name; cbn; intros ? Hread;
  first [ discriminate | injection Hread as <-; auto ].

Ltac no_write_event :=
  unfold writes_within; cbn; intros ? Hwrite; discriminate.

Section Files.

Variable E : environment.

Lemma main_reads : emits (Forall reads_fixed_name) (main E).
Proof. unfold_script. repeat all_step read_event. Qed.

Lemma save_unique_values_writes files values c :
  In (values_path c) files ->
  emits (Forall (writes_within files)) (save_unique_values E values (values_path c)).
Proof.
  intros Hin. unfold save_unique_values, open_write.
  repeat all_step ltac:(unfold writes_within; cbn; intros ? Hw;
                        first [ discriminate | injection Hw as <-; exact Hin ]).
Qed.

Lemma expected_values_path data c :
  In c (df_columns data) -> In (values_path c) (expected_files data).
Proof.
  intros Hc. unfold expected_files. apply in_or_app. left.
  apply in_map. exact Hc.
Qed.

Lemma expected_stats_path data : In stats_path (expected_files data).
Proof. unfold expected_files. apply in_or_app. right. left. reflexivity. Qed.

Lemma expected_output data : In OUTPUT_FILENAME (expected_files data).
Proof. unfold expected_files. apply in_or_app. right. right. left. reflexivity. Qed.

Lemma export_artifacts_writes data :
  emits (Forall (writes_within (expected_files data))) (export_artifacts E data).
Proof.
  unfold export_artifacts.
  apply all_bind; [repeat all_step no_write_event|intros _].
  apply all_bind.
  - apply all_for_fold_in. intros s c Hc.
    apply all_bind; [|intros _; apply all_ret].
    apply save_unique_values_writes. apply expected_values_path. exact Hc.
  - intros column_stats. unfold open_write.
    repeat all_step ltac:(unfold writes_within; cbn; intros ? Hw;
                          first [ discriminate
                                | injection Hw as <-; apply expected_stats_path ]).
Qed.

Lemma save_populated_writes data :
  emits (Forall (writes_within (expected_files data))) (save_populated E).
Proof.
  unfold save_populated, onto_save.
  repeat all_step ltac:(unfold writes_within; cbn; intros ? Hw;
                        first [ discriminate
                              | injection Hw as <-; apply expected_output ]).
Qed.

Lemma load_data_result st data :
  fst (load_data E st) = Ok data -> loaded_data E = Some data.
Proof. destruct (load_data_decides E st) as [_ H]. apply H. Qed.

Lemma main_writes :
  emits (Forall (writes_within (expected_outputs E))) (main E).
Proof.
  unfold main. apply all_try; [|intros e; repeat all_step no_write_event].
  unfold populate_ontology.
  apply all_bind; [repeat all_step no_write_event|intros _].
  apply all_bind; [repeat all_step no_write_event|intros _].
  apply all_bind; [unfold load_ontology; repeat all_step no_write_event|intros _].
  apply all_bind; [unfold ensure_dir; repeat all_step no_write_event|intros _].
  apply (all_bind_ok _ (fun data => loaded_data E = Some data)).
  { unfold load_data, read_csv. repeat all_step no_write_event. }
  { apply load_data_result. }
  intros data Hdata. unfold expected_outputs. rewrite Hdata.
  apply all_bind; [apply export_artifacts_writes|intros _].
  apply all_bind; [unfold_script; repeat all_step no_write_event|intros tables].
  apply all_bind; [unfold_script; repeat all_step no_write_event|intros manufacturers].
  apply all_bind; [unfold_script; repeat all_step no_write_event|intros model_years].
  apply all_bind; [unfold_script; repeat all_step no_write_event|intros _].
  apply all_bind; [apply save_populated_writes|intros _].
  unfold_script. repeat all_step no_write_event.
Qed.

Lemma main_makedirs :
  emits (Forall (fun ev => forall d, ev = EvMakedirs d -> d = ARTIFACTS_DIR)) (main E).
Proof. unfold_script. repeat all_step ltac:(intros; congruence). Qed.

(** *** The files of a complete run *)

Lemma save_unique_values_opens values f :
  opens [f] (save_unique_values E values f).
Proof.
  unfold save_unique_values, open_write.
  apply (opens_bind (fun _ => True) [f] []); auto.
  - intros st a st'. destruct (open_fault E f); [discriminate|].
    intros [= <- <-]. simpl. rewrite files_written_app. reflexivity.
  - intros _ _. apply opens_quiet. quiet_tac.
Qed.

Lemma export_artifacts_opens data :
  opens (map values_path (df_columns data) ++ [stats_path]) (export_artifacts E data).
Proof.
  unfold export_artifacts.
  apply opens_bind_quiet; [quiet_tac|intros _].
  apply (opens_bind (fun _ => True)); auto.
  - apply opens_for_fold. intros s c.
    change [values_path c] with ([values_path c] ++ []).
    apply (opens_bind (fun _ => True)); auto.
    + apply save_unique_values_opens.
    + intros _ _. apply opens_quiet. apply all_ret.
  - intros column_stats _.
    change [stats_path] with ([stats_path] ++ []).
    apply (opens_bind (fun _ => True)); auto.
    + unfold open_write. intros st a st'.
      destruct (open_fault E stats_path); [discriminate|].
      intros [= <- <-]. simpl. rewrite files_written_app. reflexivity.
    + intros _ _. apply opens_quiet. quiet_tac.
Qed.

Hypothesis save_works : forall o, lib_fault E o (CallSave OUTPUT_FILENAME) = None.

Lemma save_populated_opens : opens [OUTPUT_FILENAME] (save_populated E).
Proof.
  unfold save_populated. apply opens_bind_quiet; [quiet_tac|intros _].
  intros st a st'. unfold try_except, onto_save, bind, get_onto.
  rewrite save_works. simpl. intros [= <- <-]. simpl.
  rewrite !files_written_app. simpl. rewrite app_nil_r. reflexivity.
Qed.

Lemma populate_ontology_opens data :
  loaded_data E = Some data ->
  opens (expected_files data) (populate_ontology E).
Proof.
  intros Hdata. unfold populate_ontology.
  apply opens_bind_quiet; [quiet_tac|intros _].
  apply opens_bind_quiet; [quiet_tac|intros _].
  apply opens_bind_quiet; [unfold load_ontology; quiet_tac|intros _].
  apply opens_bind_quiet; [unfold ensure_dir; quiet_tac|intros _].
  change (expected_files data) with ([] ++ expected_files data).
  apply (opens_bind (fun d => loaded_data E = Some d)).
  { apply opens_quiet. unfold load_data, read_csv. quiet_tac. }
  { apply load_data_result. }
  intros data' Hdata'. rewrite Hdata in Hdata'. injection Hdata' as <-.
  unfold expected_files.
  change [stats_path; OUTPUT_FILENAME] with ([stats_path] ++ [OUTPUT_FILENAME]).
  rewrite app_assoc.
  apply (opens_bind (fun _ => True)); auto; [apply export_artifacts_opens|].
  intros _ _.
  apply opens_bind_quiet; [unfold_script; quiet_tac|intros tables].
  apply opens_bind_quiet; [unfold_script; quiet_tac|intros manufacturers].
  apply opens_bind_quiet; [unfold_script; quiet_tac|intros model_years].
  apply opens_bind_quiet; [unfold_script; quiet_tac|intros _].
  change [OUTPUT_FILENAME] with ([OUTPUT_FILENAME] ++ []).
  apply (opens_bind (fun _ => True)); auto; [apply save_populated_opens|].
  intros _ _. apply opens_quiet. unfold_script. quiet_tac.
Qed.

End Files.

(** ** Exit code *)

(** C1, as stated, fails in its "only if" direction: the ontology and the
    CSV file load, and the run still ends with exit code 1, because an
    exception outside every [try] of [populate_ontology] reaches the handler
    of [main]: here the artifacts directory that cannot be created, and a
    row whose ID is the text "A17". *)
Lemma exit_code_one_with_both_files_loaded :
  (ontology_missing readonly_dir_env = false
   /\ loaded_data readonly_dir_env = Some demo_data
   /\ fst (run readonly_dir_env) = 1
   /\ In (EvLog "CRITICAL ERROR: PermissionError: [Errno 13] Permission denied: 'artifacts'")
         (snd (run readonly_dir_env)))
  /\ (ontology_missing text_id_env = false
      /\ loaded_data text_id_env = Some text_id_data
      /\ fst (run text_id_env) = 1
      /\ In (EvLog "CRITICAL ERROR: ValueError: invalid literal for int() with base 10: 'A17'")
            (snd (run text_id_env))).
Proof.
  split; (split; [reflexivity|]); (split; [reflexivity|]);
    (split; [vm_compute; reflexivity|]); vm_compute; tauto.
Qed.

(** C1, amended: a run ends with exit code 0 or 1, and with 1 exactly when
    the ontology cannot be loaded, or both attempts to load the CSV file
    fail, or an exception is raised outside every [try] of
    [populate_ontology] (creating the artifacts directory, writing the
    unique values and statistics, calling [replace] on a classification value
    that is not a string, deriving the identifier of a manufacturer, a model
    year or a vehicle), which [main] catches.  The failures of the library
    inside the [try] blocks (creating individuals, assigning properties,
    saving, reasoning, counting) never change the exit code. *)
Theorem exit_code_causes (E : environment) :
  (fst (run E) = 0 \/ fst (run E) = 1)
  /\ (fst (run E) = 1 <->
      ontology_missing E = true \/ loaded_data E = None \/ unguarded_fault E = true)
  /\ (forall fault r individuals instances,
        fst (run (with_library E fault r individuals instances)) = fst (run E)).
Proof.
  split; [|split].
  - rewrite run_exit_code. destruct (predicted_status E); auto.
  - rewrite run_exit_code. unfold predicted_status, unguarded_fault.
    destruct (ontology_missing E); [split; auto|].
    destruct (dir_fault E); [split; auto|].
    destruct (loaded_data E) as [data|]; [|split; auto].
    destruct (data_fault E data); simpl.
    + split; auto.
    + split; [discriminate|]. intros [H|[H|H]]; discriminate.
  - intros fault r individuals instances.
    rewrite !run_exit_code. reflexivity.
Qed.

Lemma exit_code_causes_witness : fst (run text_id_env) = 1.
Proof.
  apply (proj1 (proj2 (exit_code_causes text_id_env))).
  right. right. vm_compute. reflexivity.
Defined.

(** ** Inputs and outputs *)

Lemma values_path_spelled (c : string) :
  values_path c = ("artifacts/" ++ values_filename c ++ "_values.txt")%string.
Proof.
  unfold values_path, path_join, values_filename.
  set (s := replace_char " " "_" (lower c)).
  assert (H : String.prefix "/" (replace_char "/" "_" s ++ "_values.txt")%string = false).
  { destruct s as [|a r]; [reflexivity|].
    cbn [replace_char]. destruct (Ascii.eqb_spec a "/") as [->|Hne].
    - reflexivity.
    - assert (Hp : forall (x y : ascii) (u v : string),
                 x <> y -> String.prefix (String x "") (String y u ++ v)%string = false).
      { intros x y u v Hxy. simpl. destruct (ascii_dec x y); [congruence|reflexivity]. }
      apply Hp. congruence. }
  rewrite H. reflexivity.
Qed.

(** C7: a run is a function of the outside world alone (there is no
    argument vector); it reads only [vehicle_ontology.rdf] and [data.csv];
    every file it creates or writes is the values file of a column of the
    table, [artifacts/column_statistics.csv] or
    [vehicle_ontology_populated.rdf], the only directory it creates is
    [artifacts]; and a run that ends with exit code 0 and whose save succeeds
    has created exactly one values file per column, in the order of the
    columns, then the statistics file, then the output file. *)
Theorem fixed_inputs_and_outputs (E : environment) :
  Forall reads_fixed_name (snd (run E))
  /\ Forall (writes_within (expected_outputs E)) (snd (run E))
  /\ Forall (fun ev => forall d, ev = EvMakedirs d -> d = ARTIFACTS_DIR) (snd (run E))
  /\ (forall data, loaded_data E = Some data ->
        expected_outputs E
        = map (fun c => ("artifacts/" ++ values_filename c ++ "_values.txt")%string)
            (df_columns data)
          ++ ["artifacts/column_statistics.csv"%string;
              "vehicle_ontology_populated.rdf"%string])
  /\ (fst (run E) = 0 ->
      (forall o, lib_fault E o (CallSave OUTPUT_FILENAME) = None) ->
      files_written (snd (run E)) = expected_outputs E).
Proof.
  unfold run. cbn [fst snd].
  split; [|split; [|split; [|split]]].
  - destruct (main_reads E initial_state) as (evs & Htr & H).
    rewrite Htr. exact H.
  - destruct (main_writes E initial_state) as (evs & Htr & H).
    rewrite Htr. exact H.
  - destruct (main_makedirs E initial_state) as (evs & Htr & H).
    rewrite Htr. exact H.
  - intros data Hdata. unfold expected_outputs, expected_files. rewrite Hdata.
    f_equal. apply map_ext. intros c. apply values_path_spelled.
  - intros Hexit Hsave.
    pose proof (run_exit_code E) as Hcode. unfold run in Hcode. cbn [fst] in Hcode.
    rewrite Hexit in Hcode.
    destruct (populate_ontology_decides E initial_state) as [Hs _].
    unfold main, try_except in *.
    destruct (populate_ontology E initial_state) as [[[]|e|c] st1] eqn:Hrun;
      simpl in Hs, Hexit |- *.
    + unfold expected_outputs. unfold predicted_status in Hs.
      destruct (ontology_missing E); [discriminate|].
      destruct (dir_fault E); [discriminate|].
      destruct (loaded_data E) as [data|] eqn:Hdata; [|discriminate].
      rewrite (populate_ontology_opens E Hsave data Hdata _ _ _ Hrun). reflexivity.
    + discriminate.
    + rewrite <- Hs in Hcode. subst c. discriminate.
Qed.

Lemma fixed_inputs_and_outputs_witness :
  files_written (snd (run demo_env))
  = [ "artifacts/id_values.txt"; "artifacts/make_values.txt";
      "artifacts/model_values.txt"; "artifacts/year_values.txt";
      "artifacts/fuel_type_values.txt"; "artifacts/t_charger_values.txt";
      "artifacts/you_save_spend_values.txt"; "artifacts/column_statistics.csv";
      "vehicle_ontology_populated.rdf" ]%string.
Proof.
  rewrite (proj2 (proj2 (proj2 (proj2 (fixed_inputs_and_outputs demo_env))))).
  - reflexivity.
  - vm_compute. reflexivity.
  - intros o. reflexivity.
Defined.

(** * Further properties *)

(** ** Identifiers, continued *)

Lemma re_sub_id_chars (s : string) :
  string_forall is_id_char s = true -> re_sub_non_alnum s = s.
Proof.
  unfold re_sub_non_alnum. induction s as [|c r IH]; simpl; [reflexivity|].
  intros H. apply andb_true_iff in H as [Hc Hr]. rewrite IH by exact Hr.
  f_equal. unfold is_id_char in Hc.
  destruct (is_alnum_class c); [reflexivity|].
  simpl in Hc. apply Ascii.eqb_eq in Hc. congruence.
Qed.

Lemma create_valid_id_of_valid (repr : number -> string) (s : string) :
  valid_identifier s -> create_valid_id repr (VStr s) = Val s.
Proof.
  intros [Hl Ha]. unfold create_valid_id.
  destruct s as [|c r]; [discriminate|].
  cbn [truthy String.eqb negb py_str]. rewrite re_sub_id_chars by exact Ha.
  simpl in Ha. apply andb_true_iff in Ha as [Hc _].
  rewrite (isalpha_id_char c Hc). simpl in Hl. rewrite Hl. reflexivity.
Qed.

Lemma create_valid_id_result_valid (repr : number -> string) (text : pyval) (s : string) :
  create_valid_id repr text = Val s -> valid_identifier s.
Proof.
  unfold create_valid_id, valid_identifier.
  destruct (truthy text); simpl.
  - assert (Hall : string_forall is_id_char (re_sub_non_alnum (py_str repr text)) = true).
    { apply string_forall_map. apply sub_char_is_id_char. }
    destruct (re_sub_non_alnum (py_str repr text)) as [|c r]; [discriminate|].
    simpl in Hall. pose proof Hall as Hall'.
    apply andb_true_iff in Hall as [Hc Hr].
    rewrite (isalpha_id_char c Hc).
    destruct (is_ascii_letter c) eqn:Hl; simpl; intros [= <-].
    + split; [exact Hl|exact Hall'].
    + split; [reflexivity|]. simpl. rewrite Hc, Hr. reflexivity.
  - intros [= <-]. split; reflexivity.
Qed.

(** X1: [create_valid_id] is idempotent: an identifier it returned is
    returned unchanged when it is passed through the function again. *)
Theorem create_valid_id_idempotent (repr : number -> string) (text : pyval) (s : string)
    (Hs : create_valid_id repr text = Val s) :
  create_valid_id repr (VStr s) = Val s.
Proof.
  apply create_valid_id_of_valid. eapply create_valid_id_result_valid. exact Hs.
Qed.

Lemma create_valid_id_idempotent_witness :
  create_valid_id demo_repr (VStr "V_9_3_Aero") = Val "V_9_3_Aero".
Proof.
  apply (create_valid_id_idempotent demo_repr (VStr "9-3 Aero")). reflexivity.
Defined.

Lemma same_skeleton_sub (s t : string) :
  same_skeleton s t = true -> re_sub_non_alnum s = re_sub_non_alnum t.
Proof.
  unfold re_sub_non_alnum. revert t.
  induction s as [|a r IH]; intros [|b u]; simpl; try discriminate; [reflexivity|].
  intros H. apply andb_true_iff in H as [Hab Hr]. rewrite (IH u Hr). f_equal.
  destruct (is_alnum_class a) eqn:Ha.
  - apply Ascii.eqb_eq in Hab. subst b. rewrite Ha. reflexivity.
  - destruct (is_alnum_class b); [discriminate|reflexivity].
Qed.

(** X2: the identifier depends only on the letters and digits of the text
    and on where the other characters are: two texts that differ only in
    which characters outside [[a-zA-Z0-9]] they use ("Mercedes-Benz",
    "Mercedes Benz") get the same identifier, hence the same individual. *)
Theorem create_valid_id_skeleton (repr : number -> string) (s t : string)
    (Hst : same_skeleton s t = true) :
  create_valid_id repr (VStr s) = create_valid_id repr (VStr t).
Proof.
  unfold create_valid_id. cbn [py_str].
  rewrite (same_skeleton_sub s t Hst).
  destruct s, t; try discriminate; reflexivity.
Qed.

Lemma create_valid_id_skeleton_witness :
  create_valid_id demo_repr (VStr "Mercedes-Benz")
  = create_valid_id demo_repr (VStr "Mercedes Benz").
Proof. apply create_valid_id_skeleton. reflexivity. Defined.

(** ** Numbers of the vehicles *)

Lemma pretty_N_char_digit (d : N) : is_ascii_digit (pretty_N_char d) = true.
Proof. unfold pretty_N_char. repeat case_match; reflexivity. Qed.

Lemma pretty_N_char_value (d : N) :
  (d < 10)%N -> Z.of_N (code (pretty_N_char d)) - 48 = Z.of_N d.
Proof.
  intros Hd.
  assert (d = 0 \/ d = 1 \/ d = 2 \/ d = 3 \/ d = 4 \/ d = 5 \/ d = 6 \/ d = 7
          \/ d = 8 \/ d = 9)%N as H by lia.
  repeat (destruct H as [->|H]; [reflexivity|]). subst. reflexivity.
Qed.

Lemma pretty_N_go_forall (p : ascii -> bool) (x : N) (s : string) :
  (forall d, p (pretty_N_char d) = true) ->
  string_forall p s = true -> string_forall p (pretty_N_go x s) = true.
Proof.
  intros Hp. revert s. induction (N.lt_wf_0 x) as [x _ IH]. intros s Hs.
  destruct (decide (x = 0)%N) as [->|Hx]; [rewrite pretty_N_go_0; exact Hs|].
  rewrite pretty_N_go_step by lia. apply IH.
  - apply N.div_lt; lia.
  - simpl. rewrite Hp, Hs. reflexivity.
Qed.

Lemma pretty_N_forall (p : ascii -> bool) (n : N) :
  (forall d, p (pretty_N_char d) = true) -> string_forall p (pretty n) = true.
Proof.
  intros Hp. unfold pretty, pretty_N. destruct (decide (n = 0)%N).
  - pose proof (Hp 0%N) as H0. cbn in H0. cbn. rewrite H0. reflexivity.
  - apply pretty_N_go_forall; [exact Hp|reflexivity].
Qed.

Lemma pretty_N_go_nonempty (x : N) (s : string) :
  (0 < x)%N -> pretty_N_go x s <> "".
Proof.
  revert s. induction (N.lt_wf_0 x) as [x _ IH]. intros s Hx.
  rewrite pretty_N_go_step by exact Hx.
  destruct (decide (x `div` 10 = 0)%N) as [->|Hd].
  - rewrite pretty_N_go_0. discriminate.
  - apply IH; [apply N.div_lt; lia|apply N.neq_0_lt_0; exact Hd].
Qed.

Lemma pretty_N_nonempty (n : N) : pretty n <> "".
Proof.
  unfold pretty, pretty_N. destruct (decide (n = 0)%N); [discriminate|].
  apply pretty_N_go_nonempty. lia.
Qed.

Lemma parse_digits_pretty_go (x : N) (s : string) :
  exists m, forall acc,
    parse_digits (pretty_N_go x s) acc = parse_digits s (acc * m + Z.of_N x).
Proof.
  revert s. induction (N.lt_wf_0 x) as [x _ IH]. intros s.
  destruct (decide (x = 0)%N) as [->|Hx].
  - exists 1. intros acc. rewrite pretty_N_go_0. f_equal. simpl. lia.
  - destruct (IH (x `div` 10)%N ltac:(apply N.div_lt; lia)
                (String (pretty_N_char (x `mod` 10)) s)) as (m & Hm).
    exists (10 * m). intros acc.
    rewrite pretty_N_go_step by lia. rewrite Hm. cbn [parse_digits].
    rewrite pretty_N_char_digit.
    rewrite pretty_N_char_value by (apply N.mod_lt; lia).
    f_equal. rewrite (N.div_mod x 10) at 3 by lia.
    rewrite N2Z.inj_add, N2Z.inj_mul. simpl Z.of_N. lia.
Qed.

Lemma parse_digits_pretty (n : N) : parse_digits (pretty n) 0 = Some (Z.of_N n).
Proof.
  unfold pretty, pretty_N. destruct (decide (n = 0)%N) as [->|Hn]; [reflexivity|].
  destruct (parse_digits_pretty_go n "") as (m & Hm). rewrite Hm. simpl. reflexivity.
Qed.

Lemma parse_digits_zeros (k : nat) (s : string) :
  parse_digits (zeros k ++ s)%string 0 = parse_digits s 0.
Proof. induction k as [|k IH]; simpl; [reflexivity|exact IH]. Qed.

Lemma string_forall_zeros (p : ascii -> bool) (k : nat) :
  p "0"%char = true -> string_forall p (zeros k) = true.
Proof. intros H. induction k; simpl; [reflexivity|]. rewrite H. assumption. Qed.

Lemma zero_pad_forall (p : ascii -> bool) (w : nat) (s : string) :
  p "0"%char = true -> string_forall p s = true ->
  string_forall p (zero_pad w s) = true.
Proof.
  intros H0 Hs. unfold zero_pad.
  rewrite string_forall_app, string_forall_zeros, Hs by exact H0. reflexivity.
Qed.

Lemma zero_pad_nonempty (w : nat) (s : string) : s <> "" -> zero_pad w s <> "".
Proof.
  unfold zero_pad. intros Hs. destruct (zeros (w - String.length s)); simpl; [exact Hs|].
  discriminate.
Qed.

Lemma string_length_append (s t : string) :
  String.length (s ++ t) = (String.length s + String.length t)%nat.
Proof.
  induction s as [|c r IH]; [reflexivity|].
  change (String c r ++ t)%string with (String c (r ++ t))%string.
  cbn [String.length]. rewrite IH. reflexivity.
Qed.

Lemma zeros_length (k : nat) : String.length (zeros k) = k.
Proof. induction k; simpl; congruence. Qed.

Lemma zero_pad_length (w : nat) (s : string) :
  String.length (zero_pad w s) = Nat.max w (String.length s).
Proof. unfold zero_pad. rewrite string_length_append, zeros_length. lia. Qed.

(** Reading a formatted number back. *)
Lemma format_05d_parse (n : Z) : demo_int_of_string (format_05d n) = Some n.
Proof.
  unfold format_05d. destruct (Z.ltb_spec n 0) as [Hn|Hn].
  - assert (Hne : zero_pad 4 (pretty (Z.to_N (- n))) <> "").
    { apply zero_pad_nonempty, pretty_N_nonempty. }
    assert (Hp : parse_digits (zero_pad 4 (pretty (Z.to_N (- n)))) 0 = Some (- n)).
    { unfold zero_pad. rewrite parse_digits_zeros, parse_digits_pretty.
      f_equal. lia. }
    destruct (zero_pad 4 (pretty (Z.to_N (- n)))) as [|c r]; [congruence|].
    change (demo_int_of_string ("-" ++ String c r))
      with (option_map Z.opp (parse_digits (String c r) 0)).
    rewrite Hp. simpl. f_equal. lia.
  - assert (Hd : string_forall is_ascii_digit (zero_pad 5 (pretty (Z.to_N n))) = true).
    { apply zero_pad_forall; [reflexivity|].
      apply pretty_N_forall, pretty_N_char_digit. }
    assert (Hp : parse_digits (zero_pad 5 (pretty (Z.to_N n))) 0 = Some n).
    { unfold zero_pad. rewrite parse_digits_zeros, parse_digits_pretty.
      f_equal. lia. }
    assert (Hne : zero_pad 5 (pretty (Z.to_N n)) <> "").
    { apply zero_pad_nonempty, pretty_N_nonempty. }
    destruct (zero_pad 5 (pretty (Z.to_N n))) as [|c r].
    + congruence.
    + simpl in Hd. apply andb_true_iff in Hd as [Hc _].
      assert (Hm : c <> "-"%char) by (intros ->; discriminate).
      unfold demo_int_of_string.
      destruct c as [[] [] [] [] [] [] [] []]; try exact Hp; congruence.
Qed.


Lemma format_05d_chars (n : Z) :
  string_forall is_digit_or_minus (format_05d n) = true
  /\ (0 <= n -> string_forall is_ascii_digit (format_05d n) = true).
Proof.
  assert (Hd : forall w m, string_forall is_ascii_digit (zero_pad w (pretty (m : N))) = true).
  { intros w m. apply zero_pad_forall; [reflexivity|].
    apply pretty_N_forall, pretty_N_char_digit. }
  assert (Hw : forall s, string_forall is_ascii_digit s = true ->
                         string_forall is_digit_or_minus s = true).
  { induction s as [|c r IH]; simpl; [reflexivity|]. intros H.
    apply andb_true_iff in H as [Hc Hr]. unfold is_digit_or_minus at 1.
    rewrite Hc, IH by exact Hr. reflexivity. }
  unfold format_05d. destruct (Z.ltb_spec n 0) as [Hn|Hn].
  - split; [|lia]. simpl. apply Hw, Hd.
  - split; [apply Hw, Hd|intros _; apply Hd].
Qed.

Lemma format_05d_length (n : Z) :
  (5 <= String.length (format_05d n))%nat
  /\ (0 <= n < 100000 -> String.length (format_05d n) = 5%nat).
Proof.
  unfold format_05d. destruct (Z.ltb_spec n 0) as [Hn|Hn].
  - split; [|lia]. rewrite string_length_append, zero_pad_length.
    cbn [String.length]. lia.
  - rewrite zero_pad_length. split; [lia|]. intros [_ Hlt].
    assert (Hlen : (String.length (pretty (Z.to_N n)) <= 5)%nat); [|lia].
    assert (Hx : (Z.to_N n < 100000)%N) by lia. revert Hx.
    generalize (Z.to_N n). clear. intros x Hx.
    unfold pretty, pretty_N. destruct (decide (x = 0)%N); [simpl; lia|].
    assert (Hgo : forall k y s, (y < 10 ^ N.of_nat k)%N ->
              (String.length (pretty_N_go y s) <= k + String.length s)%nat).
    { induction k as [|k IH]; intros y s Hy.
      - assert (y = 0%N) by (simpl in Hy; lia). subst. rewrite pretty_N_go_0. lia.
      - destruct (decide (y = 0)%N) as [->|Hy0]; [rewrite pretty_N_go_0; lia|].
        rewrite pretty_N_go_step by lia.
        etransitivity; [apply IH|simpl; lia].
        apply N.Div0.div_lt_upper_bound.
        replace (N.of_nat (S k)) with (N.succ (N.of_nat k)) in Hy by lia.
        rewrite N.pow_succ_r' in Hy. exact Hy. }
    specialize (Hgo 5%nat x "" Hx). simpl in Hgo. lia.
Qed.

(** ** Identifiers of the vehicles *)

Lemma append_cons (c : ascii) (r t : string) :
  (String c r ++ t)%string = String c (r ++ t)%string.
Proof. reflexivity. Qed.

Lemma append_nil_l (t : string) : ("" ++ t)%string = t.
Proof. reflexivity. Qed.

Lemma append_nil_r (s : string) : (s ++ "")%string = s.
Proof. induction s as [|c r IH]; [reflexivity|]. rewrite append_cons, IH. reflexivity. Qed.

Lemma append_assoc (s t u : string) : ((s ++ t) ++ u)%string = (s ++ t ++ u)%string.
Proof.
  induction s as [|c r IH]; [reflexivity|]. rewrite !append_cons, IH. reflexivity.
Qed.

Lemma append_nonempty_r (s t : string) : t <> "" -> (s ++ t)%string <> "".
Proof. destruct s; [rewrite append_nil_l; auto|rewrite append_cons; discriminate]. Qed.

Lemma replace_char_nonempty (old : ascii) (new s : string) :
  new <> "" -> s <> "" -> replace_char old new s <> "".
Proof.
  intros Hnew Hs. destruct s as [|c r]; [congruence|]. cbn [replace_char].
  destruct (Ascii.eqb c old); [|discriminate].
  destruct new as [|a n]; [congruence|]. rewrite append_cons. discriminate.
Qed.

Lemma create_valid_id_nonempty (repr : number -> string) (s : string) :
  s <> "" -> exists p, create_valid_id repr (VStr s) = Val p /\ valid_identifier p.
Proof.
  intros Hs.
  assert (H : exists p, create_valid_id repr (VStr s) = Val p).
  { unfold create_valid_id. destruct s as [|c r]; [congruence|].
    cbn [truthy String.eqb negb py_str re_sub_non_alnum string_map].
    destruct (negb (isalpha _)); eauto. }
  destruct H as (p & Hp). exists p. split; [exact Hp|].
  eapply create_valid_id_result_valid. exact Hp.
Qed.

Lemma after_last_underscore_from_free (t acc : string) :
  string_forall not_underscore t = true ->
  after_last_underscore_from t acc = (acc ++ t)%string.
Proof.
  revert acc. induction t as [|c r IH]; intros acc H; simpl.
  - rewrite append_nil_r. reflexivity.
  - simpl in H. apply andb_true_iff in H as [Hc Hr].
    unfold not_underscore in Hc. destruct (Ascii.eqb c "_"); [discriminate|].
    rewrite IH by exact Hr. rewrite append_assoc. reflexivity.
Qed.

Lemma after_last_underscore_from_append (s t acc : string) :
  string_forall not_underscore t = true ->
  after_last_underscore_from (s ++ "_" ++ t) acc = t.
Proof.
  intros Ht. revert acc. induction s as [|c r IH]; intros acc.
  - rewrite append_nil_l, append_cons, append_nil_l. simpl.
    rewrite after_last_underscore_from_free by exact Ht. reflexivity.
  - rewrite append_cons. simpl. destruct (Ascii.eqb c "_"); apply IH.
Qed.

Lemma after_last_underscore_append (s t : string) :
  string_forall not_underscore t = true ->
  after_last_underscore (s ++ "_" ++ t) = t.
Proof. apply after_last_underscore_from_append. Qed.

Lemma string_forall_impl (p q : ascii -> bool) (s : string) :
  (forall c, p c = true -> q c = true) ->
  string_forall p s = true -> string_forall q s = true.
Proof.
  intros Hpq. induction s as [|c r IH]; simpl; [reflexivity|].
  intros H. apply andb_true_iff in H as [Hc Hr].
  rewrite (Hpq c Hc), IH by exact Hr. reflexivity.
Qed.

Lemma digit_or_minus_not_underscore (c : ascii) :
  is_digit_or_minus c = true -> not_underscore c = true.
Proof. destruct c as [[] [] [] [] [] [] [] []]; vm_compute; congruence. Qed.

Lemma digit_is_id_char (c : ascii) : is_ascii_digit c = true -> is_id_char c = true.
Proof.
  unfold is_id_char, is_alnum_class. intros ->.
  rewrite !orb_true_r. reflexivity.
Qed.

Lemma starts_with_letter_append (s t : string) :
  starts_with_letter s = true -> starts_with_letter (s ++ t) = true.
Proof. destruct s; [discriminate|]. rewrite append_cons. auto. Qed.

Section VehicleId.

Variable E : environment.

Lemma index_int (i : Z) : py_int E (VNum (Fin (inject_Z i))) = Val i.
Proof. simpl. f_equal. apply Z.quot_1_r. Qed.

Lemma vehicle_id_cases (i : Z) (row : Series) :
  match py_int E (row_id i row), year_text E row with
  | Val n, Val year =>
      exists prefix,
        vehicle_id E i row = Val (prefix ++ "_" ++ format_05d n)%string
        /\ valid_identifier prefix
  | Val _, Exc e => vehicle_id E i row = Exc e
  | Exc e, _ => vehicle_id E i row = Exc e
  end.
Proof.
  unfold vehicle_id. fold (row_id i row). fold (year_text E row).
  destruct (py_int E (row_id i row)) as [n|e]; [|reflexivity].
  cbn [ebind]. destruct (year_text E row) as [year|e]; [|reflexivity].
  cbn [ebind].
  match goal with
  | |- context [create_valid_id _ (VStr ?s)] =>
      destruct (create_valid_id_nonempty (repr_number E) s) as (p & Hp & Hv)
  end.
  - apply replace_char_nonempty; [discriminate|].
    apply append_nonempty_r. discriminate.
  - rewrite Hp. cbn [ebind]. exists p. auto.
Qed.

End VehicleId.

Lemma string_forall_ext_false (p : ascii -> bool) (s t : string) :
  string_forall p t = false -> string_forall p (s ++ t) = false.
Proof. intros H. rewrite string_forall_app, H. apply andb_false_r. Qed.

Lemma format_05d_negative (n : Z) :
  n < 0 -> string_forall is_id_char (format_05d n) = false.
Proof.
  intros Hn. unfold format_05d.
  destruct (Z.ltb_spec n 0) as [_|]; [|lia]. reflexivity.
Qed.

Lemma valid_identifier_number (prefix : string) (n : Z) :
  valid_identifier prefix ->
  (0 <= n -> valid_identifier (prefix ++ "_" ++ format_05d n))
  /\ (n < 0 -> ~ valid_identifier (prefix ++ "_" ++ format_05d n)).
Proof.
  intros [Hl Hc]. split.
  - intros Hn. split; [apply starts_with_letter_append; exact Hl|].
    rewrite !string_forall_app, Hc. simpl.
    apply (string_forall_impl is_ascii_digit); [apply digit_is_id_char|].
    apply format_05d_chars. exact Hn.
  - intros Hn [_ Hall].
    rewrite string_forall_app, (string_forall_ext_false _ "_") in Hall.
    + rewrite andb_false_r in Hall. discriminate.
    + apply format_05d_negative. exact Hn.
Qed.

(** X3: the identifier of a row cannot be computed, and the run ends with
    a critical error, exactly when [int(row_id)] raises, or "Year" is
    non-null and [int(row["Year"])] raises; the cells "Make" and "Model"
    never make it fail.  Without a non-null "ID" the index label of the row
    is used, whose [int] is the label itself. *)
Theorem vehicle_id_raises_iff (E : environment) (i : Z) (row : Series) :
  (is_exc (vehicle_id E i row) = true <->
     is_exc (py_int E (row_id i row)) = true
     \/ (present row "Year" = true
         /\ is_exc (py_int E (s_value row "Year")) = true))
  /\ (present row "ID" = false -> py_int E (row_id i row) = Val i).
Proof.
  split.
  - pose proof (vehicle_id_cases E i row) as H. unfold year_text in H.
    destruct (py_int E (row_id i row)) as [n|e].
    + destruct (present row "Year").
      * destruct (py_int E (s_value row "Year")) as [y|e]; cbn [ebind] in H.
        -- destruct H as (p & -> & _). simpl. split; [discriminate|].
           intros [|[_ ?]]; discriminate.
        -- rewrite H. simpl. tauto.
      * destruct H as (p & -> & _). simpl. split; [discriminate|].
        intros [|[? _]]; discriminate.
    + rewrite H. simpl. tauto.
  - intros Hid. unfold row_id. rewrite Hid. apply index_int.
Qed.

Lemma vehicle_id_raises_iff_witness :
  py_int demo_env (row_id 5 {| s_columns := [ "Make" ]; s_value := demo_row_audi |})
  = Val 5.
Proof.
  apply (proj2 (vehicle_id_raises_iff demo_env 5
                  {| s_columns := [ "Make" ]; s_value := demo_row_audi |})).
  reflexivity.
Defined.

Lemma vehicle_id_parts (E : environment) (i : Z) (row : Series) (v : string) :
  vehicle_id E i row = Val v ->
  exists prefix n,
    py_int E (row_id i row) = Val n
    /\ v = (prefix ++ "_" ++ format_05d n)%string
    /\ valid_identifier prefix
    /\ after_last_underscore v = format_05d n.
Proof.
  intros Hv. pose proof (vehicle_id_cases E i row) as H.
  destruct (py_int E (row_id i row)) as [n|e]; [|congruence].
  destruct (year_text E row) as [year|e]; [|congruence].
  destruct H as (p & Hp & Hvalid). rewrite Hp in Hv. injection Hv as <-.
  exists p, n. split; [reflexivity|]. split; [reflexivity|].
  split; [exact Hvalid|].
  apply after_last_underscore_append.
  apply (string_forall_impl is_digit_or_minus);
    [apply digit_or_minus_not_underscore|apply format_05d_chars].
Qed.

(** X4: an identifier that is computed is [<prefix>_<number>]: the prefix
    is a valid identifier, the number is [int(row_id)] written with at least
    five digits (exactly five from 0 to 99999), it is the part after the last
    underscore and reads back as that integer.  The whole identifier is a
    valid identifier when the number is not negative, and is not one when it
    is negative: the minus sign is copied into it. *)
Theorem vehicle_id_shape (E : environment) (i : Z) (row : Series) (v : string)
    (Hv : vehicle_id E i row = Val v) :
  exists prefix n,
    py_int E (row_id i row) = Val n
    /\ v = (prefix ++ "_" ++ format_05d n)%string
    /\ valid_identifier prefix
    /\ after_last_underscore v = format_05d n
    /\ demo_int_of_string (after_last_underscore v) = Some n
    /\ (5 <= String.length (format_05d n))%nat
    /\ (0 <= n < 100000 -> String.length (format_05d n) = 5%nat)
    /\ (0 <= n -> valid_identifier v)
    /\ (n < 0 -> ~ valid_identifier v).
Proof.
  destruct (vehicle_id_parts E i row v Hv) as (p & n & Hn & -> & Hvalid & Hlast).
  exists p, n. split; [exact Hn|]. split; [reflexivity|].
  split; [exact Hvalid|]. split; [exact Hlast|].
  split; [rewrite Hlast; apply format_05d_parse|].
  split; [apply format_05d_length|]. split; [apply format_05d_length|].
  apply valid_identifier_number. exact Hvalid.
Qed.

Lemma vehicle_id_shape_witness :
  exists prefix n,
    py_int demo_env (row_id 0 (demo_series demo_row_audi)) = Val n
    /\ "Audi_A4_2020_00001"%string = (prefix ++ "_" ++ format_05d n)%string
    /\ valid_identifier prefix
    /\ after_last_underscore "Audi_A4_2020_00001" = format_05d n
    /\ demo_int_of_string (after_last_underscore "Audi_A4_2020_00001") = Some n
    /\ (5 <= String.length (format_05d n))%nat
    /\ (0 <= n < 100000 -> String.length (format_05d n) = 5%nat)
    /\ (0 <= n -> valid_identifier "Audi_A4_2020_00001")
    /\ (n < 0 -> ~ valid_identifier "Audi_A4_2020_00001").
Proof.
  apply (vehicle_id_shape demo_env 0 (demo_series demo_row_audi)).
  vm_compute. reflexivity.
Defined.



(** ** The electricity flag *)

Lemma electric_fuel_types_substring (s : string) :
  existsb (String.eqb s) ELECTRIC_FUEL_TYPES = true ->
  is_substring "Electricity" s = true.
Proof.
  intros H. apply existsb_exists in H as (x & Hin & Heq).
  apply String.eqb_eq in Heq. subst x.
  unfold ELECTRIC_FUEL_TYPES in Hin. simpl in Hin.
  repeat (destruct Hin as [<-|Hin]; [vm_compute; reflexivity|]). contradiction.
Qed.

(** X6: the flag [hasElectricity] of a row is true exactly when "Electric
    motor" is non-null, or "Fuel Type" is non-null and its text contains
    "Electricity": the membership test in ELECTRIC_FUEL_TYPES adds nothing,
    every entry of that list contains the word. *)
Theorem has_electricity_substring (E : environment) (row : Series) :
  has_electricity E row
  = present row "Electric motor"
    || (present row "Fuel Type"
        && is_substring "Electricity" (str E (s_value row "Fuel Type")))
  /\ Forall (fun s => is_substring "Electricity" s = true) ELECTRIC_FUEL_TYPES.
Proof.
  split.
  - unfold has_electricity, fuel_has_electricity.
    destruct (present row "Electric motor"); [reflexivity|].
    destruct (present row "Fuel Type"); [|reflexivity]. cbn [andb orb].
    destruct (existsb _ ELECTRIC_FUEL_TYPES) eqn:Hl; [|reflexivity].
    rewrite (electric_fuel_types_substring _ Hl). reflexivity.
  - unfold ELECTRIC_FUEL_TYPES. repeat constructor.
Qed.

(** ** Invariants *)

Lemma hoare_weaken {A : Type} (P P' Q Q' : state -> Prop) (m : M A) :
  hoare P' Q' m -> (forall st, P st -> P' st) -> (forall st, Q' st -> Q st) ->
  hoare P Q m.
Proof. intros Hm HP HQ st Hst. apply HQ, Hm, HP, Hst. Qed.

Lemma hoare_seq {A B : Type} (P R Q : state -> Prop) (m : M A) (k : A -> M B) :
  hoare P R m -> (forall st, R st -> Q st) -> (forall a, hoare R Q (k a)) ->
  hoare P Q (bind m k).
Proof.
  intros Hm HRQ Hk st Hst. unfold bind. specialize (Hm st Hst).
  destruct (m st) as [[a|e|c] st1]; simpl in *; [apply Hk; exact Hm|auto|auto].
Qed.

Lemma hoare_try {A : Type} (P R Q : state -> Prop) (body : M A) (handler : exn -> M A) :
  hoare P R body -> (forall st, R st -> Q st) -> (forall e, hoare R Q (handler e)) ->
  hoare P Q (try_except body handler).
Proof.
  intros Hm HRQ Hk st Hst. unfold try_except. specialize (Hm st Hst).
  destruct (body st) as [[a|e|c] st1]; simpl in *; [auto|apply Hk; exact Hm|auto].
Qed.

Section Keeps.

Variable J : state -> Prop.

Lemma keeps_ret {A : Type} (a : A) : keeps J (ret a).
Proof. intros st H. exact H. Qed.

Lemma keeps_raise {A : Type} (e : exn) : keeps J (@raise A e).
Proof. intros st H. exact H. Qed.

Lemma keeps_sys_exit {A : Type} (c : Z) : keeps J (@sys_exit A c).
Proof. intros st H. exact H. Qed.

Lemma keeps_get_onto : keeps J get_onto.
Proof. intros st H. exact H. Qed.

Lemma keeps_lift {A : Type} (x : except A) : keeps J (lift x).
Proof. destruct x; [apply keeps_ret|apply keeps_raise]. Qed.

Lemma keeps_emit (ev : event) :
  (forall st, J st -> J {| onto := onto st; trace := trace st ++ [ev] |}) ->
  keeps J (emit ev).
Proof. intros H st Hst. apply H. exact Hst. Qed.

Lemma keeps_log (msg : string) :
  (forall st, J st -> J {| onto := onto st; trace := trace st ++ [EvLog msg] |}) ->
  keeps J (log msg).
Proof. apply keeps_emit. Qed.

Lemma keeps_put_onto (o : ontology) :
  (forall st, J st -> J {| onto := o; trace := trace st |}) ->
  keeps J (put_onto o).
Proof. intros H st Hst. apply H. exact Hst. Qed.

Lemma keeps_bind {A B : Type} (m : M A) (k : A -> M B) :
  keeps J m -> (forall a, keeps J (k a)) -> keeps J (bind m k).
Proof. intros Hm Hk. apply (hoare_seq J J J); auto. Qed.


Lemma keeps_try {A : Type} (body : M A) (handler : exn -> M A) :
  keeps J body -> (forall e, keeps J (handler e)) -> keeps J (try_except body handler).
Proof. intros Hm Hk. apply (hoare_try J J J); auto. Qed.

Lemma keeps_when (b : bool) (m : M unit) : keeps J m -> keeps J (when b m).
Proof. destruct b; [auto|intros _; apply keeps_ret]. Qed.

Lemma keeps_for_each {A : Type} (l : list A) (body : A -> M unit) :
  (forall x, In x l -> keeps J (body x)) -> keeps J (for_each l body).
Proof.
  induction l as [|x r IH]; intros Hb; simpl.
  - apply keeps_ret.
  - apply keeps_bind; [apply Hb; left; reflexivity|].
    intros _. apply IH. intros y Hy. apply Hb. right. exact Hy.
Qed.

Lemma keeps_for_fold {A S : Type} (l : list A) (body : S -> A -> M S) (s : S) :
  (forall s x, In x l -> keeps J (body s x)) -> keeps J (for_fold l body s).
Proof.
  revert s. induction l as [|x r IH]; intros s Hb; simpl.
  - apply keeps_ret.
  - apply keeps_bind; [apply Hb; left; reflexivity|].
    intros s'. apply IH. intros s0 y Hy. apply Hb. right. exact Hy.
Qed.

Variable E : environment.

(** The entity that [onto.<cls>(name)] leaves under [name]. *)
Lemma keeps_new_individual (cls name : string) :
  (forall st c, J st -> onto st !! cls = Some c -> ent_is_class c = true ->
     J {| onto := <[name := match onto st !! name with
                            | Some ent => add_type cls ent
                            | None => fresh_individual cls
                            end]> (onto st);
          trace := trace st ++ [EvNew cls name] |}) ->
  keeps J (new_individual E cls name).
Proof.
  intros H st Hst. unfold new_individual, bind, get_onto. simpl.
  destruct (onto st !! cls) as [c|] eqn:Hc; [|exact Hst].
  destruct (ent_is_class c) eqn:Hic; [|exact Hst]. simpl.
  destruct (lib_fault E (onto st) (CallNew cls name)); [exact Hst|].
  simpl. apply (H st c); assumption.
Qed.

Lemma keeps_bind_new {B : Type} (cls name : string) (k : string -> M B) :
  keeps J (new_individual E cls name) -> keeps J (k name) ->
  keeps J (bind (new_individual E cls name) k).
Proof.
  intros Hm Hk st Hst. specialize (Hm st Hst). unfold bind.
  destruct (new_individual E cls name st) as [[a|e|c] st1] eqn:Hrun;
    simpl in *; [|exact Hm|exact Hm].
  assert (a = name) as ->; [|apply Hk; exact Hm].
  revert Hrun. unfold new_individual, bind, get_onto. simpl.
  destruct (onto st !! cls) as [c|]; [|discriminate].
  destruct (negb (ent_is_class c)); [discriminate|].
  destruct (lib_fault E (onto st) (CallNew cls name)); [discriminate|].
  simpl. unfold ret. congruence.
Qed.

Lemma keeps_set_attr (name prop : string) (v : attr) :
  (forall st, J st ->
     J {| onto := alter (set_ent_attr prop v) name (onto st);
          trace := trace st ++ [EvSetAttr name prop v] |}) ->
  keeps J (set_attr E name prop v).
Proof.
  intros H st Hst. unfold set_attr, bind, get_onto. simpl.
  destruct (lib_fault E (onto st) (CallSetAttr name prop v)); [exact Hst|].
  simpl. apply H. exact Hst.
Qed.

End Keeps.

(** Steps through a computation; the obligations on the single changes of
    the state are left to [tac]. *)
Ltac keeps_step tac :=
  lazymatch goal with
  | |- hoare ?J ?J ?m => change (keeps J m)
  | |- keeps _ (for_each _ _) => apply keeps_for_each; intros ? ?
  | |- keeps _ (for_fold _ _ _) => apply keeps_for_fold; intros ? ? ?
  | |- keeps _ (new_individual _ _ _) => apply keeps_new_individual; tac
  | |- keeps _ (set_attr _ _ _ _) => apply keeps_set_attr; tac
  | |- keeps _ (bind (new_individual _ _ _) _) => apply keeps_bind_new
  | |- keeps _ (bind _ _) => apply keeps_bind; [|intros ?]
  | |- keeps _ (try_except _ _) => apply keeps_try; [|intros ?]
  | |- keeps _ (when _ _) => apply keeps_when
  | |- keeps _ (log _) => apply keeps_log; tac
  | |- keeps _ (emit _) => apply keeps_emit; tac
  | |- keeps _ (put_onto _) => apply keeps_put_onto; tac
  | |- keeps _ (ret _) => apply keeps_ret
  | |- keeps _ (raise _) => apply keeps_raise
  | |- keeps _ (sys_exit _) => apply keeps_sys_exit
  | |- keeps _ get_onto => apply keeps_get_onto
  | |- keeps _ (lift _) => apply keeps_lift
  | |- keeps _ (match ?x with _ => _ end) => destruct x
  end.

Ltac unfold_vehicle :=
  unfold populate_vehicle, set_data_properties, set_electricity, set_body_style,
    set_boost_system, set_market_segment, set_string, set_numeric, set_mapped,
    safe_numeric_conversion.


(** ** What the main loop changes *)

Section Isolation.

Variable E : environment.
Variable x : string.
Variable e : option entity.





End Isolation.



(** ** Rows that succeed *)

Lemma vehicle_id_year (E : environment) (i : Z) (row : Series) (vid : string) :
  vehicle_id E i row = Val vid -> is_exc (year_text E row) = false.
Proof.
  intros Hvid. pose proof (vehicle_id_cases E i row) as H.
  destruct (py_int E (row_id i row)); [|congruence].
  destruct (year_text E row); [reflexivity|congruence].
Qed.

Lemma is_class_insert (o : ontology) (c cls name : string) :
  is_class o c ->
  is_class (<[name := match o !! name with
                      | Some ent => add_type cls ent
                      | None => fresh_individual cls
                      end]> o) c.
Proof.
  intros (ent & Hent & Hc). unfold is_class.
  destruct (decide (name = c)) as [->|Hne].
  - rewrite lookup_insert_eq, Hent. eexists. split; [reflexivity|exact Hc].
  - rewrite lookup_insert_ne by exact Hne. eauto.
Qed.

Lemma is_class_alter (o : ontology) (c name prop : string) (v : attr) :
  is_class o c -> is_class (alter (set_ent_attr prop v) name o) c.
Proof.
  intros (ent & Hent & Hc). unfold is_class.
  destruct (decide (name = c)) as [->|Hne].
  - rewrite lookup_alter_eq, Hent. eexists. split; [reflexivity|exact Hc].
  - rewrite lookup_alter_ne by exact Hne. eauto.
Qed.

Ltac class_kept :=
  simpl; intros; first [apply is_class_insert|apply is_class_alter|idtac]; assumption.

Section Success.

Variable E : environment.
Hypothesis Hlib : no_library_fault E.

Lemma set_attr_decides n p v : decides (set_attr E n p v) SOk (fun _ => True).
Proof.
  intros st. unfold set_attr, bind, get_onto. simpl. rewrite Hlib. simpl.
  split; [reflexivity|auto].
Qed.

Ltac ok_step := first [apply set_attr_decides | safe_step].

Lemma set_string_decides vid prop row c :
  decides (set_string E vid prop row c) SOk (fun _ => True).
Proof. unfold set_string. repeat ok_step. Qed.

Lemma set_numeric_decides vid prop row c :
  decides (set_numeric E vid prop row c) SOk (fun _ => True).
Proof. unfold set_numeric, safe_numeric_conversion. repeat ok_step. Qed.

Lemma set_mapped_decides vid prop row c table :
  decides (set_mapped E vid prop row c table) SOk (fun _ => True).
Proof. unfold set_mapped. repeat ok_step. Qed.

Lemma set_data_properties_decides vid row :
  is_exc (year_text E row) = false ->
  decides (set_data_properties E vid row) SOk (fun _ => True).
Proof.
  intros Hyear. unfold set_data_properties.
  apply (decides_bind_ok _ _ (fun _ => True)); [apply set_string_decides|intros _ _].
  apply (decides_bind_ok _ _ (fun _ => True)); [apply set_string_decides|intros _ _].
  apply (decides_bind_ok _ _ (fun _ => True)).
  { unfold year_text in Hyear. destruct (present row "Year"); [|repeat ok_step].
    cbn [when]. destruct (py_int E (s_value row "Year")) as [y|e]; [|discriminate].
    repeat ok_step. }
  intros _ _.
  repeat (apply (decides_bind_ok _ _ (fun _ => True));
          [first [apply set_string_decides|apply set_numeric_decides]|intros _ _]).
  apply set_string_decides.
Qed.

Lemma set_market_segment_decides vid row :
  decides (set_market_segment E vid row)
    (if savings_is_text row then SRaise else SOk) (fun _ => True).
Proof.
  unfold set_market_segment, savings_is_text, present.
  destruct (has_label "You Save/Spend" (s_columns row)); cbn [andb];
    [|repeat ok_step].
  destruct (s_value row "You Save/Spend") as [| |s|x]; cbn [isna negb is_str].
  - repeat ok_step.
  - repeat ok_step.
  - apply (decides_bind_stop _ _ (fun _ => True)); [|discriminate].
    apply decides_raise.
  - unfold get_market_segment. cbn [isna].
    destruct (number_ltb x _); [repeat ok_step|].
    destruct (number_ltb x _); repeat ok_step.
Qed.

Lemma new_individual_runs cls name st :
  is_class (onto st) cls ->
  exists st', new_individual E cls name st = (Ok name, st').
Proof.
  intros (c & Hc & Hic). unfold new_individual, bind, get_onto. simpl.
  rewrite Hc, Hic, Hlib. simpl. eexists. reflexivity.
Qed.

(** Without failures of the library a row fails exactly when the segment
    of its savings cannot be computed. *)
Lemma populate_vehicle_status maps vid row st :
  is_class (onto st) "Vehicle" -> is_exc (year_text E row) = false ->
  status_of (fst (populate_vehicle E maps vid row st))
  = if savings_is_text row then SRaise else SOk.
Proof.
  intros Hcls Hyear. destruct (new_individual_runs "Vehicle" vid st Hcls) as (s1 & Hnew).
  unfold populate_vehicle. rewrite (bind_run _ _ _ _ _ Hnew).
  match goal with
  | |- status_of (fst (?m s1)) = ?s =>
      assert (Hm : decides m s (fun _ => True)); [|apply Hm]
  end.
  apply (decides_bind_ok _ _ (fun _ => True));
    [apply set_data_properties_decides; exact Hyear|intros _ _].
  apply (decides_bind_ok _ _ (fun _ => True));
    [unfold set_electricity; repeat ok_step|intros _ _].
  do 5 (apply (decides_bind_ok _ _ (fun _ => True));
        [apply set_mapped_decides|intros _ _]).
  apply (decides_bind_ok _ _ (fun _ => True));
    [unfold set_body_style; repeat ok_step|intros _ _].
  apply (decides_bind_ok _ _ (fun _ => True));
    [unfold set_boost_system; repeat ok_step|intros _ _].
  apply set_market_segment_decides.
Qed.

Lemma process_row_class maps n counts item :
  keeps (fun st => is_class (onto st) "Vehicle") (process_row E maps n counts item).
Proof. unfold process_row. unfold_vehicle. repeat keeps_step class_kept. Qed.

Lemma process_row_clean maps n p s i row st :
  is_class (onto st) "Vehicle" -> id_computable E (i, row) ->
  exists st',
    process_row E maps n (p, s) (i, row) st
    = (Ok (S p, if savings_is_text row then s else S s), st')
    /\ is_class (onto st') "Vehicle".
Proof.
  intros Hcls (vid & Hvid). cbn [fst snd] in Hvid.
  pose proof (process_row_class maps n (p, s) (i, row) st Hcls) as Hkeep.
  pose proof (process_row_catches E maps n p s i row st vid Hvid) as H.
  assert (Hcls' : is_class (onto (after_batch_log p n st)) "Vehicle").
  { unfold after_batch_log. destruct (_ =? _)%nat; exact Hcls. }
  pose proof (populate_vehicle_status maps vid row _ Hcls' (vehicle_id_year E i row vid Hvid))
    as Hs.
  destruct (populate_vehicle E maps vid row (after_batch_log p n st))
    as [[[]|e|c] st1]; [| |contradiction]; simpl in Hs;
    destruct (savings_is_text row); try discriminate;
    rewrite H in Hkeep |- *; eexists; split; try reflexivity; exact Hkeep.
Qed.

Lemma main_loop_clean maps n rows : forall p s st,
  is_class (onto st) "Vehicle" -> Forall (id_computable E) rows ->
  exists st',
    for_fold rows (process_row E maps n) (p, s) st
    = (Ok ((p + length rows)%nat,
           (s + length (List.filter (fun item => negb (savings_is_text (snd item))) rows))%nat),
       st').
Proof.
  induction rows as [|[i row] r IH]; intros p s st Hcls Hids; simpl.
  - exists st. rewrite !Nat.add_0_r. reflexivity.
  - apply Forall_cons_iff in Hids as [Hid Hids].
    destruct (process_row_clean maps n p s i row st Hcls Hid) as (st1 & Hrun & Hcls1).
    rewrite (bind_run _ _ _ _ _ Hrun).
    destruct (IH (S p) (if savings_is_text row then s else S s) st1 Hcls1 Hids)
      as (st' & Hloop).
    exists st'. rewrite Hloop.
    replace (S p + length r)%nat with (p + S (length r))%nat by lia.
    do 3 f_equal. destruct (savings_is_text row); simpl; lia.
Qed.

End Success.

(** X8: when the library raises nothing and the identifiers of the rows can
    be computed, the only rows the main loop counts as failed are those whose
    "You Save/Spend" holds a text: [successful_count] grows by the number of
    the other rows, and [processed_count] by the number of all rows.  A text
    in any other numeric column is only warned about. *)
Theorem rows_fail_only_on_text_savings (E : environment) (maps : mappings) (n : nat)
    (rows : list (Z * Series)) (p s : nat) (st : state)
    (Hlib : no_library_fault E)
    (Hcls : is_class (onto st) "Vehicle")
    (Hids : Forall (id_computable E) rows) :
  exists st',
    for_fold rows (process_row E maps n) (p, s) st
    = (Ok ((p + length rows)%nat,
           (s + length (List.filter (fun item => negb (savings_is_text (snd item))) rows))%nat),
       st').
Proof. apply main_loop_clean; assumption. Qed.

Lemma rows_fail_only_on_text_savings_witness :
  exists st',
    for_fold [ (0, demo_series demo_row_audi); (1, demo_series demo_row_kia) ]
      (process_row demo_env demo_maps 2) (0%nat, 0%nat) demo_state
    = (Ok (2%nat, 1%nat), st').
Proof.
  apply (rows_fail_only_on_text_savings demo_env demo_maps 2
           [ (0, demo_series demo_row_audi); (1, demo_series demo_row_kia) ]
           0 0 demo_state).
  - intros o call. reflexivity.
  - exists demo_class. split; [vm_compute; reflexivity|reflexivity].
  - repeat constructor; eexists; vm_compute; reflexivity.
Defined.

(** ** Classification of a vehicle *)

Section Classification.

Variable E : environment.

Lemma set_body_style_ok maps vid row st st' :
  set_body_style E maps vid row st = (Ok tt, st') ->
  onto_getattr (onto st) vid = Some vid ->
  if present row "Vehicle Size Class"
  then get_attr (onto st') vid "hasBodyStyle"
       = Some (AObj (row_body_style (onto st) (body_style_map maps) row))
  else st' = st.
Proof.
  unfold set_body_style, row_body_style, when.
  destruct (present row "Vehicle Size Class"); [|intros [= <-]; reflexivity].
  match goal with
  | |- context [match ?d with Some _ => _ | None => _ end] => destruct d as [target|]
  end.
  - intros H Hv. eapply set_attr_ok; eauto.
  - intros H Hv. apply bind_ok in H as (o & s1 & [= <- <-] & H).
    eapply set_attr_ok; eauto.
Qed.

Lemma populate_vehicle_classes maps vid row st st' :
  populate_vehicle E maps vid row st = (Ok tt, st') ->
  match mapped_value (drive_type_map maps) row "Drive" with
  | Some target => get_attr (onto st') vid "hasDriveType" = Some (AObj target)
  | None => get_attr (onto st') vid "hasDriveType" = get_attr (onto st) vid "hasDriveType"
  end
  /\ match mapped_value (size_class_map maps) row "Vehicle Size Class" with
     | Some target => get_attr (onto st') vid "hasSizeClass" = Some (AObj target)
     | None => get_attr (onto st') vid "hasSizeClass" = get_attr (onto st) vid "hasSizeClass"
     end
  /\ if present row "Vehicle Size Class"
     then get_attr (onto st') vid "hasBodyStyle"
          = Some (AObj (row_body_style (onto st') (body_style_map maps) row))
     else get_attr (onto st') vid "hasBodyStyle" = get_attr (onto st) vid "hasBodyStyle".
Proof.
  intros H.
  destruct (populate_vehicle_steps E maps vid row st st' H)
    as (s1 & s2 & s3 & s4 & s5 & s6 & s7 & s8 & s9 & s10 &
        H0 & H1 & H2 & H3 & H4 & H5 & H6 & H7 & H8 & H9 & H10).
  destruct (new_individual_ok E _ _ _ _ _ H0) as (_ & Hv1 & _ & Ha1).
  pose proof (changes_data_properties E vid row) as C1.
  pose proof (changes_electricity E vid row) as C2.
  pose proof (changes_mapped E vid "hasFuelType" row "Fuel Type" (fuel_type_map maps)) as C3.
  pose proof (changes_mapped E vid "hasDriveType" row "Drive" (drive_type_map maps)) as C4.
  pose proof (changes_mapped E vid "hasSizeClass" row "Vehicle Size Class"
                (size_class_map maps)) as C5.
  pose proof (changes_mapped E vid "hasManufacturer" row "Make" (manufacturer_map maps)) as C6.
  pose proof (changes_mapped E vid "hasModelYear" row "Year" (model_year_map maps)) as C7.
  pose proof (changes_body_style E maps vid row) as C8.
  pose proof (changes_boost_system E vid row) as C9.
  pose proof (changes_market_segment E vid row) as C10.
  assert (Hv4 : onto_getattr (onto s4) vid = Some vid).
  { rewrite (dom_step _ _ _ _ _ _ _ C3 H3), (dom_step _ _ _ _ _ _ _ C2 H2),
      (dom_step _ _ _ _ _ _ _ C1 H1). exact Hv1. }
  assert (Hv5 : onto_getattr (onto s5) vid = Some vid).
  { rewrite (dom_step _ _ _ _ _ _ _ C4 H4). exact Hv4. }
  assert (Hv8 : onto_getattr (onto s8) vid = Some vid).
  { rewrite (dom_step _ _ _ _ _ _ _ C7 H7), (dom_step _ _ _ _ _ _ _ C6 H6),
      (dom_step _ _ _ _ _ _ _ C5 H5). exact Hv5. }
  assert (F04 : forall p, has_label p data_props = false ->
                  has_label p ["electricMotorSpec"; "hasElectricity"] = false ->
                  has_label p ["hasFuelType"] = false ->
                  get_attr (onto s4) vid p = get_attr (onto st) vid p).
  { intros p P1 P2 P3.
    rewrite (frame_step _ _ _ _ _ _ _ C3 H3 P3), (frame_step _ _ _ _ _ _ _ C2 H2 P2),
      (frame_step _ _ _ _ _ _ _ C1 H1 P1). apply Ha1. }
  assert (F8 : forall p, has_label p ["hasBodyStyle"] = false ->
                 has_label p ["hasBoostSystem"] = false ->
                 has_label p ["hasMarketSegment"] = false ->
                 get_attr (onto st') vid p = get_attr (onto s8) vid p).
  { intros p P1 P2 P3.
    rewrite (frame_step _ _ _ _ _ _ _ C10 H10 P3), (frame_step _ _ _ _ _ _ _ C9 H9 P2),
      (frame_step _ _ _ _ _ _ _ C8 H8 P1). reflexivity. }
  assert (F68 : forall p, has_label p ["hasManufacturer"] = false ->
                  has_label p ["hasModelYear"] = false ->
                  get_attr (onto s8) vid p = get_attr (onto s6) vid p).
  { intros p P1 P2.
    rewrite (frame_step _ _ _ _ _ _ _ C7 H7 P2), (frame_step _ _ _ _ _ _ _ C6 H6 P1).
    reflexivity. }
  split; [|split].
  - rewrite F8, F68 by reflexivity.
    rewrite (frame_step _ _ _ _ _ _ "hasDriveType" C5 H5) by reflexivity.
    pose proof (set_mapped_ok E _ _ _ _ _ _ _ H4 Hv4) as Hset.
    destruct (mapped_value (drive_type_map maps) row "Drive") as [target|].
    + exact Hset.
    + subst s5. apply F04; reflexivity.
  - rewrite F8, F68 by reflexivity.
    pose proof (set_mapped_ok E _ _ _ _ _ _ _ H5 Hv5) as Hset.
    destruct (mapped_value (size_class_map maps) row "Vehicle Size Class") as [target|].
    + exact Hset.
    + subst s6.
      rewrite (frame_step _ _ _ _ _ _ "hasSizeClass" C4 H4) by reflexivity.
      apply F04; reflexivity.
  - pose proof (set_body_style_ok maps vid row s8 s9 H8 Hv8) as Hset.
    rewrite (frame_step _ _ _ _ _ _ "hasBodyStyle" C10 H10),
      (frame_step _ _ _ _ _ _ "hasBodyStyle" C9 H9) by reflexivity.
    destruct (present row "Vehicle Size Class").
    + rewrite Hset. unfold row_body_style.
      rewrite (dom_step _ _ _ _ _ _ "Sedan" C10 H10), (dom_step _ _ _ _ _ _ "Sedan" C9 H9),
        (dom_step _ _ _ _ _ _ "Sedan" C8 H8). reflexivity.
    + subst s9. rewrite F68 by reflexivity.
      rewrite (frame_step _ _ _ _ _ _ "hasBodyStyle" C5 H5),
        (frame_step _ _ _ _ _ _ "hasBodyStyle" C4 H4) by reflexivity.
      apply F04; reflexivity.
Qed.

End Classification.

(** X9: a row processed without exception has [hasDriveType] and
    [hasSizeClass] equal to what the dictionaries have for its "Drive" and
    "Vehicle Size Class", and unchanged when the cell is null or not a key;
    [hasBodyStyle] is assigned whenever "Vehicle Size Class" is non-null: the
    body style of the dictionary, or the entity Sedan when the size class is
    not a key. *)
Theorem drive_size_body_assigned (E : environment) (maps : mappings) (vid : string)
    (row : Series) (st st' : state)
    (Hrun : populate_vehicle E maps vid row st = (Ok tt, st')) :
  match mapped_value (drive_type_map maps) row "Drive" with
  | Some target => get_attr (onto st') vid "hasDriveType" = Some (AObj target)
  | None => get_attr (onto st') vid "hasDriveType" = get_attr (onto st) vid "hasDriveType"
  end
  /\ match mapped_value (size_class_map maps) row "Vehicle Size Class" with
     | Some target => get_attr (onto st') vid "hasSizeClass" = Some (AObj target)
     | None => get_attr (onto st') vid "hasSizeClass" = get_attr (onto st) vid "hasSizeClass"
     end
  /\ if present row "Vehicle Size Class"
     then get_attr (onto st') vid "hasBodyStyle"
          = Some (AObj (row_body_style (onto st') (body_style_map maps) row))
     else get_attr (onto st') vid "hasBodyStyle" = get_attr (onto st) vid "hasBodyStyle".
Proof. exact (populate_vehicle_classes E maps vid row st st' Hrun). Qed.

Lemma drive_size_body_assigned_witness :
  get_attr (onto (snd (populate_vehicle demo_env demo_maps "Audi_A4_2020_00001"
                         (demo_series demo_row_audi) demo_state)))
    "Audi_A4_2020_00001" "hasBodyStyle"
  = get_attr (onto demo_state) "Audi_A4_2020_00001" "hasBodyStyle".
Proof.
  apply (drive_size_body_assigned demo_env demo_maps "Audi_A4_2020_00001"
           (demo_series demo_row_audi) demo_state
           (snd (populate_vehicle demo_env demo_maps "Audi_A4_2020_00001"
                   (demo_series demo_row_audi) demo_state))).
  vm_compute. reflexivity.
Defined.

(** ** Data properties of a vehicle *)




Section DataProperties.

Variable E : environment.








End DataProperties.



(** ** Values of the data set in the classification dictionaries *)

Lemma dict_get_set_same {V : Type} (d : pydict V) (k : pyval) (x : V) :
  isna k = false -> dict_get (dict_set d k x) k = Some x.
Proof.
  intros Hk. induction d as [|[k0 v0] r IH]; simpl.
  - rewrite py_eqb_refl by exact Hk. reflexivity.
  - destruct (py_eqb k0 k) eqn:H0; simpl; rewrite H0; [reflexivity|exact IH].
Qed.

Lemma dict_set_keeps_keys {V : Type} (d : pydict V) (k k' : pyval) (x : V) :
  dict_get d k <> None -> dict_get (dict_set d k' x) k <> None.
Proof.
  induction d as [|[k0 v0] r IH]; simpl; [congruence|].
  destruct (py_eqb k0 k') eqn:H0; simpl.
  - destruct (py_eqb k0 k); [discriminate|auto].
  - destruct (py_eqb k0 k); [discriminate|auto].
Qed.

Section BodyStyles.

Variable E : environment.

Lemma add_default_body_styles_covers values table st table' st' :
  (forall v, In v values -> isna v = false) ->
  add_default_body_styles E values table st = (Ok table', st') ->
  forall v, In v values -> truthy v = true -> dict_mem table' v = true.
Proof.
  intros Hna Hrun. unfold add_default_body_styles in Hrun.
  pose (J := fun (done : list pyval) (t : pydict ref) (_ : state) =>
               forall v, In v done -> truthy v = true -> dict_get t v <> None).
  assert (HJ : J values table' st').
  { refine (for_fold_ind J _ values _ table st table' st' _ Hrun).
    - intros done x todo t s t' s' Hl HJ Hbody v Hv Hvt.
      assert (Hx : isna x = false).
      { apply Hna. rewrite Hl. apply in_or_app. right. left. reflexivity. }
      rewrite Hx in Hbody. cbn [negb] in Hbody. rewrite andb_true_r in Hbody.
      unfold dict_mem in Hbody.
      apply in_app_or in Hv as [Hv|[<-|[]]].
      + specialize (HJ v Hv Hvt).
        destruct (truthy x); [|injection Hbody as <- <-; exact HJ].
        cbn [andb] in Hbody.
        destruct (dict_get t x); cbn [negb] in Hbody;
          [injection Hbody as <- <-; exact HJ|].
        apply bind_ok in Hbody as (o & s1 & _ & Hbody).
        apply bind_ok in Hbody as ([] & s2 & _ & [= <- <-]).
        apply dict_set_keeps_keys. exact HJ.
      + rewrite Hvt in Hbody. cbn [andb] in Hbody.
        destruct (dict_get t x) eqn:Hg; cbn [negb] in Hbody.
        * injection Hbody as <- <-. congruence.
        * apply bind_ok in Hbody as (o & s1 & _ & Hbody).
          apply bind_ok in Hbody as ([] & s2 & _ & [= <- <-]).
          rewrite dict_get_set_same by exact Hx. discriminate.
    - intros v []. }
  intros v Hv Hvt. unfold dict_mem.
  specialize (HJ v Hv Hvt).
  destruct (dict_get table' v); [reflexivity|congruence].
Qed.

Lemma setup_mappings_body data st tables st' :
  setup_mappings E data st = (Ok tables, st') ->
  has_label "Vehicle Size Class" (df_columns data) = true ->
  forall v, In v (column_values data "Vehicle Size Class") -> truthy v = true ->
    dict_mem (snd tables) v = true.
Proof.
  unfold setup_mappings. intros H Hcol v Hv Hvt.
  apply bind_ok in H as ([] & s0 & _ & H).
  apply bind_ok in H as (o & s1 & _ & H).
  apply bind_ok in H as (fuel & s2 & _ & H).
  apply bind_ok in H as (size & s3 & _ & H).
  apply bind_ok in H as (drive & s4 & _ & H).
  apply bind_ok in H as (body & s5 & Hbody & [= <- <-]).
  cbn [snd]. rewrite Hcol in Hbody.
  eapply add_default_body_styles_covers; [|exact Hbody|exact Hv|exact Hvt].
  intros w Hw. eapply column_values_notna. exact Hw.
Qed.

End BodyStyles.

(** X11: after the dictionaries are set up, every distinct non-null value
    of "Vehicle Size Class" that is truthy is a key of the body-style
    dictionary (values that BODY_STYLE_MAP does not list are given the entry
    for Sedan), so that for such a value the default branch of the main loop
    is never taken. *)
Theorem body_style_map_covers_data (E : environment) (data : DataFrame)
    (st : state) (tables : pydict ref * pydict ref * pydict ref * pydict ref)
    (st' : state) (v : pyval)
    (Hrun : setup_mappings E data st = (Ok tables, st'))
    (Hcol : has_label "Vehicle Size Class" (df_columns data) = true)
    (Hv : In v (column_values data "Vehicle Size Class"))
    (Htruthy : truthy v = true) :
  dict_mem (snd tables) v = true.
Proof. exact (setup_mappings_body E data st tables st' Hrun Hcol v Hv Htruthy). Qed.

Lemma body_style_map_covers_data_witness :
  dict_mem
    (snd (result_or ([], [], [], [])
            (fst (setup_mappings demo_env size_class_data demo_state))))
    (VStr "Special Purpose Vehicle") = true.
Proof.
  apply (body_style_map_covers_data demo_env size_class_data demo_state _
           (snd (setup_mappings demo_env size_class_data demo_state))).
  - vm_compute. reflexivity.
  - reflexivity.
  - vm_compute. tauto.
  - reflexivity.
Defined.

(** ** New classification values *)

Section NewValues.

Variable E : environment.

Ltac type_kept :=
  simpl; intros; first [apply has_type_insert; assumption|assumption|idtac].

Lemma has_type_alter (o : ontology) (name prop n c : string) (v : attr) :
  has_type o n c -> has_type (alter (set_ent_attr prop v) name o) n c.
Proof.
  intros (ent & Hent & Hc). unfold has_type. rewrite lookup_alter.
  destruct (decide (name = n)) as [->|]; [|eauto].
  rewrite Hent. eexists. split; [reflexivity|exact Hc].
Qed.

Lemma add_new_values_types cls noun id_of values table n c :
  keeps (fun st => has_type (onto st) n c)
    (add_new_values E cls noun id_of values table).
Proof. unfold add_new_values. repeat keeps_step type_kept. Qed.

Lemma add_default_body_styles_types values table n c :
  keeps (fun st => has_type (onto st) n c) (add_default_body_styles E values table).
Proof. unfold add_default_body_styles. repeat keeps_step type_kept. Qed.

Ltac event_kept := simpl; intros; apply in_or_app; left; assumption.

Lemma add_new_values_trace cls noun id_of values table ev :
  keeps (fun st => In ev (trace st)) (add_new_values E cls noun id_of values table).
Proof.
  unfold add_new_values. repeat keeps_step event_kept.
Qed.

Lemma add_default_body_styles_trace values table ev :
  keeps (fun st => In ev (trace st)) (add_default_body_styles E values table).
Proof. unfold add_default_body_styles. repeat keeps_step event_kept. Qed.

Variable cls noun : string.
Variable id_of : string -> string.

Lemma add_new_values_spec values table st table' st' :
  distinct_values values ->
  (forall v, In v values -> isna v = false) ->
  add_new_values E cls noun id_of values table st = (Ok table', st') ->
  forall v, In v values -> truthy v = true ->
    value_added cls noun id_of table table' st' v.
Proof.
  intros Hdist Hna Hrun. unfold add_new_values in Hrun.
  pose (J := fun (done : list pyval) (t : pydict ref) (s : state) =>
               (forall k x, dict_get table k = Some x -> dict_get t k = Some x)
               /\ (forall k, dict_get t k <> None ->
                     dict_get table k <> None
                     \/ exists d, In d done /\ py_eqb d k = true)
               /\ (forall v, In v done -> truthy v = true ->
                     value_added cls noun id_of table t s v)).
  assert (HJ : J values table' st').
  { refine (for_fold_ind J _ values _ table st table' st' _ Hrun).
    - intros done x todo t s t' s' Hl (Hkeep & Hkeys & Hdone) Hbody.
      assert (Hxna : isna x = false).
      { apply Hna. rewrite Hl. apply in_or_app. right. left. reflexivity. }
      assert (Hsame : t' = t -> (forall n c, has_type (onto s) n c -> has_type (onto s') n c) ->
                      (forall ev, In ev (trace s) -> In ev (trace s')) ->
                      (truthy x = true -> value_added cls noun id_of table t' s' x) ->
                      J (done ++ [x]) t' s').
      { intros -> Hty Htr Hx. split; [exact Hkeep|]. split.
        - intros k Hk. destruct (Hkeys k Hk) as [H|(d & Hd & Hdk)]; [left; exact H|].
          right. exists d. split; [apply in_or_app; left; exact Hd|exact Hdk].
        - intros v Hv Hvt. apply in_app_or in Hv as [Hv|[<-|[]]]; [|apply Hx; exact Hvt].
          specialize (Hdone v Hv Hvt). unfold value_added in *; unfold ref in *.
          destruct (dict_get table v); [exact Hdone|].
          destruct Hdone as (sv & -> & [[Hg Ht]|(e & He)]); exists sv;
            (split; [reflexivity|]); [left; auto|right; exists e; auto]. }
      rewrite Hxna in Hbody. cbn [negb] in Hbody. rewrite andb_true_r in Hbody.
      destruct (truthy x) eqn:Htx; cbn [andb] in Hbody;
        [|injection Hbody as <- <-; apply Hsame; auto; discriminate].
      unfold dict_mem in Hbody. unfold ref in *.
      destruct (dict_get t x) as [y|] eqn:Hx; cbv [negb] in Hbody.
      + unfold ret in Hbody. injection Hbody as <- <-. apply Hsame; auto.
        intros _. unfold value_added; unfold ref in *.
        destruct (Hkeys x) as [H|(d & Hd & Hdx)]; [congruence| |].
        * destruct (dict_get table x) as [target|] eqn:Ht; [|congruence].
          apply Hkeep. exact Ht.
        * rewrite Hl in Hdist.
          rewrite (distinct_split done todo x Hdist d Hd) in Hdx. discriminate.
      + assert (Htx0 : dict_get table x = None).
        { destruct (dict_get table x) as [target|] eqn:Ht; [|reflexivity].
          rewrite (Hkeep x target Ht) in Hx. discriminate. }
        apply bind_ok in Hbody as (sx & s0 & Hstr & Hbody).
        destruct x as [| |sx'|nx]; try discriminate.
        injection Hstr as <- <-.
        unfold try_except in Hbody.
        match type of Hbody with
        | match ?body s with _ => _ end = _ => destruct (body s) as [[a|e|c] s1] eqn:Hb
        end.
        * injection Hbody as <- <-.
          apply bind_ok in Hb as (new & s2 & Hnew & Hb).
          apply bind_ok in Hb as ([] & s3 & [= <-] & [= <- <-]).
          destruct (new_individual_run E cls (id_of sx') s (Ok new) s2 Hnew)
            as [([= ->] & Htr & Hty & Hmono)|[(e & [=]) _]].
          split; [|split].
          -- intros k y Hk. apply dict_get_set_other; [exact Hx|]. apply Hkeep. exact Hk.
          -- intros k Hk. rewrite dict_set_fresh, dict_get_app in Hk by exact Hx.
             destruct (dict_get t k) eqn:Hg.
             ++ destruct (Hkeys k) as [H|(d & Hd & Hdk)]; [congruence|left; exact H|].
                right. exists d. split; [apply in_or_app; left; exact Hd|exact Hdk].
             ++ cbn [dict_get] in Hk.
                destruct (py_eqb (VStr sx') k) eqn:Hxk; [|congruence].
                right. exists (VStr sx').
                split; [apply in_or_app; right; left; reflexivity|exact Hxk].
          -- intros v Hv Hvt. apply in_app_or in Hv as [Hv|[<-|[]]].
             ++ specialize (Hdone v Hv Hvt). unfold value_added in *; unfold ref in *.
                destruct (dict_get table v) as [target|] eqn:Ht.
                ** apply dict_get_set_other; assumption.
                ** destruct Hdone as (sv & -> & [[Hg Hty']|(e & He)]); exists sv;
                     (split; [reflexivity|]).
                   --- left. split; [apply dict_get_set_other; assumption|].
                       simpl. apply Hmono. exact Hty'.
                   --- right. exists e. simpl. apply in_or_app. left.
                       rewrite Htr. apply in_or_app. left. exact He.
             ++ unfold value_added; unfold ref in *. rewrite Htx0. exists sx'. split; [reflexivity|].
                left. split; [apply dict_get_set_same; reflexivity|exact Hty].
        * apply bind_ok in Hbody as ([] & s2 & [= <-] & [= <- <-]).
          assert (Hs1 : s1 = s).
          { unfold bind at 1 in Hb.
            destruct (new_individual E cls (id_of sx') s) as [r s2] eqn:Hnew.
            destruct (new_individual_run E cls (id_of sx') s r s2 Hnew)
              as [(-> & _)|[(e' & ->) ->]]; [discriminate|congruence]. }
          subst s1. apply Hsame; auto.
          -- intros ev Hev. simpl. apply in_or_app. left. exact Hev.
          -- intros _. unfold value_added; unfold ref in *. rewrite Htx0. exists sx'.
             split; [reflexivity|]. right. exists e. simpl.
             apply in_or_app. right. left. reflexivity.
        * discriminate.
    - split; [auto|]. split; [intros k Hk; left; exact Hk|intros v []]. }
  destruct HJ as (_ & _ & H). exact H.
Qed.

End NewValues.

Section SetupMappings.

Variable E : environment.

(** Nothing is removed between two states: the entities keep their
    types and the trace its events. *)
Lemma value_added_later cls noun id_of before after s s' v :
  (forall n c, has_type (onto s) n c -> has_type (onto s') n c) ->
  (forall ev, In ev (trace s) -> In ev (trace s')) ->
  value_added cls noun id_of before after s v ->
  value_added cls noun id_of before after s' v.
Proof.
  intros Hty Htr. unfold value_added. destruct (dict_get before v); [auto|].
  intros (sv & -> & [[Hg Ht]|(e & He)]); exists sv; (split; [reflexivity|]);
    [left; auto|right; exists e; auto].
Qed.

Lemma optional_loop_later (b : bool) cls noun id_of values table st r st' :
  (if b then add_new_values E cls noun id_of values table else ret table) st = (r, st') ->
  (forall n c, has_type (onto st) n c -> has_type (onto st') n c)
  /\ (forall ev, In ev (trace st) -> In ev (trace st')).
Proof.
  intros Hrun. destruct b; [|injection Hrun as <- <-; auto].
  split.
  - intros n c H.
    pose proof (add_new_values_types E cls noun id_of values table n c st H) as Hk.
    rewrite Hrun in Hk. exact Hk.
  - intros ev H.
    pose proof (add_new_values_trace E cls noun id_of values table ev st H) as Hk.
    rewrite Hrun in Hk. exact Hk.
Qed.

Lemma optional_body_later (b : bool) values table st r st' :
  (if b then add_default_body_styles E values table else ret table) st = (r, st') ->
  (forall n c, has_type (onto st) n c -> has_type (onto st') n c)
  /\ (forall ev, In ev (trace st) -> In ev (trace st')).
Proof.
  intros Hrun. destruct b; [|injection Hrun as <- <-; auto].
  split.
  - intros n c H.
    pose proof (add_default_body_styles_types E values table n c st H) as Hk.
    rewrite Hrun in Hk. exact Hk.
  - intros ev H.
    pose proof (add_default_body_styles_trace E values table ev st H) as Hk.
    rewrite Hrun in Hk. exact Hk.
Qed.

Lemma column_values_loop cls noun id_of data c table st table' st' :
  add_new_values E cls noun id_of (column_values data c) table st = (Ok table', st') ->
  forall v, In v (column_values data c) -> truthy v = true ->
    value_added cls noun id_of table table' st' v.
Proof.
  intros Hrun. eapply add_new_values_spec; [| |exact Hrun].
  - apply unique_distinct.
  - intros v Hv. eapply column_values_notna. exact Hv.
Qed.

Lemma setup_mappings_values data st tables st' :
  setup_mappings E data st = (Ok tables, st') ->
  (has_label "Fuel Type" (df_columns data) = true ->
   forall v, In v (column_values data "Fuel Type") -> truthy v = true ->
     value_added "FuelType" "fuel type" fuel_id
       (build_map (onto st) FUEL_TYPE_MAP) (fst (fst (fst tables))) st' v)
  /\ (has_label "Vehicle Size Class" (df_columns data) = true ->
      forall v, In v (column_values data "Vehicle Size Class") -> truthy v = true ->
        value_added "VehicleSizeClass" "size class" class_id
          (build_map (onto st) SIZE_CLASS_MAP) (snd (fst tables)) st' v)
  /\ (has_label "Drive" (df_columns data) = true ->
      forall v, In v (column_values data "Drive") -> truthy v = true ->
        value_added "DriveType" "drive type" drive_id
          (build_map (onto st) DRIVE_TYPE_MAP) (snd (fst (fst tables))) st' v).
Proof.
  unfold setup_mappings. intros H.
  apply bind_ok in H as ([] & s0 & [= <-] & H).
  apply bind_ok in H as (o & s1 & [= <- <-] & H).
  apply bind_ok in H as (fuel & s2 & Hfuel & H).
  apply bind_ok in H as (size & s3 & Hsize & H).
  apply bind_ok in H as (drive & s4 & Hdrive & H).
  apply bind_ok in H as (body & s5 & Hbody & [= <- <-]).
  cbn [fst snd onto] in *.
  destruct (optional_loop_later _ _ _ _ _ _ _ _ _ Hsize) as [T23 R23].
  destruct (optional_loop_later _ _ _ _ _ _ _ _ _ Hdrive) as [T34 R34].
  destruct (optional_body_later _ _ _ _ _ _ Hbody) as [T45 R45].
  split; [|split]; intros Hcol v Hv Hvt; rewrite Hcol in *.
  - apply (value_added_later _ _ _ _ _ s2); [auto|auto|].
    eapply column_values_loop; eauto.
  - apply (value_added_later _ _ _ _ _ s3); [auto|auto|].
    eapply column_values_loop; eauto.
  - apply (value_added_later _ _ _ _ _ s4); [auto|auto|].
    eapply column_values_loop; eauto.
Qed.

End SetupMappings.

(** X12: after the dictionaries are set up, every distinct non-null truthy
    value of "Fuel Type" is accounted for: a key of FUEL_TYPE_MAP keeps the
    entry of the table; any other value has got a FuelType individual of its
    own, named by the value with spaces, hyphens and slashes replaced by
    underscores, and is mapped to it, unless the creation raised, which is
    logged.  Likewise for "Vehicle Size Class" (class VehicleSizeClass,
    commas dropped from the name) and "Drive" (class DriveType). *)
Theorem new_classification_values_added (E : environment) (data : DataFrame)
    (st : state) (tables : pydict ref * pydict ref * pydict ref * pydict ref)
    (st' : state)
    (Hrun : setup_mappings E data st = (Ok tables, st')) :
  (has_label "Fuel Type" (df_columns data) = true ->
   forall v, In v (column_values data "Fuel Type") -> truthy v = true ->
     value_added "FuelType" "fuel type" fuel_id
       (build_map (onto st) FUEL_TYPE_MAP) (fst (fst (fst tables))) st' v)
  /\ (has_label "Vehicle Size Class" (df_columns data) = true ->
      forall v, In v (column_values data "Vehicle Size Class") -> truthy v = true ->
        value_added "VehicleSizeClass" "size class" class_id
          (build_map (onto st) SIZE_CLASS_MAP) (snd (fst tables)) st' v)
  /\ (has_label "Drive" (df_columns data) = true ->
      forall v, In v (column_values data "Drive") -> truthy v = true ->
        value_added "DriveType" "drive type" drive_id
          (build_map (onto st) DRIVE_TYPE_MAP) (snd (fst (fst tables))) st' v).
Proof. exact (setup_mappings_values E data st tables st' Hrun). Qed.

Lemma new_classification_values_added_witness :
  value_added "FuelType" "fuel type" fuel_id
    (build_map (onto demo_state) FUEL_TYPE_MAP)
    (fst (fst (fst (result_or ([], [], [], [])
                      (fst (setup_mappings demo_env hydrogen_data demo_state))))))
    (snd (setup_mappings demo_env hydrogen_data demo_state))
    (VStr "Hydrogen").
Proof.
  apply (new_classification_values_added demo_env hydrogen_data demo_state
           (result_or ([], [], [], [])
              (fst (setup_mappings demo_env hydrogen_data demo_state)))
           (snd (setup_mappings demo_env hydrogen_data demo_state))).
  - vm_compute. reflexivity.
  - reflexivity.
  - vm_compute. tauto.
  - reflexivity.
Defined.

(** ** What the saved file holds *)

Lemma nothing_created_creating st : nothing_created st -> creating st.
Proof.
  unfold nothing_created, creating, created_sound. intros H.
  rewrite List.Forall_forall in H. split.
  - intros cls name Hin. destruct (H _ Hin) as [Hn _]. discriminate.
  - apply List.Forall_forall. intros ev Hin. apply (H _ Hin).
Qed.

Lemma creating_complete st : creating st -> snapshots_complete st.
Proof.
  intros [_ H] file snapshot Hin. rewrite List.Forall_forall in H.
  specialize (H _ Hin). discriminate.
Qed.

Lemma quiet_keeps_nothing {A : Type} (m : M A) :
  emits (Forall quiet) m -> keeps nothing_created m.
Proof.
  intros Hm st Hst. destruct (Hm st) as (evs & Htr & Hevs).
  unfold nothing_created in *. rewrite Htr.
  apply Forall_app. split; assumption.
Qed.

Lemma quiet_keeps_complete {A : Type} (m : M A) :
  emits (Forall quiet) m -> keeps snapshots_complete m.
Proof.
  intros Hm st Hst. destruct (Hm st) as (evs & Htr & Hevs).
  rewrite List.Forall_forall in Hevs.
  intros file snapshot Hs cls name Hn. rewrite Htr in Hs, Hn.
  apply in_app_or in Hs as [Hs|Hs]; [|destruct (Hevs _ Hs); discriminate].
  apply in_app_or in Hn as [Hn|Hn]; [|destruct (Hevs _ Hn); discriminate].
  exact (Hst file snapshot Hs cls name Hn).
Qed.

Ltac quiet_ev := split; reflexivity.

Lemma creating_event (st : state) (ev : event) :
  is_new ev = false -> is_save ev = false -> creating st ->
  creating {| onto := onto st; trace := trace st ++ [ev] |}.
Proof.
  intros Hn Hs [Hc Hf]. split.
  - intros cls name Hin. simpl in *. apply in_app_or in Hin as [Hin|[Heq|[]]].
    + apply Hc. exact Hin.
    + subst ev. discriminate.
  - simpl. apply Forall_app. split; [exact Hf|]. repeat constructor. exact Hs.
Qed.

Lemma creating_new (st : state) (cls name : string) :
  creating st ->
  creating {| onto := <[name := match onto st !! name with
                                | Some ent => add_type cls ent
                                | None => fresh_individual cls
                                end]> (onto st);
              trace := trace st ++ [EvNew cls name] |}.
Proof.
  intros [Hc Hf]. split.
  - intros c n Hin. simpl in *. apply in_app_or in Hin as [Hin|[[= <- <-]|[]]].
    + apply has_type_insert. apply Hc. exact Hin.
    + apply has_type_new.
  - simpl. apply Forall_app. split; [exact Hf|]. repeat constructor.
Qed.

Lemma creating_set_attr (st : state) (name prop : string) (v : attr) :
  creating st ->
  creating {| onto := alter (set_ent_attr prop v) name (onto st);
              trace := trace st ++ [EvSetAttr name prop v] |}.
Proof.
  intros [Hc Hf]. split.
  - intros c n Hin. simpl in *. apply in_app_or in Hin as [Hin|[[=]|[]]].
    apply has_type_alter. apply Hc. exact Hin.
  - simpl. apply Forall_app. split; [exact Hf|]. repeat constructor.
Qed.

Ltac creating_leaf :=
  intros;
  first [ apply creating_new; assumption
        | apply creating_set_attr; assumption
        | apply creating_event; [reflexivity|reflexivity|assumption] ].

Section Snapshots.

Variable E : environment.

Lemma setup_mappings_creating data : keeps creating (setup_mappings E data).
Proof.
  unfold setup_mappings, add_new_values, add_default_body_styles.
  repeat keeps_step creating_leaf.
Qed.

Lemma create_manufacturers_creating data : keeps creating (create_manufacturers E data).
Proof. unfold create_manufacturers. repeat keeps_step creating_leaf. Qed.

Lemma create_model_years_creating data : keeps creating (create_model_years E data).
Proof. unfold create_model_years. repeat keeps_step creating_leaf. Qed.

Lemma populate_vehicles_creating data maps : keeps creating (populate_vehicles E data maps).
Proof.
  unfold populate_vehicles, select_sample, process_row. unfold_vehicle.
  repeat keeps_step creating_leaf.
Qed.

Lemma save_populated_complete : hoare creating snapshots_complete (save_populated E).
Proof.
  unfold save_populated.
  apply (hoare_seq creating creating snapshots_complete);
    [repeat keeps_step creating_leaf|apply creating_complete|intros _].
  assert (Hsave : hoare creating snapshots_complete (onto_save E OUTPUT_FILENAME)).
  { intros st [Hc Hf]. unfold onto_save, bind, get_onto. simpl.
    destruct (lib_fault E (onto st) (CallSave OUTPUT_FILENAME));
      [apply creating_complete; split; assumption|].
    simpl. intros file snapshot Hs cls name Hn.
    rewrite List.Forall_forall in Hf.
    apply in_app_or in Hs as [Hs|[[= <- <-]|[]]]; [specialize (Hf _ Hs); discriminate|].
    apply in_app_or in Hn as [Hn|[[=]|[]]]. apply Hc. exact Hn. }
  apply (hoare_try creating snapshots_complete snapshots_complete); [|auto|].
  - apply (hoare_seq creating snapshots_complete snapshots_complete);
      [exact Hsave|auto|intros _].
    apply quiet_keeps_complete. repeat all_step quiet_ev.
  - intros e. apply quiet_keeps_complete. repeat all_step quiet_ev.
Qed.

Lemma populate_ontology_complete :
  hoare nothing_created snapshots_complete (populate_ontology E).
Proof.
  assert (H02 : forall st, nothing_created st -> snapshots_complete st).
  { intros st H. apply creating_complete, nothing_created_creating, H. }
  unfold populate_ontology.
  do 2 (apply (hoare_seq nothing_created nothing_created snapshots_complete);
        [apply quiet_keeps_nothing; repeat all_step quiet_ev|exact H02|intros _]).
  apply (hoare_seq nothing_created nothing_created snapshots_complete);
    [apply quiet_keeps_nothing; unfold load_ontology; repeat all_step quiet_ev
    |exact H02|intros _].
  apply (hoare_seq nothing_created nothing_created snapshots_complete);
    [apply quiet_keeps_nothing; unfold ensure_dir; repeat all_step quiet_ev
    |exact H02|intros _].
  apply (hoare_seq nothing_created nothing_created snapshots_complete);
    [apply quiet_keeps_nothing; unfold load_data, read_csv; repeat all_step quiet_ev
    |exact H02|intros data].
  apply (hoare_seq nothing_created nothing_created snapshots_complete);
    [apply quiet_keeps_nothing;
     unfold export_artifacts, save_unique_values, open_write; repeat all_step quiet_ev
    |exact H02|intros _].
  apply (hoare_seq nothing_created creating snapshots_complete);
    [eapply hoare_weaken;
     [apply setup_mappings_creating|apply nothing_created_creating|auto]
    |apply creating_complete|intros tables].
  apply (hoare_seq creating creating snapshots_complete);
    [apply create_manufacturers_creating|apply creating_complete|intros manufacturers].
  apply (hoare_seq creating creating snapshots_complete);
    [apply create_model_years_creating|apply creating_complete|intros model_years].
  apply (hoare_seq creating creating snapshots_complete);
    [apply populate_vehicles_creating|apply creating_complete|intros _].
  apply (hoare_seq creating snapshots_complete snapshots_complete);
    [apply save_populated_complete|auto|intros _].
  apply quiet_keeps_complete.
  unfold run_reasoner, sync_reasoner_hermit, report_statistics, count_all_individuals,
    count_class_instances.
  repeat all_step quiet_ev.
Qed.

Lemma main_complete : hoare nothing_created snapshots_complete (main E).
Proof.
  unfold main.
  apply (hoare_try nothing_created snapshots_complete snapshots_complete);
    [apply populate_ontology_complete|auto|intros e].
  apply quiet_keeps_complete. repeat all_step quiet_ev.
Qed.

End Snapshots.

(** X13: every individual the run creates is in the saved ontology with
    its class: whenever the run writes a snapshot of the ontology, each
    individual created during the run (classification values,
    manufacturers, model years, vehicles, the vehicles of rows that failed
    included) is an instance of its class in that snapshot. *)
Theorem created_individuals_are_saved (E : environment) (file : string)
    (snapshot : ontology) (cls name : string)
    (Hsave : In (EvSave file snapshot) (snd (run E)))
    (Hnew : In (EvNew cls name) (snd (run E))) :
  has_type snapshot name cls.
Proof.
  assert (H : snapshots_complete (snd (main E initial_state))).
  { apply main_complete. constructor. }
  exact (H file snapshot Hsave cls name Hnew).
Qed.

Lemma saved_In (evs : list event) (file : string) (snapshot : ontology) :
  In (file, snapshot) (saved evs) -> In (EvSave file snapshot) evs.
Proof.
  induction evs as [|ev r IH]; simpl; [auto|].
  destruct ev; simpl; try (intros H; right; apply IH; exact H).
  intros [[= -> ->]|H]; [left; reflexivity|right; apply IH; exact H].
Qed.

Lemma created_list_In (evs : list event) (cls name : string) :
  In (cls, name) (created_list evs) -> In (EvNew cls name) evs.
Proof.
  induction evs as [|ev r IH]; simpl; [auto|].
  destruct ev; simpl; try (intros H; right; apply IH; exact H).
  intros [[= -> ->]|H]; [left; reflexivity|right; apply IH; exact H].
Qed.

Lemma saved_snapshot_In (evs : list event) (file : string) :
  option_map fst (head (saved evs)) = Some file ->
  In (EvSave file (saved_snapshot evs)) evs.
Proof.
  intros H. apply saved_In. unfold saved_snapshot.
  destruct (saved evs) as [|[f s] r]; [discriminate|].
  injection H as <-. left. reflexivity.
Qed.

Lemma created_individuals_are_saved_witness :
  has_type (saved_snapshot (snd (run demo_env))) "Audi_A4_2020_00001" "Vehicle".
Proof.
  apply (created_individuals_are_saved demo_env OUTPUT_FILENAME
           (saved_snapshot (snd (run demo_env))) "Vehicle" "Audi_A4_2020_00001").
  - apply saved_snapshot_In. vm_compute. reflexivity.
  - apply created_list_In. vm_compute. repeat (first [left; reflexivity|right]).
Defined.

(** ** Files of unique values *)

Lemma String_ltb_asym (s t : string) : String.ltb s t = true -> String.ltb t s = false.
Proof.
  unfold String.ltb. rewrite (String.compare_antisym t s).
  destruct (String.compare s t); simpl; congruence.
Qed.

Lemma number_ltb_asym (a b : number) : number_ltb a b = true -> number_ltb b a = false.
Proof.
  destruct a as [x|[]], b as [y|[]]; simpl; try congruence.
  unfold Qltb. intros H. apply Z.ltb_lt in H. apply Z.ltb_ge. lia.
Qed.

Section Sorting.

(** A kind of values that [<] orders. *)
Variable K : pyval -> bool.
Hypothesis ltb_defined : forall a b, K a = true -> K b = true ->
  exists t, py_ltb a b = Val t /\ (t = true -> py_ltb b a = Val false).

Lemma insert_sorted_kind (x : pyval) (l : list pyval) :
  K x = true -> forallb K l = true -> Sorted ascending l ->
  exists l',
    insert_sorted x l = Val l'
    /\ Permutation (x :: l) l'
    /\ forallb K l' = true
    /\ Sorted ascending l'
    /\ forall z, ascending z x -> HdRel ascending z l -> HdRel ascending z l'.
Proof.
  intros Hx. induction l as [|y r IH]; intros Hl Hs.
  - exists [x]. simpl. rewrite Hx. repeat split; auto.
  - simpl in Hl. apply andb_true_iff in Hl as [Hy Hr].
    apply Sorted_inv in Hs as [Hs Hhd].
    destruct (ltb_defined x y Hx Hy) as (t & Hlt & Hasym).
    cbn [insert_sorted]. rewrite Hlt. cbn [ebind]. destruct t.
    + exists (x :: y :: r). split; [reflexivity|]. split; [reflexivity|].
      split; [simpl; rewrite Hx, Hy, Hr; reflexivity|].
      split; [|intros z Hz _; constructor; exact Hz].
      constructor; [constructor; assumption|]. constructor.
      unfold ascending. apply Hasym. reflexivity.
    + destruct (IH Hr Hs) as (r' & Hins & Hperm & Hk & Hsorted & Hhead).
      rewrite Hins. cbn [ebind]. exists (y :: r').
      split; [reflexivity|].
      split; [rewrite perm_swap; apply perm_skip; exact Hperm|].
      split; [simpl; rewrite Hy, Hk; reflexivity|].
      split; [|intros z _ Hz; constructor; apply HdRel_inv in Hz; exact Hz].
      constructor; [exact Hsorted|]. apply Hhead; [exact Hlt|exact Hhd].
Qed.

Lemma py_sorted_kind (l : list pyval) :
  forallb K l = true ->
  exists l',
    py_sorted l = Val l' /\ Permutation l l' /\ forallb K l' = true
    /\ Sorted ascending l'.
Proof.
  induction l as [|x r IH]; intros Hl.
  - exists []. repeat split; auto.
  - simpl in Hl. apply andb_true_iff in Hl as [Hx Hr].
    destruct (IH Hr) as (r' & Hsort & Hperm & Hk & Hs).
    destruct (insert_sorted_kind x r' Hx Hk Hs) as (l' & Hins & Hperm' & Hk' & Hs' & _).
    exists l'. cbn [py_sorted]. rewrite Hsort. cbn [ebind].
    split; [exact Hins|]. split; [|auto].
    etransitivity; [apply perm_skip; exact Hperm|exact Hperm'].
Qed.

End Sorting.

Lemma texts_ordered (a b : pyval) :
  is_str a = true -> is_str b = true ->
  exists t, py_ltb a b = Val t /\ (t = true -> py_ltb b a = Val false).
Proof.
  destruct a as [| |s|x], b as [| |t|y]; try discriminate. intros _ _.
  exists (String.ltb s t). split; [reflexivity|].
  intros H. simpl. rewrite (String_ltb_asym s t H). reflexivity.
Qed.

Lemma numbers_ordered (a b : pyval) :
  is_num a = true -> is_num b = true ->
  exists t, py_ltb a b = Val t /\ (t = true -> py_ltb b a = Val false).
Proof.
  destruct a as [| |s|x], b as [| |t|y]; try discriminate. intros _ _.
  exists (number_ltb x y). split; [reflexivity|].
  intros H. simpl. rewrite (number_ltb_asym x y H). reflexivity.
Qed.

Lemma py_sorted_one_kind (l : list pyval) :
  one_kind l = true ->
  exists l', py_sorted l = Val l' /\ Permutation l l' /\ Sorted ascending l'
             /\ no_nulls l' = true.
Proof.
  unfold one_kind. intros H. apply orb_true_iff in H as [H|H].
  - destruct (py_sorted_kind is_str texts_ordered l H) as (l' & Hs & Hp & Hk & Hsorted).
    exists l'. repeat split; auto. unfold no_nulls.
    apply forallb_forall. intros v Hv.
    rewrite forallb_forall in Hk. specialize (Hk v Hv). destruct v; try discriminate; reflexivity.
  - destruct (py_sorted_kind is_num numbers_ordered l H) as (l' & Hs & Hp & Hk & Hsorted).
    exists l'. repeat split; auto. unfold no_nulls.
    apply forallb_forall. intros v Hv.
    rewrite forallb_forall in Hk. specialize (Hk v Hv). destruct v; try discriminate; reflexivity.
Qed.

Lemma insert_sorted_perm (x : pyval) (l l' : list pyval) :
  insert_sorted x l = Val l' -> Permutation (x :: l) l'.
Proof.
  revert l'. induction l as [|y r IH]; intros l'; cbn [insert_sorted].
  - intros [= <-]. reflexivity.
  - destruct (py_ltb x y) as [[]|e]; cbn [ebind]; [intros [= <-]; reflexivity| |discriminate].
    destruct (insert_sorted x r) as [r'|e]; cbn [ebind]; [|discriminate].
    intros [= <-]. rewrite perm_swap. apply perm_skip. apply IH. reflexivity.
Qed.

Lemma py_sorted_perm (l l' : list pyval) : py_sorted l = Val l' -> Permutation l l'.
Proof.
  revert l'. induction l as [|x r IH]; intros l'; cbn [py_sorted].
  - intros [= <-]. reflexivity.
  - destruct (py_sorted r) as [r'|e]; cbn [ebind]; [|discriminate].
    intros H. apply insert_sorted_perm in H.
    etransitivity; [apply perm_skip; apply IH; reflexivity|exact H].
Qed.

(** A text and a number in one list: the comparison raises. *)
Lemma py_sorted_mixed (l : list pyval) :
  no_nulls l = true ->
  forall s n, In (VStr s) l -> In (VNum n) l -> is_exc (py_sorted l) = true.
Proof.
  induction l as [|x r IH]; intros Hnn s n Hs Hn; [destruct Hs|].
  unfold no_nulls in Hnn. simpl in Hnn. apply andb_true_iff in Hnn as [Hx Hr].
  cbn [py_sorted]. destruct (py_sorted r) as [r'|e] eqn:Hsort; [|reflexivity].
  pose proof (py_sorted_perm r r' Hsort) as Hperm. cbn [ebind].
  assert (Hhead : forall v, In v r ->
            match r' with
            | [] => False
            | y :: _ => In y r /\ isna y = false
            end).
  { intros v Hv. destruct r' as [|y r''].
    - apply (Permutation_in _ Hperm) in Hv. destruct Hv.
    - assert (Hy : In y r).
      { apply (Permutation_in _ (Permutation_sym Hperm)). left. reflexivity. }
      split; [exact Hy|].
      unfold no_nulls in Hr. rewrite forallb_forall in Hr. specialize (Hr y Hy).
      destruct (isna y); [discriminate|reflexivity]. }
  destruct Hs as [->|Hs], Hn as [Hn|Hn]; try discriminate.
  - specialize (Hhead _ Hn). destruct r' as [|y r'']; [contradiction|].
    destruct Hhead as [Hy Hyn]. cbn [insert_sorted].
    destruct y as [| |s'|n']; try discriminate; [|reflexivity].
    specialize (IH Hr s' n Hy Hn). discriminate.
  - subst x. specialize (Hhead _ Hs). destruct r' as [|y r'']; [contradiction|].
    destruct Hhead as [Hy Hyn]. cbn [insert_sorted].
    destruct y as [| |s'|n']; try discriminate; [reflexivity|].
    specialize (IH Hr s n' Hs Hy). discriminate.
  - specialize (IH Hr s n Hs Hn). discriminate.
Qed.

Lemma not_one_kind_mixed (l : list pyval) :
  no_nulls l = true -> one_kind l = false ->
  exists s n, In (VStr s) l /\ In (VNum n) l.
Proof.
  unfold no_nulls, one_kind. intros Hnn H. apply orb_false_iff in H as [Hs Hn].
  assert (Hex : forall (p : pyval -> bool) (l0 : list pyval), forallb p l0 = false ->
                  exists v, In v l0 /\ p v = false).
  { intros p l0. induction l0 as [|x r IH]; simpl; [discriminate|].
    destruct (p x) eqn:Hp; simpl.
    - intros H. destruct (IH H) as (v & Hv & Hpv). exists v. auto.
    - intros _. exists x. auto. }
  destruct (Hex is_str l Hs) as (a & Ha & Has).
  destruct (Hex is_num l Hn) as (b & Hb & Hbn).
  rewrite forallb_forall in Hnn.
  pose proof (Hnn a Ha) as Hna. pose proof (Hnn b Hb) as Hnb.
  destruct a as [| |sa|na]; try discriminate.
  destruct b as [| |sb|nb]; try discriminate.
  exists sb, na. auto.
Qed.

Section UniqueValues.

Variable E : environment.

Lemma write_lines (filename : string) (l : list pyval) (st : state) :
  no_nulls l = true ->
  for_each l (fun value =>
    when (negb (isna value)) (emit (EvWrite filename (str E value ++ newline)))) st
  = (Ok tt, {| onto := onto st;
               trace := trace st ++ map (value_line E filename) l |}).
Proof.
  revert st. induction l as [|x r IH]; intros st Hnn.
  - simpl. unfold ret. rewrite app_nil_r. destruct st; reflexivity.
  - unfold no_nulls in Hnn. simpl in Hnn. apply andb_true_iff in Hnn as [Hx Hr].
    cbn [for_each]. rewrite Hx. cbn [when]. unfold bind at 1, emit at 1.
    rewrite (IH _ Hr). cbn [onto trace map]. rewrite <- app_assoc. reflexivity.
Qed.

Lemma save_unique_values_run (values : list pyval) (filename : string) (st : state) :
  open_fault E filename = None -> no_nulls values = true ->
  if one_kind values
  then exists sorted,
         Permutation values sorted
         /\ Sorted ascending sorted
         /\ save_unique_values E values filename st
            = (Ok tt,
               {| onto := onto st;
                  trace := trace st
                           ++ EvOpen filename
                              :: map (value_line E filename) sorted
                              ++ [EvLog ("Saved " ++ str_of_nat (length values)
                                         ++ " unique values to " ++ filename)] |})
  else exists e,
         save_unique_values E values filename st
         = (Raise e, {| onto := onto st; trace := trace st ++ [EvOpen filename] |}).
Proof.
  intros Hopen Hnn. unfold save_unique_values, open_write. rewrite Hopen.
  unfold bind at 1, emit at 1.
  destruct (one_kind values) eqn:Hk.
  - destruct (py_sorted_one_kind values Hk) as (sorted & Hsort & Hperm & Hs & Hnn').
    exists sorted. split; [exact Hperm|]. split; [exact Hs|].
    rewrite Hsort. cbn [lift]. unfold bind at 1, ret at 1.
    unfold bind at 1. rewrite (write_lines filename sorted _ Hnn').
    cbn [onto trace]. unfold log, emit. cbn [onto trace].
    rewrite <- !app_assoc. reflexivity.
  - destruct (not_one_kind_mixed values Hnn Hk) as (s & n & Hs & Hn).
    pose proof (py_sorted_mixed values Hnn s n Hs Hn) as Hexc.
    destruct (py_sorted values) as [l|e]; [discriminate|].
    exists e. reflexivity.
Qed.

End UniqueValues.

(** X14: the file of a column holds its unique values in ascending order,
    one per line: when the values are all texts or all numbers,
    [save_unique_values] opens the file, writes one line for each value of a
    sorted rearrangement of the values, and logs their number.  When the
    values mix texts and numbers, sorting raises after the file is opened:
    the file stays empty and the exception leaves the function. *)
Theorem unique_values_file (E : environment) (values : list pyval) (filename : string)
    (st : state)
    (Hopen : open_fault E filename = None)
    (Hnull : no_nulls values = true) :
  if one_kind values
  then exists sorted,
         Permutation values sorted
         /\ Sorted ascending sorted
         /\ save_unique_values E values filename st
            = (Ok tt,
               {| onto := onto st;
                  trace := trace st
                           ++ EvOpen filename
                              :: map (value_line E filename) sorted
                              ++ [EvLog ("Saved " ++ str_of_nat (length values)
                                         ++ " unique values to " ++ filename)%string] |})
  else exists e,
         save_unique_values E values filename st
         = (Raise e, {| onto := onto st; trace := trace st ++ [EvOpen filename] |}).
Proof. apply save_unique_values_run; assumption. Qed.

Lemma unique_values_file_witness :
  exists e,
    save_unique_values demo_env [VStr "Audi"; int_cell 7] "artifacts/make_values.txt"
      demo_state
    = (Raise e, {| onto := onto demo_state;
                   trace := trace demo_state ++ [EvOpen "artifacts/make_values.txt"] |}).
Proof.
  apply (unique_values_file demo_env [VStr "Audi"; int_cell 7] "artifacts/make_values.txt"
           demo_state); reflexivity.
Defined.

(** ** What a run asserts *)

Ltac asserted_event :=
  cbn; first [exact I|reflexivity|repeat (first [left; reflexivity|right])].

Lemma main_asserts (E : environment) : emits (Forall asserted) (main E).
Proof. unfold_script. repeat all_step asserted_event. Qed.

(** X15: a run creates individuals of the classes FuelType,
    VehicleSizeClass, DriveType, Manufacturer, ModelYear and Vehicle only,
    never of one of the vehicle categories it reports on, which are left to
    the reasoner; and it assigns only the listed properties, each with one
    kind of value: texts for the five text properties and
    [electricMotorSpec], an integer for [year], numbers for the eight
    numeric properties, a boolean for [hasElectricity], and entities for
    the eight object properties. *)
Theorem run_asserts_only (E : environment) :
  Forall asserted (snd (run E))
  /\ forall category, In category vehicle_categories ->
       ~ In category population_classes.
Proof.
  split.
  - destruct (main_asserts E initial_state) as (evs & Htr & Hevs).
    unfold run. cbn [snd]. rewrite Htr. exact Hevs.
  - intros category Hc Hp. unfold population_classes in Hp. simpl in Hp.
    unfold vehicle_categories in Hc. simpl in Hc.
    repeat (destruct Hp as [<-|Hp];
            [repeat (destruct Hc as [Hc|Hc]; [discriminate Hc|]); exact Hc|]).
    exact Hp.
Qed.

Lemma run_asserts_only_witness : ~ In "SedanVehicle"%string population_classes.
Proof.
  apply (proj2 (run_asserts_only demo_env) "SedanVehicle"%string).
  unfold vehicle_categories. simpl. tauto.
Defined.

(** ** The report *)

Section ReadsOnly.

Variable o : ontology.
Variable P : event -> Prop.

Lemma reads_ret {A : Type} (a : A) : reads_only o P (ret a).
Proof.
  intros st Hst. split; [exact Hst|]. split; [discriminate|].
  exists []. rewrite app_nil_r. auto.
Qed.

Lemma reads_raise {A : Type} (e : exn) : reads_only o P (@raise A e).
Proof.
  intros st Hst. split; [exact Hst|]. split; [discriminate|].
  exists []. rewrite app_nil_r. auto.
Qed.

Lemma reads_get_onto : reads_only o P get_onto.
Proof.
  intros st Hst. split; [exact Hst|]. split; [discriminate|].
  exists []. rewrite app_nil_r. auto.
Qed.

Lemma reads_emit (ev : event) : P ev -> reads_only o P (emit ev).
Proof.
  intros Hev st Hst. split; [exact Hst|]. split; [discriminate|].
  exists [ev]. split; [reflexivity|]. repeat constructor. exact Hev.
Qed.

Lemma reads_log (msg : string) : P (EvLog msg) -> reads_only o P (log msg).
Proof. apply reads_emit. Qed.

Lemma reads_bind {A B : Type} (m : M A) (k : A -> M B) :
  reads_only o P m -> (forall a, reads_only o P (k a)) -> reads_only o P (bind m k).
Proof.
  intros Hm Hk st Hst. unfold bind.
  destruct (Hm st Hst) as (Ho & Hne & evs & Htr & Hevs).
  destruct (m st) as [[a|e|c] s1]; simpl in *.
  - destruct (Hk a s1 Ho) as (Ho' & Hne' & evs' & Htr' & Hevs').
    split; [exact Ho'|]. split; [exact Hne'|].
    exists (evs ++ evs'). rewrite Htr', Htr, app_assoc.
    split; [reflexivity|]. apply Forall_app. auto.
  - split; [exact Ho|]. split; [discriminate|]. eauto.
  - exfalso. apply (Hne c). reflexivity.
Qed.

Lemma reads_when (b : bool) (m : M unit) : reads_only o P m -> reads_only o P (when b m).
Proof. destruct b; [auto|intros _; apply reads_ret]. Qed.

Lemma raises_now {A B : Type} (m : M A) (k : A -> M B) :
  reads_and_raises o P m -> reads_and_raises o P (bind m k).
Proof.
  intros [Hm Hr]. split.
  - intros st Hst. destruct (Hm st Hst) as (Ho & Hne & Hev).
    destruct (Hr st Hst) as (e & He). unfold bind.
    destruct (m st) as [[a|e'|c] s1]; simpl in *; try discriminate.
    split; [exact Ho|]. split; [discriminate|exact Hev].
  - intros st Hst. destruct (Hr st Hst) as (e & He). unfold bind.
    destruct (m st) as [[a|e'|c] s1]; simpl in *; try discriminate. eauto.
Qed.

Lemma raises_later {A B : Type} (m : M A) (k : A -> M B) :
  reads_only o P m -> (forall a, reads_and_raises o P (k a)) ->
  reads_and_raises o P (bind m k).
Proof.
  intros Hm Hk. split.
  - apply reads_bind; [exact Hm|]. intros a. apply Hk.
  - intros st Hst. destruct (Hm st Hst) as (Ho & Hne & _). unfold bind.
    destruct (m st) as [[a|e|c] s1]; simpl in *.
    + destruct (Hk a) as [_ Hr]. apply Hr. exact Ho.
    + eauto.
    + exfalso. apply (Hne c). reflexivity.
Qed.

(** A handler that ends normally turns the exception into its events. *)
Lemma raises_caught {A : Type} (body : M A) (handler : exn -> M A) (st : state) :
  reads_and_raises o P body -> onto st = o ->
  exists e s1 evs,
    body st = (Raise e, s1) /\ onto s1 = o
    /\ trace s1 = trace st ++ evs /\ Forall P evs
    /\ try_except body handler st = handler e s1.
Proof.
  intros [Hm Hr] Hst. destruct (Hm st Hst) as (Ho & _ & evs & Htr & Hevs).
  destruct (Hr st Hst) as (e & He). unfold try_except.
  destruct (body st) as [r s1]. simpl in *. subst r.
  exists e, s1, evs. auto.
Qed.

End ReadsOnly.

Ltac reads_step tac :=
  first
    [ apply reads_ret | apply reads_raise | apply reads_get_onto
    | apply reads_log; tac
    | apply reads_emit; tac
    | apply reads_bind; [|intros ?]
    | apply reads_when
    | match goal with
      | |- reads_only _ _ (match ?x with _ => _ end) => destruct x
      end ].

Lemma vehicle_categories_nodup : List.NoDup ("Vehicle"%string :: vehicle_categories).
Proof.
  unfold vehicle_categories.
  repeat (constructor; [cbn; intuition discriminate|]). constructor.
Qed.

Section Report.

Variable E : environment.
Variable o : ontology.
Variables (before after : list string) (c : string).
Hypothesis Hsplit : vehicle_categories = before ++ c :: after.
Hypothesis Hmissing : o !! c = None.

Ltac counted :=
  unfold counts_within; intros ? Hq;
  first [discriminate Hq|injection Hq as <-; auto].

Lemma count_all_individuals_reads :
  reads_only o (counts_within before) (count_all_individuals E).
Proof. unfold count_all_individuals. repeat reads_step counted. Qed.

Lemma count_class_instances_reads (x : string) :
  x = "Vehicle"%string \/ In x before ->
  reads_only o (counts_within before) (count_class_instances E x).
Proof. intros Hx. unfold count_class_instances. repeat reads_step counted. Qed.

Lemma count_missing_raises :
  reads_and_raises o (counts_within before) (count_class_instances E c).
Proof.
  split.
  - intros st Hst. unfold count_class_instances, bind, get_onto, onto_getattr. simpl.
    rewrite Hst, Hmissing. simpl. split; [exact Hst|]. split; [discriminate|].
    exists []. rewrite app_nil_r. auto.
  - intros st Hst. unfold count_class_instances, bind, get_onto, onto_getattr. simpl.
    rewrite Hst, Hmissing. simpl. eauto.
Qed.

Lemma categories_loop_raises (todo : list string) :
  (forall x, In x todo -> In x before) ->
  reads_and_raises o (counts_within before)
    (for_each (todo ++ c :: after) (fun category =>
       instances_count <- count_class_instances E category ;;
       when (0 <? instances_count)%nat
         (log ("  " ++ category ++ ": " ++ str_of_nat instances_count ++ " instances")))).
Proof.
  induction todo as [|x r IH]; intros Hin.
  - cbn [app for_each]. apply raises_now. apply raises_now. apply count_missing_raises.
  - cbn [app for_each]. apply raises_later.
    + apply reads_bind; [apply count_class_instances_reads; right; apply Hin; left;
                         reflexivity|intros n].
      repeat reads_step counted.
    + intros _. apply IH. intros y Hy. apply Hin. right. exact Hy.
Qed.

Lemma report_statistics_stops (st : state) :
  onto st = o ->
  exists evs,
    report_statistics E st = (Ok tt, {| onto := o; trace := trace st ++ evs |})
    /\ Forall (counts_within before) evs
    /\ existsb is_statistics_error evs = true.
Proof.
  intros Hst. unfold report_statistics. unfold bind at 1, log at 1, emit at 1.
  match goal with
  | |- context [try_except ?body ?handler ?s0] =>
      destruct (raises_caught o (counts_within before) body handler s0)
        as (e & s1 & evs & Hbody & Ho & Htr & Hevs & Htry)
  end.
  - apply raises_later; [apply count_all_individuals_reads|intros total].
    apply raises_later;
      [apply count_class_instances_reads; left; reflexivity|intros vehicles].
    apply raises_later; [repeat reads_step counted|intros _].
    apply raises_later; [repeat reads_step counted|intros _].
    rewrite Hsplit. apply categories_loop_raises. auto.
  - exact Hst.
  - rewrite Htry. unfold log, emit. rewrite Ho, Htr. cbn [trace].
    exists (EvLog "Ontology population statistics (after reasoning):"
            :: evs ++ [EvLog ("Error calculating statistics: " ++ e)%string]).
    split; [rewrite <- !app_assoc; reflexivity|]. split.
    + apply List.Forall_cons; [counted|]. apply Forall_app. split; [exact Hevs|].
      apply List.Forall_cons; [counted|apply List.Forall_nil].
    + cbn [existsb is_statistics_error String.prefix]. rewrite existsb_app.
      cbn [existsb is_statistics_error].
      rewrite prefix_append. rewrite !orb_true_r. reflexivity.
Qed.

Lemma after_not_before (x : string) : In x after -> x <> "Vehicle"%string /\ ~ In x before.
Proof.
  intros Hx. pose proof vehicle_categories_nodup as Hnd. rewrite Hsplit in Hnd.
  apply NoDup_cons_iff in Hnd as [Hv Hnd]. split.
  - intros ->. apply Hv. apply in_or_app. right. right. exact Hx.
  - intros Hb. apply NoDup_app_remove_l in Hnd as Hnd'.
    clear Hnd'. revert Hnd Hb. clear -Hx. induction before as [|y r IH]; [contradiction|].
    cbn [app]. intros Hnd [->|Hb].
    + apply NoDup_cons_iff in Hnd as [Hy _]. apply Hy.
      apply in_or_app. right. right. exact Hx.
    + apply NoDup_cons_iff in Hnd as [_ Hnd]. exact (IH Hnd Hb).
Qed.

End Report.

(** X16: when the ontology lacks the class of one of the reported vehicle
    categories, the report ends there: [report_statistics] logs "Error
    calculating statistics" and still ends normally, and the instances of
    the categories that come later in the list are never counted, whether
    the ontology has them or not. *)
Theorem statistics_stop_at_missing_category (E : environment) (st : state)
    (before after : list string) (c : string)
    (Hsplit : vehicle_categories = before ++ c :: after)
    (Hmissing : onto st !! c = None) :
  exists evs,
    report_statistics E st = (Ok tt, {| onto := onto st; trace := trace st ++ evs |})
    /\ existsb is_statistics_error evs = true
    /\ forall later, In later after -> ~ In (EvQuery (CallInstances later)) evs.
Proof.
  destruct (report_statistics_stops E (onto st) before after c Hsplit Hmissing st eq_refl)
    as (evs & Hrun & Hevs & Herr).
  exists evs. split; [exact Hrun|]. split; [exact Herr|].
  intros later Hlater Hin.
  destruct (after_not_before before after c Hsplit later Hlater) as [Hv Hb].
  rewrite List.Forall_forall in Hevs.
  destruct (Hevs _ Hin later eq_refl) as [H|H]; [exact (Hv H)|exact (Hb H)].
Qed.

Lemma statistics_stop_at_missing_category_witness :
  exists evs,
    report_statistics demo_env no_hatchback_state
    = (Ok tt, {| onto := onto no_hatchback_state;
                 trace := trace no_hatchback_state ++ evs |})
    /\ existsb is_statistics_error evs = true
    /\ forall later, In later (skipn 18 vehicle_categories) ->
         ~ In (EvQuery (CallInstances later)) evs.
Proof.
  apply (statistics_stop_at_missing_category demo_env no_hatchback_state
           (firstn 17 vehicle_categories) (skipn 18 vehicle_categories)
           "HatchbackVehicle").
  - reflexivity.
  - vm_compute. reflexivity.
Defined.

(** ** The statistics file *)

Lemma null_and_values_count (data : DataFrame) (c : string) :
  (null_count data c + length (dropna (column data c)) = df_len data)%nat.
Proof.
  unfold null_count, dropna, df_len, column.
  rewrite <- (length_map (fun r => snd r c) (df_rows data)).
  generalize (map (fun r : Z * (string -> pyval) => snd r c) (df_rows data)).
  intros l. induction l as [|x r IH]; simpl; [reflexivity|].
  destruct (isna x); simpl; lia.
Qed.

Lemma stats_entry_fresh (data : DataFrame) (done : list string) (c : string) :
  ~ In c done -> dict_get (map (stats_entry data) done) (VStr c) = None.
Proof.
  induction done as [|d r IH]; simpl; [reflexivity|].
  intros H. destruct (String.eqb d c) eqn:Hd.
  - apply String.eqb_eq in Hd. subst. exfalso. apply H. left. reflexivity.
  - apply IH. intros Hr. apply H. right. exact Hr.
Qed.

Lemma NoDup_split_fresh (done todo : list string) (c : string) :
  List.NoDup (done ++ c :: todo) -> ~ In c done.
Proof.
  intros H Hin. apply NoDup_remove_2 in H. apply H. apply in_or_app. left. exact Hin.
Qed.

Lemma emit_lines {A : Type} (g : A -> event) (l : list A) (st : state) :
  for_each l (fun x => emit (g x)) st
  = (Ok tt, {| onto := onto st; trace := trace st ++ map g l |}).
Proof.
  revert st. induction l as [|x r IH]; intros st.
  - simpl. unfold ret. rewrite app_nil_r. destruct st; reflexivity.
  - cbn [for_each]. unfold bind at 1, emit at 1. rewrite IH. cbn [onto trace map].
    rewrite <- app_assoc. reflexivity.
Qed.

Section Statistics.

Variable E : environment.

Lemma save_unique_values_appends values f :
  emits (Forall (fun _ => True)) (save_unique_values E values f).
Proof.
  unfold save_unique_values, open_write. repeat all_step ltac:(exact I).
Qed.

Lemma column_stats_loop data st stats st' :
  List.NoDup (df_columns data) ->
  for_fold (df_columns data)
    (fun (column_stats : pydict (nat * nat)) c =>
       let values := unique (dropna (column data c)) in
       let column_stats' :=
         dict_set column_stats (VStr c) (length values, null_count data c) in
       save_unique_values E values (values_path c) ;;
       ret column_stats')
    [] st = (Ok stats, st') ->
  stats = map (stats_entry data) (df_columns data)
  /\ onto st' = onto st
  /\ exists evs, trace st' = trace st ++ evs.
Proof.
  intros Hnd Hrun.
  pose (J := fun (done : list string) (t : pydict (nat * nat)) (s : state) =>
               t = map (stats_entry data) done
               /\ onto s = onto st
               /\ exists evs, trace s = trace st ++ evs).
  refine (for_fold_ind J _ (df_columns data) _ [] st stats st' _ Hrun).
  - intros done c todo t s t' s' Hl (-> & Ho & evs & Htr) Hbody.
    cbv zeta in Hbody. apply bind_ok in Hbody as ([] & s1 & Hsave & [= <- <-]).
    destruct (save_unique_values_appends (column_values data c) (values_path c) s)
      as (evs1 & Htr1 & _).
    unfold column_values in Htr1. rewrite Hsave in Htr1. cbn [snd] in Htr1.
    split; [|split].
    + rewrite dict_set_fresh.
      * rewrite map_app. reflexivity.
      * apply stats_entry_fresh. rewrite Hl in Hnd.
        eapply NoDup_split_fresh. exact Hnd.
    + rewrite <- Ho.
      assert (Hk : keeps (fun x => onto x = onto s)
                     (save_unique_values E (unique (dropna (column data c)))
                        (values_path c))).
      { unfold save_unique_values, open_write.
        repeat keeps_step ltac:(simpl; intros; assumption). }
      specialize (Hk s eq_refl). rewrite Hsave in Hk. exact Hk.
    + exists (evs ++ evs1). rewrite Htr1, Htr, app_assoc. reflexivity.
  - split; [reflexivity|]. split; [reflexivity|]. exists []. rewrite app_nil_r. reflexivity.
Qed.

Lemma export_artifacts_statistics data st st' :
  List.NoDup (df_columns data) ->
  export_artifacts E data st = (Ok tt, st') ->
  onto st' = onto st
  /\ exists evs,
       trace st'
       = trace st ++ evs
         ++ EvOpen stats_path
            :: EvWrite stats_path ("Column,Unique Values,Null Count" ++ newline)
            :: map (stat_line data) (df_columns data)
            ++ [EvLog ("Saved column statistics to " ++ stats_path)].
Proof.
  intros Hnd Hrun. unfold export_artifacts in Hrun.
  apply bind_ok in Hrun as ([] & s0 & [= <-] & Hrun).
  apply bind_ok in Hrun as (stats & s1 & Hloop & Hrun).
  destruct (column_stats_loop data _ stats s1 Hnd Hloop) as (-> & Ho1 & evs & Htr1).
  apply bind_ok in Hrun as ([] & s2 & Hopen & Hrun).
  unfold open_write in Hopen.
  destruct (open_fault E stats_path); [discriminate|].
  injection Hopen as <-.
  apply bind_ok in Hrun as ([] & s3 & [= <-] & Hrun).
  apply bind_ok in Hrun as ([] & s4 & Hlines & [= <-]).
  rewrite emit_lines in Hlines. injection Hlines as <-.
  cbn [onto trace] in *. split; [exact Ho1|].
  exists (EvLog "Extracting and saving unique values from each column..." :: evs).
  rewrite Htr1. rewrite map_map.
  rewrite <- !app_assoc. cbn [app]. reflexivity.
Qed.

End Statistics.

(** X17: the statistics file of a run that exports normally holds, after
    its header line, one line per column, in the order of the columns:
    the name of the column, the number of its distinct non-null values and
    the number of its null cells; it is written after all the files of unique
    values, and the two numbers of a line never exceed the number of rows:
    the null cells and the non-null cells of a column add up to it.  The
    names of the columns are distinct, as pandas makes them. *)
Theorem statistics_file_lines (E : environment) (data : DataFrame) (st st' : state)
    (Hcolumns : List.NoDup (df_columns data))
    (Hrun : export_artifacts E data st = (Ok tt, st')) :
  (exists evs,
     trace st'
     = trace st ++ evs
       ++ EvOpen stats_path
          :: EvWrite stats_path ("Column,Unique Values,Null Count" ++ newline)%string
          :: map (stat_line data) (df_columns data)
          ++ [EvLog ("Saved column statistics to " ++ stats_path)%string])
  /\ forall c,
       (null_count data c + length (dropna (column data c)) = df_len data)%nat
       /\ (length (column_values data c) <= length (dropna (column data c)))%nat.
Proof.
  split.
  - destruct (export_artifacts_statistics E data st st' Hcolumns Hrun) as [_ H]. exact H.
  - intros c. split; [apply null_and_values_count|].
    unfold column_values. generalize (dropna (column data c)). intros l.
    induction l as [|x r IH]; simpl; [lia|].
    assert (Hf : forall p (l0 : list pyval), (length (List.filter p l0) <= length l0)%nat).
    { intros p l0. induction l0 as [|y l1 IH1]; simpl; [lia|].
      destruct (p y); simpl; lia. }
    specialize (Hf (fun w => negb (py_eqb x w)) (unique r)). lia.
Qed.

Lemma statistics_file_lines_witness :
  exists evs,
    trace (snd (export_artifacts demo_env demo_data demo_state))
    = trace demo_state ++ evs
      ++ EvOpen stats_path
         :: EvWrite stats_path ("Column,Unique Values,Null Count" ++ newline)%string
         :: map (stat_line demo_data) (df_columns demo_data)
         ++ [EvLog ("Saved column statistics to " ++ stats_path)%string].
Proof.
  apply (statistics_file_lines demo_env demo_data demo_state
           (snd (export_artifacts demo_env demo_data demo_state))).
  - unfold demo_data, demo_columns. cbn [df_columns].
    repeat (constructor; [cbn; intuition discriminate|]). constructor.
  - vm_compute. reflexivity.
Defined.

(** ** Runs that fail *)

Lemma fails_within_seq {A B : Type} (P : event -> Prop) (m : M A) (k : A -> M B) :
  emits (Forall P) m -> (forall a, fails_within P (k a)) -> fails_within P (bind m k).
Proof.
  intros Hm Hk st. unfold bind. destruct (Hm st) as (evs & Htr & Hevs).
  destruct (m st) as [[a|e|c] s1]; simpl in *; [|eauto|eauto].
  specialize (Hk a s1). destruct (k a s1) as [[b|e|c] s2]; simpl in *; [exact I| |].
  - destruct Hk as (evs' & Htr' & Hevs'). exists (evs ++ evs').
    rewrite Htr', Htr, app_assoc. split; [reflexivity|]. apply Forall_app. auto.
  - destruct Hk as (evs' & Htr' & Hevs'). exists (evs ++ evs').
    rewrite Htr', Htr, app_assoc. split; [reflexivity|]. apply Forall_app. auto.
Qed.

Lemma fails_within_ok {A : Type} (P : event -> Prop) (m : M A) (Phi : A -> Prop) :
  decides m SOk Phi -> fails_within P m.
Proof.
  intros Hm st. destruct (Hm st) as [Hs _].
  destruct (fst (m st)); [exact I|discriminate|discriminate].
Qed.

Ltac before_save_event := cbn; exact I.

Section FailedRuns.

Variable E : environment.

Lemma after_vehicles_decides :
  decides (save_populated E ;; run_reasoner E ;; report_statistics E ;;
           log "Ontology population process completed") SOk (fun _ => True).
Proof.
  eapply decides_bind_ok; [apply save_populated_decides|]. intros _ _.
  eapply decides_bind_ok; [apply run_reasoner_decides|]. intros _ _.
  eapply decides_bind_ok; [apply report_statistics_decides|]. intros _ _.
  apply decides_log.
Qed.

Lemma populate_ontology_fails_within : fails_within before_save (populate_ontology E).
Proof.
  unfold populate_ontology.
  do 2 (apply fails_within_seq; [repeat all_step before_save_event|intros _]).
  apply fails_within_seq;
    [unfold load_ontology; repeat all_step before_save_event|intros _].
  apply fails_within_seq;
    [unfold ensure_dir; repeat all_step before_save_event|intros _].
  apply fails_within_seq;
    [unfold load_data, read_csv; repeat all_step before_save_event|intros data].
  apply fails_within_seq;
    [unfold export_artifacts, save_unique_values, open_write;
     repeat all_step before_save_event|intros _].
  apply fails_within_seq;
    [unfold setup_mappings, add_new_values, add_default_body_styles, new_individual;
     repeat all_step before_save_event|intros tables].
  apply fails_within_seq;
    [unfold create_manufacturers, new_individual;
     repeat all_step before_save_event|intros manufacturers].
  apply fails_within_seq;
    [unfold create_model_years, new_individual;
     repeat all_step before_save_event|intros model_years].
  apply fails_within_seq;
    [unfold populate_vehicles, select_sample, process_row; unfold_vehicle;
     unfold new_individual, set_attr; repeat all_step before_save_event|intros _].
  eapply fails_within_ok. apply after_vehicles_decides.
Qed.

Lemma failed_run_before_save :
  fst (run E) <> 0 -> Forall before_save (snd (run E)).
Proof.
  unfold run, main, try_except. cbn [fst snd].
  pose proof (populate_ontology_fails_within initial_state) as H.
  destruct (populate_ontology E initial_state) as [[a|e|c] s1]; cbn [fst snd] in *.
  - intros Hne. exfalso. apply Hne. reflexivity.
  - intros _. destruct H as (evs & Htr & Hevs). simpl in Htr.
    unfold bind, log, emit, sys_exit. cbn [fst snd trace]. rewrite Htr.
    apply Forall_app. split; [exact Hevs|]. repeat constructor.
  - intros _. destruct H as (evs & Htr & Hevs). simpl in Htr. rewrite Htr. exact Hevs.
Qed.

Ltac event_kept := simpl; intros; first [assumption|apply in_or_app; left; assumption].

Lemma save_populated_attempt (st : state) :
  In (EvSave OUTPUT_FILENAME (onto st)) (trace (snd (save_populated E st)))
  \/ exists e, In (EvLog ("Error saving populated ontology: " ++ e))
                  (trace (snd (save_populated E st))).
Proof.
  unfold save_populated, onto_save, try_except, bind, log, emit, get_onto. simpl.
  destruct (lib_fault E (onto st) (CallSave OUTPUT_FILENAME)) as [e|]; simpl.
  - right. exists e. apply in_or_app. right. left. reflexivity.
  - left. apply in_or_app. left. apply in_or_app. right. left. reflexivity.
Qed.

Lemma run_reasoner_invokes (st : state) :
  In EvReasoner (trace (snd (run_reasoner E st))).
Proof.
  unfold run_reasoner, sync_reasoner_hermit, try_except, bind, log, emit, get_onto,
    put_onto. simpl.
  destruct (lib_fault E (onto st) CallReasoner) as [e|]; simpl.
  - apply in_or_app. left. apply in_or_app. right. left. reflexivity.
  - apply in_or_app. left. apply in_or_app. right. left. reflexivity.
Qed.

Lemma run_reasoner_keeps ev : keeps (fun st => In ev (trace st)) (run_reasoner E).
Proof. unfold run_reasoner, sync_reasoner_hermit. repeat keeps_step event_kept. Qed.

Lemma report_statistics_keeps ev : keeps (fun st => In ev (trace st)) (report_statistics E).
Proof.
  unfold report_statistics, count_all_individuals, count_class_instances.
  repeat keeps_step event_kept.
Qed.

Lemma completed_run_events (st st' : state) :
  populate_ontology E st = (Ok tt, st') ->
  In EvReasoner (trace st')
  /\ In (EvLog "Ontology population process completed") (trace st')
  /\ ((exists snapshot, In (EvSave OUTPUT_FILENAME snapshot) (trace st'))
      \/ exists e, In (EvLog ("Error saving populated ontology: " ++ e)) (trace st')).
Proof.
  unfold populate_ontology. intros H.
  do 4 (apply bind_ok in H as ([] & ? & _ & H)).
  apply bind_ok in H as (data & ? & _ & H).
  apply bind_ok in H as ([] & ? & _ & H).
  apply bind_ok in H as (tables & ? & _ & H).
  apply bind_ok in H as (manufacturers & ? & _ & H).
  apply bind_ok in H as (model_years & ? & _ & H).
  apply bind_ok in H as (counts & ? & _ & H).
  apply bind_ok in H as ([] & sa & Hsave & H).
  apply bind_ok in H as ([] & sb & Hreason & H).
  apply bind_ok in H as ([] & sc & Hreport & H).
  injection H as <-. cbn [trace].
  match type of Hsave with
  | save_populated E ?s = _ => pose proof (save_populated_attempt s) as Ha
  end.
  rewrite Hsave in Ha. cbn [snd] in Ha.
  pose proof (run_reasoner_invokes sa) as Hb. rewrite Hreason in Hb. cbn [snd] in Hb.
  assert (Hlater : forall ev, In ev (trace sa) -> In ev (trace sc)).
  { intros ev Hev.
    pose proof (run_reasoner_keeps ev sa Hev) as H1. rewrite Hreason in H1.
    pose proof (report_statistics_keeps ev sb H1) as H2. rewrite Hreport in H2.
    exact H2. }
  split; [|split].
  - apply in_or_app. left.
    pose proof (report_statistics_keeps EvReasoner sb Hb) as H2.
    rewrite Hreport in H2. exact H2.
  - apply in_or_app. right. left. reflexivity.
  - destruct Ha as [Ha|(e & Ha)].
    + left. eexists. apply in_or_app. left. apply Hlater. exact Ha.
    + right. exists e. apply in_or_app. left. apply Hlater. exact Ha.
Qed.

Lemma completed_run :
  fst (run E) = 0 ->
  exists st', populate_ontology E initial_state = (Ok tt, st')
              /\ snd (run E) = trace st'.
Proof.
  intros H0. pose proof (run_exit_code E) as Hcode. rewrite H0 in Hcode.
  destruct (populate_ontology_decides E initial_state) as [Hs _].
  unfold run, main, try_except. cbn [snd].
  destruct (populate_ontology E initial_state) as [[[]|e|c] s1]; simpl in Hs.
  - exists s1. auto.
  - rewrite <- Hs in Hcode. discriminate.
  - rewrite <- Hs in Hcode. discriminate.
Qed.

End FailedRuns.

(** X18: a run that ends with another exit code than 0 has not saved the
    ontology: it has written no output file, called no reasoner and counted
    no instances.  A run that ends with exit code 0 has reached the end: it
    has tried to save the output file (the snapshot is written, or the error
    of the save is logged), called the reasoner, and logged the completion
    line. *)
Theorem failed_run_saves_nothing (E : environment) :
  (fst (run E) <> 0 -> Forall before_save (snd (run E)))
  /\ (fst (run E) = 0 ->
      In EvReasoner (snd (run E))
      /\ In (EvLog "Ontology population process completed") (snd (run E))
      /\ ((exists snapshot, In (EvSave OUTPUT_FILENAME snapshot) (snd (run E)))
          \/ exists e, In (EvLog ("Error saving populated ontology: " ++ e)%string)
                          (snd (run E)))).
Proof.
  split; [apply failed_run_before_save|].
  intros H0. destruct (completed_run E H0) as (st' & Hrun & ->).
  exact (completed_run_events E initial_state st' Hrun).
Qed.

Lemma failed_run_saves_nothing_witness : Forall before_save (snd (run text_id_env)).
Proof.
  apply (proj1 (failed_run_saves_nothing text_id_env)).
  vm_compute. discriminate.
Defined.
